(** * Order placement and inventory consistency

    A shallow embedding of the order / inventory core of the e-commerce
    backend: [app/models.py] (tables), [app/schemas.py] (request bodies and
    their field constraints), [app/crud.py] (data layer) and the route
    handlers of [app/routers/orders.py] and [app/routers/inventory.py].

    Modelling conventions.
    - A table is the list of its rows; [query.filter(..).first()] is [find].
    - A handler is a computation over the database that either raises or
      returns: the monad [M] below.  [db.commit()] persists the pending
      session changes; the embedding applies a write at the statement that
      makes it.
    - The tables are PostgreSQL tables ([app/database.py]), and a commit
      fails when the rows it writes break what [app/models.py] declares:
      [DataError] for a value outside the range of its column,
      [IntegrityError] for a foreign key or a unique column.  No row of a
      failed commit is stored.  This is modelled for the writes of the
      orders and inventory tables.  The cart handlers add and set item
      quantities without the check of the column width; what is proved of
      them are invariants and properties of calls that return, which a
      failed commit cannot break.  Inserting a cart or an address for the
      authenticated user, and deleting a row, breaks nothing that
      [app/models.py] declares.  The id sequences are taken not to run
      out.
    - Python [int] is [Z].  A [Numeric(10, 2)] column read back as
      [Decimal] is the exact number of hundredths, see [Decimal].
    - [datetime.now()] is a clock value handed to the operation.
    - Audit columns ([created_at], [updated_at], [order_date]) are left out
      of the rows: no handler modelled here reads them. *)

From Stdlib Require Import ZArith Arith List String Ascii Bool Lia DecimalString.
Import ListNotations.
Open Scope string_scope.
Open Scope Z_scope.

Set Implicit Arguments.

(** ** Python values used by the handlers *)

(** [str(n)] for an integer, as used by the f-strings of the handlers. *)
Definition str_int (n : Z) : string := NilZero.string_of_int (Z.to_int n).

(** [decimal.Decimal] at the scale of the [Numeric(10, 2)] columns: the value
    is [cents / 100], kept as an exact integer number of hundredths. *)
Module Decimal.
Definition t := Z.
(** [Decimal("0.00")] *)
Definition zero : t := 0.
(** [Decimal + Decimal] *)
Definition add (a b : t) : t := a + b.
(** [Decimal * int] *)
Definition mul_int (a : t) (n : Z) : t := a * n.
(** a literal such as [Decimal("10.00")], given in hundredths *)
Definition of_cents (c : Z) : t := c.
End Decimal.

Definition datetime := Z.

(** ** Rows ([app/models.py]) *)

(** [models.User]: the authenticated user and the rows of the [users]
    table; the handlers read [id] only. *)
Record User := mkUser { user_id : Z }.

(** [models.Product].  There is no [quantity] column: stock lives in
    [Inventory] (see the NOTE in the class body). *)
Record Product := mkProduct {
  product_id : Z;
  product_sku : string;
  product_name : string;
  product_price : Decimal.t
}.

Record Inventory := mkInventory {
  inventory_id : Z;
  inventory_product_id : Z;
  quantity_in_stock : Z;
  reorder_level : Z;
  last_restocked_at : option datetime
}.

Record ShoppingCart := mkShoppingCart {
  cart_id : Z;
  cart_user_id : Z
}.

Record ShoppingCartItem := mkShoppingCartItem {
  item_id : Z;
  item_cart_id : Z;
  item_product_id : Z;
  item_quantity : Z
}.

Record Order := mkOrder {
  order_id : Z;
  order_user_id : Z;
  order_cart_id : option Z;
  order_address : string;
  order_status : string;
  total_amount : option Decimal.t
}.

(** The database: one list of rows per table, and the id sequences of the
    tables the handlers below insert into. *)
Record DB := mkDB {
  users : list User;
  products : list Product;
  inventory : list Inventory;
  shopping_carts : list ShoppingCart;
  shopping_cart_items : list ShoppingCartItem;
  orders : list Order;
  orders_id_seq : Z;
  inventory_id_seq : Z;
  shopping_carts_id_seq : Z;
  shopping_cart_items_id_seq : Z
}.

Definition set_inventory (rows : list Inventory) (seq : Z) (db : DB) : DB :=
  mkDB (users db) (products db) rows (shopping_carts db)
       (shopping_cart_items db) (orders db) (orders_id_seq db) seq
       (shopping_carts_id_seq db) (shopping_cart_items_id_seq db).

Definition set_orders (rows : list Order) (seq : Z) (db : DB) : DB :=
  mkDB (users db) (products db) (inventory db) (shopping_carts db)
       (shopping_cart_items db) rows seq (inventory_id_seq db)
       (shopping_carts_id_seq db) (shopping_cart_items_id_seq db).

Definition set_shopping_carts (rows : list ShoppingCart) (seq : Z) (db : DB)
  : DB :=
  mkDB (users db) (products db) (inventory db) rows
       (shopping_cart_items db) (orders db) (orders_id_seq db)
       (inventory_id_seq db) seq (shopping_cart_items_id_seq db).

Definition set_shopping_cart_items (rows : list ShoppingCartItem) (seq : Z)
           (db : DB) : DB :=
  mkDB (users db) (products db) (inventory db) (shopping_carts db) rows
       (orders db) (orders_id_seq db) (inventory_id_seq db)
       (shopping_carts_id_seq db) seq.

(** Row-level helpers: the first row that satisfies [p] is the one an ORM
    object obtained with [.first()] stands for. *)
Fixpoint update_first {A} (p : A -> bool) (f : A -> A) (rows : list A)
  : list A :=
  match rows with
  | [] => []
  | r :: rest => if p r then f r :: rest else r :: update_first p f rest
  end.

Fixpoint remove_first {A} (p : A -> bool) (rows : list A) : list A :=
  match rows with
  | [] => []
  | r :: rest => if p r then rest else r :: remove_first p rest
  end.

(** ** Exceptions and the handler monad *)

Inductive Exn :=
| HTTPException (status_code : Z) (detail : string)
    (** [fastapi.HTTPException] *)
| RequestValidationError (errors : list (string * string))
    (** a request body rejected by its pydantic schema (HTTP 422): the
        failing fields with the error type of each *)
| AttributeError (class_name attr : string)
| TypeError (msg : string)
| IntegrityError
    (** [sqlalchemy.exc.IntegrityError]: the commit breaks a foreign key or
        a unique column *)
| DataError
    (** [sqlalchemy.exc.DataError]: the commit writes a value outside the
        range of its column *).

Inductive Result (A : Type) :=
| Ok (a : A)
| Raise (e : Exn).
Arguments Ok {A} a.
Arguments Raise {A} e.

Definition M (A : Type) : Type := DB -> Result A * DB.

Definition ret {A} (a : A) : M A := fun db => (Ok a, db).
Definition raise {A} (e : Exn) : M A := fun db => (Raise e, db).
Definition bind {A B} (m : M A) (k : A -> M B) : M B :=
  fun db => match m db with
            | (Ok a, db') => k a db'
            | (Raise e, db') => (Raise e, db')
            end.
Definition query {A} (q : DB -> A) : M A := fun db => (Ok (q db), db).

Notation "x <- m ;; k" := (bind m (fun x => k))
  (at level 61, m at next level, right associativity).
Notation "m ;;; k" := (bind m (fun _ => k))
  (at level 61, right associativity).

(** ** What the storage engine checks at a commit ([app/models.py]) *)

Definition INT_MIN : Z := -2147483648.
Definition INT_MAX : Z := 2147483647.

(** [Column(Integer)]: a 4-byte integer. *)
Definition fits_Integer (v : Z) : bool := (INT_MIN <=? v) && (v <=? INT_MAX).

(** [Column(Numeric(10, 2))]: 10 digits, 2 of them after the point, so fewer
    than 10^8 units, that is 10^10 hundredths. *)
Definition fits_Numeric_10_2 (d : Decimal.t) : bool :=
  Z.abs d <? 10000000000.

(** A nullable column holds [NULL] or a value that fits. *)
Definition fits_nullable {A} (fits : A -> bool) (v : option A) : bool :=
  match v with Some x => fits x | None => true end.

(** ** Data layer ([app/crud.py]) *)

(** [get_product]: first product with this id. *)
Definition get_product (db : DB) (pid : Z) : option Product :=
  find (fun p => product_id p =? pid) (products db).

(** [get_shopping_cart]: first cart with this id. *)
Definition get_shopping_cart (db : DB) (cid : Z) : option ShoppingCart :=
  find (fun c => cart_id c =? cid) (shopping_carts db).

(** [cart.items]: the relationship, the items whose [cart_id] is the cart's. *)
Definition cart_items (db : DB) (c : ShoppingCart) : list ShoppingCartItem :=
  filter (fun it => item_cart_id it =? cart_id c) (shopping_cart_items db).

(** [get_inventory]: first inventory row with this id. *)
Definition get_inventory (db : DB) (iid : Z) : option Inventory :=
  find (fun r => inventory_id r =? iid) (inventory db).

(** [get_inventory_by_product] *)
Definition get_inventory_by_product (db : DB) (pid : Z) : option Inventory :=
  find (fun r => inventory_product_id r =? pid) (inventory db).

(** [get_order] *)
Definition get_order (db : DB) (oid : Z) : option Order :=
  find (fun o => order_id o =? oid) (orders db).

(** [schemas.OrderCreate] *)
Record OrderCreate := mkOrderCreate {
  oc_cart_id : Z;
  oc_address : string
}.

(** The loop of [crud.create_order]:
    [for item in cart.items: product = get_product(..);
       if product: total_amount += product.price * item.quantity]. *)
Fixpoint accumulate_total (db : DB) (items : list ShoppingCartItem)
         (total : Decimal.t) : Decimal.t :=
  match items with
  | [] => total
  | item :: rest =>
      match get_product db (item_product_id item) with
      | Some product =>
          accumulate_total db rest
            (Decimal.add total
               (Decimal.mul_int (product_price product) (item_quantity item)))
      | None => accumulate_total db rest total
      end
  end.

(** The values of an order fit their columns: [user_id] and [cart_id] are
    [Integer], [total_amount] is [Numeric(10, 2)]. *)
Definition order_fits (uid : Z) (cid : option Z) (total : option Decimal.t)
  : bool :=
  fits_Integer uid && fits_nullable fits_Integer cid
  && fits_nullable fits_Numeric_10_2 total.

(** The rows an order refers to exist: [user_id] is
    [ForeignKey("users.id")], [cart_id] is [ForeignKey("shopping_carts.id")]
    and nullable. *)
Definition order_references (db : DB) (uid : Z) (cid : option Z) : bool :=
  existsb (fun u => user_id u =? uid) (users db)
  && fits_nullable
       (fun c => existsb (fun cart => cart_id cart =? c) (shopping_carts db))
       cid.

(** [db.add(db_order); db.commit(); db.refresh(db_order)]: the row gets the
    next value of the id sequence and is appended to the table.  A value
    that does not fit its column is refused when the statement is prepared,
    before the sequence is asked for an id; a foreign key is checked on the
    inserted row, which has taken its id by then, and a sequence does not
    take a value back when the transaction is rolled back. *)
Definition insert_order (uid : Z) (cid : option Z) (address status : string)
           (total : option Decimal.t) : M Order :=
  fun db =>
    if negb (order_fits uid cid total) then (Raise DataError, db)
    else if negb (order_references db uid cid) then
      (Raise IntegrityError, set_orders (orders db) (orders_id_seq db + 1) db)
    else
      let o := mkOrder (orders_id_seq db + 1) uid cid address status total in
      (Ok o, set_orders (orders db ++ [o]) (orders_id_seq db + 1) db).

(** [crud.create_order(db, user_id, order)] *)
Definition crud_create_order (uid : Z) (order : OrderCreate) : M Order :=
  cart <- query (fun db => get_shopping_cart db (oc_cart_id order)) ;;
  total_amount <-
    match cart with
    | Some c =>
        query (fun db => accumulate_total db (cart_items db c) Decimal.zero)
    | None => ret Decimal.zero
    end ;;
  insert_order uid (Some (oc_cart_id order)) (oc_address order) "pending"
               (Some total_amount).

(** [crud.update_order]: [order_update.dict(exclude_unset=True)] applied
    with [setattr].  A field is [None] when the request left it unset. *)
Record OrderUpdate := mkOrderUpdate {
  ou_address : option string;
  ou_order_status : option string
}.

Definition apply_order_update (u : OrderUpdate) (o : Order) : Order :=
  mkOrder (order_id o) (order_user_id o) (order_cart_id o)
          (match ou_address u with Some a => a | None => order_address o end)
          (match ou_order_status u with
           | Some s => s
           | None => order_status o
           end)
          (total_amount o).

Definition crud_update_order (oid : Z) (u : OrderUpdate) : M (option Order) :=
  fun db =>
    match get_order db oid with
    | None => (Ok None, db)
    | Some db_order =>
        (Ok (Some (apply_order_update u db_order)),
         set_orders
           (update_first (fun o => order_id o =? oid) (apply_order_update u)
                         (orders db))
           (orders_id_seq db) db)
    end.

(** [crud.delete_order] *)
Definition crud_delete_order (oid : Z) : M (option Order) :=
  fun db =>
    match get_order db oid with
    | None => (Ok None, db)
    | Some db_order =>
        (Ok (Some db_order),
         set_orders (remove_first (fun o => order_id o =? oid) (orders db))
                    (orders_id_seq db) db)
    end.

(** ** Orders router ([app/routers/orders.py]) *)

(** [product.quantity]: [models.Product] maps no [quantity] attribute (the
    column was dropped, revision c3a9f1b2d4e6), so reading it raises. *)
Definition Product_quantity (p : Product) : M Z :=
  raise (AttributeError "Product" "quantity").

(** [product.quantity = v]: a plain instance attribute, mapped to no column;
    nothing is persisted. *)
Definition Product_set_quantity (p : Product) (v : Z) : M unit := ret tt.

(** The stock check loop of the handler (lines 66-77). *)
Fixpoint check_stock (items : list ShoppingCartItem) : M unit :=
  match items with
  | [] => ret tt
  | item :: rest =>
      product <- query (fun db => get_product db (item_product_id item)) ;;
      match product with
      | None =>
          raise (HTTPException 404
                   ("Product with ID " ++ str_int (item_product_id item)
                    ++ " not found"))
      | Some product =>
          quantity <- Product_quantity product ;;
          if quantity <? item_quantity item then
            available <- Product_quantity product ;;
            raise (HTTPException 400
                     ("Insufficient stock for " ++ product_name product
                      ++ ". Available: " ++ str_int available))
          else check_stock rest
      end
  end.

(** The call [crud.create_order(db=db, customer_id=.., order=order)]: the
    keyword has to name a parameter of [crud.create_order(db, user_id,
    order)]. *)
Definition call_crud_create_order (keyword : string) (uid : Z)
           (order : OrderCreate) : M Order :=
  if (keyword =? "user_id")%string then crud_create_order uid order
  else raise (TypeError
                ("create_order() got an unexpected keyword argument '"
                 ++ keyword ++ "'")).

(** The quantity update loop of the handler (lines 83-87). *)
Fixpoint update_quantities (items : list ShoppingCartItem) : M unit :=
  match items with
  | [] => ret tt
  | item :: rest =>
      product <- query (fun db => get_product db (item_product_id item)) ;;
      match product with
      | Some product =>
          quantity <- Product_quantity product ;;
          Product_set_quantity product (quantity - item_quantity item) ;;;
          update_quantities rest
      | None => update_quantities rest
      end
  end.

(** [create_order(order, current_user, db)], POST /orders/ *)
Definition router_create_order (order : OrderCreate) (current_user : User)
  : M Order :=
  cart <- query (fun db => get_shopping_cart db (oc_cart_id order)) ;;
  match cart with
  | None =>
      raise (HTTPException 404
               ("Cart with ID " ++ str_int (oc_cart_id order) ++ " not found"))
  | Some cart =>
      if negb (cart_user_id cart =? user_id current_user) then
        raise (HTTPException 403
                 "You can only create orders from your own cart")
      else
        items <- query (fun db => cart_items db cart) ;;
        match items with
        | [] =>
            raise (HTTPException 400 "Cannot create order from empty cart")
        | _ :: _ =>
            check_stock items ;;;
            db_order <- call_crud_create_order "customer_id"
                          (user_id current_user) order ;;
            items' <- query (fun db => cart_items db cart) ;;
            update_quantities items' ;;;
            ret db_order
        end
  end.

Definition valid_statuses : list string :=
  ["pending"; "confirmed"; "shipped"; "delivered"; "cancelled"].

(** Python truth value of a [str]. *)
Definition truthy (s : string) : bool := negb (s =? "")%string.

(** [x in xs] for a list of strings. *)
Definition str_in (x : string) (xs : list string) : bool :=
  existsb (String.eqb x) xs.

(** [update_order(order_id, order_update, current_user, db)],
    PUT /orders/{order_id} *)
Definition router_update_order (oid : Z) (order_update : OrderUpdate)
           (current_user : User) : M (option Order) :=
  order <- query (fun db => get_order db oid) ;;
  match order with
  | None =>
      raise (HTTPException 404
               ("Order with ID " ++ str_int oid ++ " not found"))
  | Some order =>
      if negb (order_user_id order =? user_id current_user) then
        raise (HTTPException 403 "You can only update your own orders")
      else if match ou_order_status order_update with
              | Some s => truthy s && negb (str_in s valid_statuses)
              | None => false
              end
      then
        raise (HTTPException 400
                 ("Invalid order status. Must be one of: "
                  ++ String.concat ", " valid_statuses))
      else crud_update_order oid order_update
  end.

(** [delete_order(order_id, current_user, db)], DELETE /orders/{order_id} *)
Definition router_delete_order (oid : Z) (current_user : User)
  : M (option Order) :=
  order <- query (fun db => get_order db oid) ;;
  match order with
  | None =>
      raise (HTTPException 404
               ("Order with ID " ++ str_int oid ++ " not found"))
  | Some order =>
      if negb (order_user_id order =? user_id current_user) then
        raise (HTTPException 403 "You can only delete your own orders")
      else if str_in (order_status order) ["shipped"; "delivered"] then
        raise (HTTPException 400
                 ("Cannot delete order with status '" ++ order_status order
                  ++ "'"))
      else crud_delete_order oid
  end.

(** ** Request schemas ([app/schemas.py]) *)

(** A request body is parsed by its pydantic schema before the handler
    runs.  [body_*] records are the JSON as received ([None]: key absent);
    the schema records are the validated values.  Every failing field is
    reported, with pydantic's error type for the violated bound. *)

Definition not_ge : string := "value_error.number.not_ge".
Definition not_gt : string := "value_error.number.not_gt".

(** [Field(.., ge=bound)] *)
Definition check_ge (field : string) (bound v : Z) : list (string * string) :=
  if bound <=? v then [] else [(field, not_ge)].

(** [Field(.., gt=bound)] *)
Definition check_gt (field : string) (bound v : Z) : list (string * string) :=
  if bound <? v then [] else [(field, not_gt)].

(** An optional field: the bound applies to a value that is present. *)
Definition check_opt (check : Z -> list (string * string)) (v : option Z)
  : list (string * string) :=
  match v with Some x => check x | None => [] end.

Definition validated {A} (errors : list (string * string)) (a : A) : M A :=
  match errors with
  | [] => ret a
  | _ :: _ => raise (RequestValidationError errors)
  end.

(** [InventoryCreate]: [product_id: int], [quantity_in_stock: int =
    Field(0, ge=0)], [reorder_level: int = Field(10, ge=0)] *)
Record InventoryCreate := mkInventoryCreate {
  ic_product_id : Z;
  ic_quantity_in_stock : Z;
  ic_reorder_level : Z
}.

Record body_InventoryCreate := mkBodyInventoryCreate {
  bic_product_id : Z;
  bic_quantity_in_stock : option Z;
  bic_reorder_level : option Z
}.

Definition parse_InventoryCreate (b : body_InventoryCreate)
  : M InventoryCreate :=
  validated
    (check_opt (check_ge "quantity_in_stock" 0) (bic_quantity_in_stock b)
     ++ check_opt (check_ge "reorder_level" 0) (bic_reorder_level b))
    (mkInventoryCreate
       (bic_product_id b)
       (match bic_quantity_in_stock b with Some q => q | None => 0 end)
       (match bic_reorder_level b with Some r => r | None => 10 end)).

(** [InventoryUpdate]: [quantity_in_stock: Optional[int] = Field(None,
    ge=0)], [reorder_level: Optional[int] = Field(None, ge=0)].  A field is
    [None] when the request left it unset. *)
Record InventoryUpdate := mkInventoryUpdate {
  iu_quantity_in_stock : option Z;
  iu_reorder_level : option Z
}.

Definition parse_InventoryUpdate (b : InventoryUpdate) : M InventoryUpdate :=
  validated
    (check_opt (check_ge "quantity_in_stock" 0) (iu_quantity_in_stock b)
     ++ check_opt (check_ge "reorder_level" 0) (iu_reorder_level b))
    b.

(** [InventoryRestock]: [quantity_to_add: int = Field(..., gt=0)] *)
Record InventoryRestock := mkInventoryRestock {
  quantity_to_add : Z
}.

Definition parse_InventoryRestock (b : InventoryRestock) : M InventoryRestock :=
  validated (check_gt "quantity_to_add" 0 (quantity_to_add b)) b.

(** ** Inventory data layer ([app/crud.py]) *)

(** [crud.create_inventory].  [product_id], [quantity_in_stock] and
    [reorder_level] are [Integer] columns; [product_id] is
    [ForeignKey("products.id")] and [unique].  The commit fails as that of
    an order does: on a value that does not fit before an id is taken, on
    the foreign key or the unique column after. *)
Definition crud_create_inventory (now : datetime) (inv : InventoryCreate)
  : M Inventory :=
  fun db =>
    if negb (fits_Integer (ic_product_id inv)
             && fits_Integer (ic_quantity_in_stock inv)
             && fits_Integer (ic_reorder_level inv))
    then (Raise DataError, db)
    else if negb (existsb (fun p => product_id p =? ic_product_id inv)
                          (products db))
            || existsb (fun r => inventory_product_id r =? ic_product_id inv)
                       (inventory db)
    then (Raise IntegrityError,
          set_inventory (inventory db) (inventory_id_seq db + 1) db)
    else
      let db_inventory :=
        mkInventory (inventory_id_seq db + 1)
                    (ic_product_id inv)
                    (ic_quantity_in_stock inv)
                    (ic_reorder_level inv)
                    (if ic_quantity_in_stock inv >? 0 then Some now else None) in
      (Ok db_inventory,
       set_inventory (inventory db ++ [db_inventory])
                     (inventory_id_seq db + 1) db).

Definition apply_inventory_update (u : InventoryUpdate) (r : Inventory)
  : Inventory :=
  mkInventory (inventory_id r) (inventory_product_id r)
              (match iu_quantity_in_stock u with
               | Some q => q
               | None => quantity_in_stock r
               end)
              (match iu_reorder_level u with
               | Some l => l
               | None => reorder_level r
               end)
              (last_restocked_at r).

(** [crud.update_inventory]: the values put in have to fit their [Integer]
    columns. *)
Definition crud_update_inventory (iid : Z) (u : InventoryUpdate)
  : M (option Inventory) :=
  fun db =>
    match get_inventory db iid with
    | None => (Ok None, db)
    | Some db_inventory =>
        if negb (fits_nullable fits_Integer (iu_quantity_in_stock u)
                 && fits_nullable fits_Integer (iu_reorder_level u))
        then (Raise DataError, db)
        else
          (Ok (Some (apply_inventory_update u db_inventory)),
           set_inventory
             (update_first (fun r => inventory_id r =? iid)
                           (apply_inventory_update u) (inventory db))
             (inventory_id_seq db) db)
    end.

(** [db_inventory.quantity_in_stock += quantity_to_add;
     db_inventory.last_restocked_at = datetime.now()] *)
Definition restocked (now : datetime) (qty : Z) (r : Inventory) : Inventory :=
  mkInventory (inventory_id r) (inventory_product_id r)
              (quantity_in_stock r + qty) (reorder_level r) (Some now).

(** [crud.restock_inventory]: the new quantity has to fit its [Integer]
    column. *)
Definition crud_restock_inventory (now : datetime) (iid : Z) (qty : Z)
  : M (option Inventory) :=
  fun db =>
    match get_inventory db iid with
    | None => (Ok None, db)
    | Some db_inventory =>
        if negb (fits_Integer (quantity_in_stock db_inventory + qty))
        then (Raise DataError, db)
        else
          (Ok (Some (restocked now qty db_inventory)),
           set_inventory
             (update_first (fun r => inventory_id r =? iid)
                           (restocked now qty) (inventory db))
             (inventory_id_seq db) db)
    end.

(** [crud.delete_inventory] *)
Definition crud_delete_inventory (iid : Z) : M (option Inventory) :=
  fun db =>
    match get_inventory db iid with
    | None => (Ok None, db)
    | Some db_inventory =>
        (Ok (Some db_inventory),
         set_inventory
           (remove_first (fun r => inventory_id r =? iid) (inventory db))
           (inventory_id_seq db) db)
    end.

(** ** Inventory router ([app/routers/inventory.py]) *)

Definition inventory_not_found {A} (iid : Z) : M A :=
  raise (HTTPException 404
           ("Inventory with ID " ++ str_int iid ++ " not found")).

Definition or_not_found (iid : Z) (r : option Inventory) : M Inventory :=
  match r with
  | Some inv => ret inv
  | None => inventory_not_found iid
  end.

(** [create_inventory(inventory, db)], POST /inventory/ *)
Definition router_create_inventory (now : datetime) (inv : InventoryCreate)
  : M Inventory :=
  product <- query (fun db => get_product db (ic_product_id inv)) ;;
  match product with
  | None =>
      raise (HTTPException 404
               ("Product with ID " ++ str_int (ic_product_id inv)
                ++ " not found"))
  | Some _ =>
      existing <- query (fun db =>
                    get_inventory_by_product db (ic_product_id inv)) ;;
      match existing with
      | Some _ =>
          raise (HTTPException 400
                   ("Inventory already exists for product "
                    ++ str_int (ic_product_id inv)))
      | None => crud_create_inventory now inv
      end
  end.

(** [update_inventory(inventory_id, inventory_update, db)],
    PUT /inventory/{inventory_id} *)
Definition router_update_inventory (iid : Z) (u : InventoryUpdate)
  : M Inventory :=
  r <- crud_update_inventory iid u ;; or_not_found iid r.

(** [restock_inventory(inventory_id, restock, db)],
    POST /inventory/{inventory_id}/restock *)
Definition router_restock_inventory (now : datetime) (iid : Z)
           (restock : InventoryRestock) : M Inventory :=
  r <- crud_restock_inventory now iid (quantity_to_add restock) ;;
  or_not_found iid r.

(** [delete_inventory(inventory_id, db)], DELETE /inventory/{inventory_id} *)
Definition router_delete_inventory (iid : Z) : M Inventory :=
  r <- crud_delete_inventory iid ;; or_not_found iid r.

(** ** Shopping cart ([app/schemas.py], [app/crud.py], [app/routers/cart.py]) *)

(** [ShoppingCartItemCreate]: [product_id: int], [quantity: int = Field(1,
    ge=1)] *)
Record ShoppingCartItemCreate := mkShoppingCartItemCreate {
  sci_product_id : Z;
  sci_quantity : Z
}.

Record body_ShoppingCartItemCreate := mkBodyShoppingCartItemCreate {
  bsci_product_id : Z;
  bsci_quantity : option Z
}.

Definition parse_ShoppingCartItemCreate (b : body_ShoppingCartItemCreate)
  : M ShoppingCartItemCreate :=
  validated
    (check_opt (check_ge "quantity" 1) (bsci_quantity b))
    (mkShoppingCartItemCreate
       (bsci_product_id b)
       (match bsci_quantity b with Some q => q | None => 1 end)).

(** [ShoppingCartItemUpdate]: [quantity: int = Field(..., ge=1)] *)
Record ShoppingCartItemUpdate := mkShoppingCartItemUpdate {
  scu_quantity : Z
}.

Definition parse_ShoppingCartItemUpdate (b : ShoppingCartItemUpdate)
  : M ShoppingCartItemUpdate :=
  validated (check_ge "quantity" 1 (scu_quantity b)) b.

(** [get_user_cart], alias [get_customer_cart]: first cart of the user. *)
Definition get_user_cart (db : DB) (uid : Z) : option ShoppingCart :=
  find (fun c => cart_user_id c =? uid) (shopping_carts db).

(** [db.query(ShoppingCartItem).filter(id == item_id).first()] *)
Definition get_cart_item (db : DB) (iid : Z) : option ShoppingCartItem :=
  find (fun it => item_id it =? iid) (shopping_cart_items db).

(** [crud.create_shopping_cart] *)
Definition crud_create_shopping_cart (uid : Z) : M ShoppingCart :=
  fun db =>
    let db_cart := mkShoppingCart (shopping_carts_id_seq db + 1) uid in
    (Ok db_cart,
     set_shopping_carts (shopping_carts db ++ [db_cart])
                        (shopping_carts_id_seq db + 1) db).

Definition with_quantity (q : Z) (it : ShoppingCartItem) : ShoppingCartItem :=
  mkShoppingCartItem (item_id it) (item_cart_id it) (item_product_id it) q.

(** [crud.add_item_to_cart]: the quantity is added to the cart's item for
    the product when there is one, and a new item is inserted otherwise. *)
Definition crud_add_item_to_cart (cid : Z) (item : ShoppingCartItemCreate)
  : M ShoppingCartItem :=
  fun db =>
    let same it :=
      (item_cart_id it =? cid) && (item_product_id it =? sci_product_id item) in
    let add it := with_quantity (item_quantity it + sci_quantity item) it in
    match find same (shopping_cart_items db) with
    | Some existing_item =>
        (Ok (add existing_item),
         set_shopping_cart_items
           (update_first same add (shopping_cart_items db))
           (shopping_cart_items_id_seq db) db)
    | None =>
        let db_item :=
          mkShoppingCartItem (shopping_cart_items_id_seq db + 1) cid
                             (sci_product_id item) (sci_quantity item) in
        (Ok db_item,
         set_shopping_cart_items (shopping_cart_items db ++ [db_item])
                                 (shopping_cart_items_id_seq db + 1) db)
    end.

(** [crud.update_cart_item] *)
Definition crud_update_cart_item (iid : Z) (u : ShoppingCartItemUpdate)
  : M (option ShoppingCartItem) :=
  fun db =>
    match get_cart_item db iid with
    | None => (Ok None, db)
    | Some db_item =>
        (Ok (Some (with_quantity (scu_quantity u) db_item)),
         set_shopping_cart_items
           (update_first (fun it => item_id it =? iid)
                         (with_quantity (scu_quantity u))
                         (shopping_cart_items db))
           (shopping_cart_items_id_seq db) db)
    end.

(** [crud.remove_item_from_cart] *)
Definition crud_remove_item_from_cart (iid : Z)
  : M (option ShoppingCartItem) :=
  fun db =>
    match get_cart_item db iid with
    | None => (Ok None, db)
    | Some db_item =>
        (Ok (Some db_item),
         set_shopping_cart_items
           (remove_first (fun it => item_id it =? iid)
                         (shopping_cart_items db))
           (shopping_cart_items_id_seq db) db)
    end.

(** [crud.clear_cart]: deletes every item of the cart, returns [True]. *)
Definition crud_clear_cart (cid : Z) : M bool :=
  fun db =>
    (Ok true,
     set_shopping_cart_items
       (filter (fun it => negb (item_cart_id it =? cid))
               (shopping_cart_items db))
       (shopping_cart_items_id_seq db) db).

(** "Get or create cart for current user" *)
Definition get_or_create_cart (current_user : User) : M ShoppingCart :=
  cart <- query (fun db => get_user_cart db (user_id current_user)) ;;
  match cart with
  | Some cart => ret cart
  | None => crud_create_shopping_cart (user_id current_user)
  end.

(** [get_cart(current_user, db)], GET /cart/ *)
Definition router_get_cart (current_user : User) : M ShoppingCart :=
  get_or_create_cart current_user.

(** The stock check of the cart handlers, against the inventory row of the
    product: [if not inventory or inventory.quantity_in_stock < quantity]. *)
Definition check_inventory (pid quantity : Z) : M unit :=
  inventory <- query (fun db => get_inventory_by_product db pid) ;;
  match inventory with
  | None => raise (HTTPException 400 "Insufficient stock. Available: 0")
  | Some inventory =>
      if quantity_in_stock inventory <? quantity then
        raise (HTTPException 400
                 ("Insufficient stock. Available: "
                  ++ str_int (quantity_in_stock inventory)))
      else ret tt
  end.

(** [add_item(item, current_user, db)], POST /cart/items *)
Definition router_add_item (item : ShoppingCartItemCreate)
           (current_user : User) : M ShoppingCartItem :=
  product <- query (fun db => get_product db (sci_product_id item)) ;;
  match product with
  | None =>
      raise (HTTPException 404
               ("Product with ID " ++ str_int (sci_product_id item)
                ++ " not found"))
  | Some _ =>
      check_inventory (sci_product_id item) (sci_quantity item) ;;;
      cart <- get_or_create_cart current_user ;;
      crud_add_item_to_cart (cart_id cart) item
  end.

(** The ownership check shared by [update_item] and [remove_item]:
    [if not cart or cart.user_id != current_user.id]. *)
Definition check_item_owner (cart_item : ShoppingCartItem)
           (current_user : User) (detail : string) : M unit :=
  cart <- query (fun db => get_shopping_cart db (item_cart_id cart_item)) ;;
  match cart with
  | None => raise (HTTPException 403 detail)
  | Some cart =>
      if negb (cart_user_id cart =? user_id current_user)
      then raise (HTTPException 403 detail)
      else ret tt
  end.

Definition cart_item_not_found {A} (iid : Z) : M A :=
  raise (HTTPException 404
           ("Cart item with ID " ++ str_int iid ++ " not found")).

(** [update_item(item_id, item_update, current_user, db)],
    PUT /cart/items/{item_id} *)
Definition router_update_item (iid : Z) (item_update : ShoppingCartItemUpdate)
           (current_user : User) : M (option ShoppingCartItem) :=
  cart_item <- query (fun db => get_cart_item db iid) ;;
  match cart_item with
  | None => cart_item_not_found iid
  | Some cart_item =>
      check_item_owner cart_item current_user
                       "You can only update items in your own cart" ;;;
      check_inventory (item_product_id cart_item) (scu_quantity item_update) ;;;
      crud_update_cart_item iid item_update
  end.

(** [remove_item(item_id, current_user, db)], DELETE /cart/items/{item_id} *)
Definition router_remove_item (iid : Z) (current_user : User)
  : M (option ShoppingCartItem) :=
  cart_item <- query (fun db => get_cart_item db iid) ;;
  match cart_item with
  | None => cart_item_not_found iid
  | Some cart_item =>
      check_item_owner cart_item current_user
                       "You can only remove items from your own cart" ;;;
      crud_remove_item_from_cart iid
  end.

(** [clear_cart(current_user, db)], DELETE /cart/clear; the response is the
    message. *)
Definition router_clear_cart (current_user : User) : M string :=
  cart <- query (fun db => get_user_cart db (user_id current_user)) ;;
  match cart with
  | None => raise (HTTPException 404 "Cart not found")
  | Some cart =>
      crud_clear_cart (cart_id cart) ;;;
      ret "Cart cleared successfully"
  end.

(** ** Endpoints: body validation, then the handler *)

Definition api_create_inventory (now : datetime) (b : body_InventoryCreate)
  : M Inventory :=
  inv <- parse_InventoryCreate b ;; router_create_inventory now inv.

Definition api_update_inventory (iid : Z) (b : InventoryUpdate)
  : M Inventory :=
  u <- parse_InventoryUpdate b ;; router_update_inventory iid u.

Definition api_restock_inventory (now : datetime) (iid : Z)
           (b : InventoryRestock) : M Inventory :=
  restock <- parse_InventoryRestock b ;; router_restock_inventory now iid restock.

Definition api_add_item (b : body_ShoppingCartItemCreate)
           (current_user : User) : M ShoppingCartItem :=
  item <- parse_ShoppingCartItemCreate b ;; router_add_item item current_user.

Definition api_update_item (iid : Z) (b : ShoppingCartItemUpdate)
           (current_user : User) : M (option ShoppingCartItem) :=
  item_update <- parse_ShoppingCartItemUpdate b ;;
  router_update_item iid item_update current_user.

(** The requests of the inventory, order and cart endpoints, and the direct
    call of the data-layer [create_order] that [tests/test_order_locking.py]
    makes.  The other endpoints of the application never write the
    [inventory] table. *)
Inductive Request :=
| POST_inventory (b : body_InventoryCreate)
| PUT_inventory (iid : Z) (b : InventoryUpdate)
| POST_inventory_restock (iid : Z) (b : InventoryRestock)
| DELETE_inventory (iid : Z)
| POST_orders (current_user : User) (b : OrderCreate)
| PUT_orders (oid : Z) (current_user : User) (b : OrderUpdate)
| DELETE_orders (oid : Z) (current_user : User)
| GET_cart (current_user : User)
| POST_cart_items (current_user : User) (b : body_ShoppingCartItemCreate)
| PUT_cart_items (iid : Z) (current_user : User) (b : ShoppingCartItemUpdate)
| DELETE_cart_items (iid : Z) (current_user : User)
| DELETE_cart_clear (current_user : User)
| CALL_crud_create_order (uid : Z) (order : OrderCreate).

(** The database after a request served at time [now]. *)
Definition serve (now : datetime) (req : Request) (db : DB) : DB :=
  match req with
  | POST_inventory b => snd (api_create_inventory now b db)
  | PUT_inventory iid b => snd (api_update_inventory iid b db)
  | POST_inventory_restock iid b => snd (api_restock_inventory now iid b db)
  | DELETE_inventory iid => snd (router_delete_inventory iid db)
  | POST_orders u b => snd (router_create_order b u db)
  | PUT_orders oid u b => snd (router_update_order oid b u db)
  | DELETE_orders oid u => snd (router_delete_order oid u db)
  | GET_cart u => snd (router_get_cart u db)
  | POST_cart_items u b => snd (api_add_item b u db)
  | PUT_cart_items iid u b => snd (api_update_item iid b u db)
  | DELETE_cart_items iid u => snd (router_remove_item iid u db)
  | DELETE_cart_clear u => snd (router_clear_cart u db)
  | CALL_crud_create_order uid order => snd (crud_create_order uid order db)
  end.

(** A history: the requests in the order they are served, each with the
    clock reading of its handler. *)
Fixpoint serve_all (history : list (datetime * Request)) (db : DB) : DB :=
  match history with
  | [] => db
  | (now, req) :: rest => serve_all rest (serve now req db)
  end.

(** [quantity_in_stock >= 0] on every inventory row. *)
Definition stock_nonneg (db : DB) : Prop :=
  Forall (fun r => 0 <= quantity_in_stock r) (inventory db).

(** A handler that leaves the inventory table as it finds it, whether it
    returns or raises. *)
Definition keeps_inventory {A} (m : M A) : Prop :=
  forall db, inventory (snd (m db)) = inventory db.

(** ** Concurrent callers of the data-layer [create_order]

    Each caller runs [crud.create_order] in its own session; what the
    callers share is the database.  A caller advances by one database round
    trip at a time, and a schedule picks whose turn it is. *)

Inductive Caller :=
| at_get_cart (uid : Z) (order : OrderCreate)
    (** about to run [get_shopping_cart] *)
| at_load_items (uid : Z) (order : OrderCreate) (cart : ShoppingCart)
    (** about to load [cart.items] *)
| at_loop (uid : Z) (order : OrderCreate) (items : list ShoppingCartItem)
          (total : Decimal.t)
    (** in the loop, [items] still to visit; past it when [items = []] *)
| returned (r : Result Order).

Definition caller_step (c : Caller) (db : DB) : Caller * DB :=
  match c with
  | at_get_cart uid order =>
      match get_shopping_cart db (oc_cart_id order) with
      | Some cart => (at_load_items uid order cart, db)
      | None => (at_loop uid order [] Decimal.zero, db)
      end
  | at_load_items uid order cart =>
      (at_loop uid order (cart_items db cart) Decimal.zero, db)
  | at_loop uid order (item :: rest) total =>
      match get_product db (item_product_id item) with
      | Some product =>
          (at_loop uid order rest
             (Decimal.add total
                (Decimal.mul_int (product_price product) (item_quantity item))),
           db)
      | None => (at_loop uid order rest total, db)
      end
  | at_loop uid order [] total =>
      let (r, db') :=
        insert_order uid (Some (oc_cart_id order)) (oc_address order)
                     "pending" (Some total) db in
      (returned r, db')
  | returned r => (returned r, db)
  end.

(** Replace the [i]-th caller. *)
Fixpoint set_nth {A} (i : nat) (a : A) (l : list A) : list A :=
  match l, i with
  | [], _ => []
  | _ :: rest, O => a :: rest
  | x :: rest, S j => x :: set_nth j a rest
  end.

(** One turn of the schedule: caller [i] makes its next round trip. *)
Definition turn (i : nat) (cfg : list Caller * DB) : list Caller * DB :=
  match nth_error (fst cfg) i with
  | Some c =>
      let (c', db') := caller_step c (snd cfg) in
      (set_nth i c' (fst cfg), db')
  | None => cfg
  end.

Definition run_schedule (schedule : list nat) (cfg : list Caller * DB)
  : list Caller * DB :=
  fold_left (fun cfg i => turn i cfg) schedule cfg.

Definition succeeded (c : Caller) : bool :=
  match c with returned (Ok _) => true | _ => false end.

Definition failed (c : Caller) : bool :=
  match c with returned (Raise _) => true | _ => false end.

Definition has_returned (c : Caller) : bool :=
  match c with returned _ => true | _ => false end.

(** No caller has raised. *)
Definition none_failed (callers : list Caller) : bool :=
  forallb (fun c => negb (failed c)) callers.

(** [n] round trips of one caller with nobody else running. *)
Fixpoint alone (n : nat) (c : Caller) (db : DB) : Caller * DB :=
  match n with
  | O => (c, db)
  | S n' => let (c', db') := caller_step c db in alone n' c' db'
  end.

(** The round trips a caller still has to make. *)
Definition steps_left (db : DB) (c : Caller) : nat :=
  match c with
  | at_get_cart _ order =>
      match get_shopping_cart db (oc_cart_id order) with
      | Some cart => 3 + List.length (cart_items db cart)
      | None => 2
      end
  | at_load_items _ _ cart => 2 + List.length (cart_items db cart)
  | at_loop _ _ items _ => 1 + List.length items
  | returned _ => 0
  end.

(** The insert of an order commits: its values fit their columns and the
    rows it refers to exist. *)
Definition order_commits (db : DB) (uid : Z) (order : OrderCreate)
           (total : Decimal.t) : bool :=
  order_fits uid (Some (oc_cart_id order)) (Some total)
  && order_references db uid (Some (oc_cart_id order)).

(** A caller whose insert commits when the tables it reads stay as they
    are until it gets there. *)
Definition wins (db : DB) (c : Caller) : bool :=
  match c with
  | at_get_cart uid order =>
      order_commits db uid order
        (match get_shopping_cart db (oc_cart_id order) with
         | Some cart => accumulate_total db (cart_items db cart) Decimal.zero
         | None => Decimal.zero
         end)
  | at_load_items uid order cart =>
      order_commits db uid order
        (accumulate_total db (cart_items db cart) Decimal.zero)
  | at_loop uid order items total =>
      order_commits db uid order (accumulate_total db items total)
  | returned r => succeeded (returned r)
  end.

(** ** The order total, as the specification words it *)

(** The price of a product at the time of the call. *)
Definition price_at (db : DB) (pid : Z) : Decimal.t :=
  match get_product db pid with
  | Some product => product_price product
  | None => Decimal.zero
  end.

(** Sum over the line items of price times quantity. *)
Definition cart_total (db : DB) (items : list ShoppingCartItem) : Decimal.t :=
  fold_right
    (fun item acc =>
       Decimal.add
         (Decimal.mul_int (price_at db (item_product_id item))
                          (item_quantity item))
         acc)
    Decimal.zero items.

(** The line items whose product still exists. *)
Definition known_items (db : DB) (items : list ShoppingCartItem)
  : list ShoppingCartItem :=
  filter (fun item => match get_product db (item_product_id item) with
                      | Some _ => true
                      | None => false
                      end) items.

(** Resolving every line item to its product; [None] when one is gone. *)
Fixpoint resolve_lines (db : DB) (items : list ShoppingCartItem)
  : option (list (Product * Z)) :=
  match items with
  | [] => Some []
  | item :: rest =>
      match get_product db (item_product_id item), resolve_lines db rest with
      | Some product, Some lines =>
          Some ((product, item_quantity item) :: lines)
      | _, _ => None
      end
  end.

(** Sum of price times quantity over resolved lines. *)
Definition lines_total (lines : list (Product * Z)) : Decimal.t :=
  fold_right
    (fun line acc =>
       Decimal.add (Decimal.mul_int (product_price (fst line)) (snd line)) acc)
    Decimal.zero lines.

(** ** Fixtures of [tests/test_order_locking.py] *)

(** [create_product_and_inventory(db, sku, qty)]: price [Decimal("10.00")],
    [reorder_level=1]; [create_user] and [create_cart_with_item] for each
    user. *)
Definition fixture (sku : string) (qty : Z)
           (carts : list ShoppingCart) (items : list ShoppingCartItem) : DB :=
  mkDB (map (fun cart => mkUser (cart_user_id cart)) carts)
       [mkProduct 1 sku "Prod" (Decimal.of_cents 1000)]
       [mkInventory 1 1 qty 1 None]
       carts items [] 0 1
       (Z.of_nat (List.length carts)) (Z.of_nat (List.length items)).

(** Scenario A: stock 3, one cart of user 1 holding quantity 2. *)
Definition scenario_A : DB :=
  fixture "SKU_SINGLE" 3 [mkShoppingCart 1 1] [mkShoppingCartItem 1 1 1 2].

(** Scenario B: stock 1, the carts of users 1 and 2 each holding quantity 1. *)
Definition scenario_B : DB :=
  fixture "SKU_CONC" 1
          [mkShoppingCart 1 1; mkShoppingCart 2 2]
          [mkShoppingCartItem 1 1 1 1; mkShoppingCartItem 2 2 1 1].

(** The stock of a product: [quantity_in_stock] of its inventory row. *)
Definition stock_of (db : DB) (pid : Z) : option Z :=
  option_map quantity_in_stock (get_inventory_by_product db pid).

(** Scenario C (an empty cart of user 1) and scenario D (user 2 names the
    cart of user 1), on the fixture of scenario A. *)
Definition scenario_C : DB :=
  fixture "SKU_SINGLE" 3 [mkShoppingCart 1 1] [].

(** A cart of user 1 asking for 5 units of a product with 3 in stock. *)
Definition scenario_short : DB :=
  fixture "SKU1" 3 [mkShoppingCart 1 1] [mkShoppingCartItem 1 1 1 5].

(** A cart of user 1 asking for 10,000,000 units at 10.00: a total of
    100,000,000.00, one more digit than [Numeric(10, 2)] holds. *)
Definition scenario_bulk : DB :=
  fixture "SKU1" 3 [mkShoppingCart 1 1] [mkShoppingCartItem 1 1 1 10000000].

(** One pending order of user 1. *)
Definition scenario_order : DB :=
  mkDB [mkUser 1] [] [] [] []
       [mkOrder 1 1 (Some 1) "Addr" "pending" (Some 2000)]
       1 0 0 0.

(** Scenario B: users 1 and 2 call [create_order] on their carts. *)
Definition scenario_B_callers : list Caller :=
  [at_get_cart 1 (mkOrderCreate 1 "Addr");
   at_get_cart 2 (mkOrderCreate 2 "Addr")].

(** What the test observes once the callers are through: who succeeded, the
    number of orders stored, the stock of product 1. *)
Definition outcome (schedule : list nat) : list bool * nat * option Z :=
  let cfg := run_schedule schedule (scenario_B_callers, scenario_B) in
  (map succeeded (fst cfg), List.length (orders (snd cfg)),
   stock_of (snd cfg) 1).

(** ** More of the handlers, and what the tables are expected to satisfy *)

(** [get_order(order_id, current_user, db)], GET /orders/{order_id} *)
Definition router_get_order (oid : Z) (current_user : User) : M Order :=
  order <- query (fun db => get_order db oid) ;;
  match order with
  | None =>
      raise (HTTPException 404
               ("Order with ID " ++ str_int oid ++ " not found"))
  | Some order =>
      if negb (order_user_id order =? user_id current_user) then
        raise (HTTPException 403 "You can only view your own orders")
      else ret order
  end.

(** A call [f(.., k1=.., k2=..)]: every keyword has to name a parameter of
    [f]; the first one that does not is reported and the body does not
    run. *)
Definition call_with_keywords {A} (f : string) (parameters keywords : list string)
           (body : M A) : M A :=
  match find (fun k => negb (str_in k parameters)) keywords with
  | Some k =>
      raise (TypeError
               (f ++ "() got an unexpected keyword argument '" ++ k ++ "'"))
  | None => body
  end.

Section ListOrders.

(** The body of [crud.get_orders(db, skip, limit, user_id, order_status)]:
    it sorts by [order_date], a column the rows here leave out, so the
    handler below takes it as it comes. *)
Variable crud_get_orders : Z -> Z -> option Z -> option string -> M (list Order).

(** [get_orders(skip, limit, order_status, current_user, db)], GET /orders/:
    [crud.get_orders(db, skip=skip, limit=limit, customer_id=current_user.id,
    order_status=order_status)]. *)
Definition router_get_orders (skip limit : Z) (order_status : option string)
           (current_user : User) : M (list Order) :=
  call_with_keywords "get_orders"
    ["db"; "skip"; "limit"; "user_id"; "order_status"]
    ["skip"; "limit"; "customer_id"; "order_status"]
    (crud_get_orders skip limit None order_status).

End ListOrders.

(** The orders of the other users. *)
Definition orders_of_others (u : User) (db : DB) : list Order :=
  filter (fun o => negb (order_user_id o =? user_id u)) (orders db).

(** What an order keeps for life: its id, its user, its cart, its total. *)
Definition order_core (o : Order) : Z * Z * option Z * option Decimal.t :=
  (order_id o, order_user_id o, order_cart_id o, total_amount o).

(** Primary keys handed out by a sequence: the ids of a table are distinct
    and none is ahead of the sequence. *)
Definition keyed {A} (id : A -> Z) (rows : list A) (seq : Z) : Prop :=
  NoDup (map id rows) /\ Forall (fun r => id r <= seq) rows.

Definition orders_keyed (db : DB) : Prop :=
  keyed order_id (orders db) (orders_id_seq db).

(** The inventory table as [models.Inventory] declares it: primary key
    [id], and [product_id] unique. *)
Definition inventory_keyed (db : DB) : Prop :=
  keyed inventory_id (inventory db) (inventory_id_seq db)
  /\ NoDup (map inventory_product_id (inventory db)).

(** A handler that leaves a part of the database as it finds it, whether it
    returns or raises. *)
Definition keeps {T A} (part : DB -> T) (m : M A) : Prop :=
  forall db, part (snd (m db)) = part db.

Definition orders_part (db : DB) : list Order * Z :=
  (orders db, orders_id_seq db).

Definition inventory_part (db : DB) : list Inventory * Z :=
  (inventory db, inventory_id_seq db).

Definition carts_part (db : DB)
  : list ShoppingCart * list ShoppingCartItem * Z * Z :=
  (shopping_carts db, shopping_cart_items db,
   shopping_carts_id_seq db, shopping_cart_items_id_seq db).

(** The tables a request is there to write. *)
Inductive Tables := InventoryTables | OrderTables | CartTables.

Definition tables_of (req : Request) : Tables :=
  match req with
  | POST_inventory _ | PUT_inventory _ _ | POST_inventory_restock _ _
  | DELETE_inventory _ => InventoryTables
  | POST_orders _ _ | PUT_orders _ _ _ | DELETE_orders _ _
  | CALL_crud_create_order _ _ => OrderTables
  | GET_cart _ | POST_cart_items _ _ | PUT_cart_items _ _ _
  | DELETE_cart_items _ _ | DELETE_cart_clear _ => CartTables
  end.

(** Two orders of user 1 and one of user 2. *)
Definition scenario_orders : DB :=
  mkDB [mkUser 1; mkUser 2] [] []
       [mkShoppingCart 1 1; mkShoppingCart 2 2] []
       [mkOrder 1 1 (Some 1) "Addr" "pending" (Some 2000);
        mkOrder 2 2 (Some 2) "Elsewhere" "shipped" (Some 500);
        mkOrder 3 1 None "Addr" "delivered" (Some 1000)]
       3 0 2 0.

(** Two products, the first with an inventory row of 3 units. *)
Definition scenario_stock : DB :=
  mkDB []
       [mkProduct 1 "SKU1" "Prod" (Decimal.of_cents 1000);
        mkProduct 2 "SKU2" "Other" (Decimal.of_cents 250)]
       [mkInventory 1 1 3 1 None]
       [] [] [] 0 1 0 0.

(** The cart and the product of a cart item. *)
Definition item_key (it : ShoppingCartItem) : Z * Z :=
  (item_cart_id it, item_product_id it).

(** A cart holds at most one item per product. *)
Definition one_item_per_product (db : DB) : Prop :=
  NoDup (map item_key (shopping_cart_items db)).

(** Every cart item has a quantity of at least 1. *)
Definition quantities_positive (db : DB) : Prop :=
  Forall (fun it => 1 <= item_quantity it) (shopping_cart_items db).

Definition carts_keyed (db : DB) : Prop :=
  keyed cart_id (shopping_carts db) (shopping_carts_id_seq db).

(** The quantity of a product in a cart: that of the cart's item for the
    product, 0 when there is none. *)
Definition quantity_in_cart (db : DB) (cid pid : Z) : Z :=
  match find (fun it => (item_cart_id it =? cid) && (item_product_id it =? pid))
             (shopping_cart_items db) with
  | Some it => item_quantity it
  | None => 0
  end.

(** The items, among [items], of the carts that in [db] belong to a user
    other than [u]. *)
Definition items_of_others (u : User) (db : DB)
           (items : list ShoppingCartItem) : list ShoppingCartItem :=
  filter (fun it =>
            match get_shopping_cart db (item_cart_id it) with
            | Some cart => negb (cart_user_id cart =? user_id u)
            | None => false
            end) items.

(** User 1 has cart 1 with 2 units of product 1; user 2 has cart 2 with 1
    unit of product 1; 3 units are in stock. *)
Definition scenario_carts : DB :=
  mkDB [mkUser 1; mkUser 2]
       [mkProduct 1 "SKU1" "Prod" (Decimal.of_cents 1000);
        mkProduct 2 "SKU2" "Other" (Decimal.of_cents 250)]
       [mkInventory 1 1 3 1 None; mkInventory 2 2 8 1 None]
       [mkShoppingCart 1 1; mkShoppingCart 2 2]
       [mkShoppingCartItem 1 1 1 2; mkShoppingCartItem 2 2 1 1]
       [] 0 2 2 2.

(** The user a cart request comes from. *)
Definition cart_requester (req : Request) : option User :=
  match req with
  | GET_cart u | POST_cart_items u _ | PUT_cart_items _ u _
  | DELETE_cart_items _ u | DELETE_cart_clear u => Some u
  | _ => None
  end.

(** ** Addresses ([models.Address], [crud.py], [routers/addresses.py])

    The address handlers read and write the addresses table only; they run
    in the same kind of computation as the handlers above, over that
    table. *)

Record Address := mkAddress {
  address_id : Z;
  address_user_id : Z;
  address_street : string;
  address_city : string;
  address_state : string;
  address_country : string;
  address_postal_code : option string;
  address_is_default : bool
}.

Record AddressBook := mkAddressBook {
  addresses : list Address;
  addresses_id_seq : Z
}.

Definition MA (A : Type) : Type := AddressBook -> Result A * AddressBook.

Definition retA {A} (a : A) : MA A := fun t => (Ok a, t).
Definition raiseA {A} (e : Exn) : MA A := fun t => (Raise e, t).
Definition bindA {A B} (m : MA A) (k : A -> MA B) : MA B :=
  fun t => match m t with
           | (Ok a, t') => k a t'
           | (Raise e, t') => (Raise e, t')
           end.

Notation "x <~ m ;; k" := (bindA m (fun x => k))
  (at level 61, m at next level, right associativity).

(** [schemas.AddressCreate] *)
Record AddressCreate := mkAddressCreate {
  ac_address : string;
  ac_city : string;
  ac_state : string;
  ac_country : string;
  ac_postal_code : option string;
  ac_is_default : bool
}.

(** [schemas.AddressUpdate]; a field is [None] when the request left it
    unset. *)
Record AddressUpdate := mkAddressUpdate {
  au_address : option string;
  au_city : option string;
  au_state : option string;
  au_country : option string;
  au_postal_code : option string;
  au_is_default : option bool
}.

(** [crud.get_address] *)
Definition get_address (t : AddressBook) (aid : Z) : option Address :=
  find (fun a => address_id a =? aid) (addresses t).

Definition with_is_default (d : bool) (a : Address) : Address :=
  mkAddress (address_id a) (address_user_id a) (address_street a)
            (address_city a) (address_state a) (address_country a)
            (address_postal_code a) d.

(** [db.query(Address).filter(..).update({"is_default": False})]: every row
    that matches gets [is_default = False]. *)
Definition unset_default_where (p : Address -> bool) (rows : list Address)
  : list Address :=
  map (fun a => if p a then with_is_default false a else a) rows.

(** [crud.create_address] *)
Definition crud_create_address (uid : Z) (address : AddressCreate)
  : MA Address :=
  fun t =>
    let rows :=
      if ac_is_default address then
        unset_default_where
          (fun a => (address_user_id a =? uid) && address_is_default a)
          (addresses t)
      else addresses t in
    let db_address :=
      mkAddress (addresses_id_seq t + 1) uid
                (ac_address address) (ac_city address) (ac_state address)
                (ac_country address) (ac_postal_code address)
                (ac_is_default address) in
    (Ok db_address,
     mkAddressBook (rows ++ [db_address]) (addresses_id_seq t + 1)).

Definition or_old {A} (new : option A) (old : A) : A :=
  match new with Some a => a | None => old end.

(** The [setattr] loop over [address_update.dict(exclude_unset=True)]. *)
Definition apply_address_update (u : AddressUpdate) (a : Address) : Address :=
  mkAddress (address_id a) (address_user_id a)
            (or_old (au_address u) (address_street a))
            (or_old (au_city u) (address_city a))
            (or_old (au_state u) (address_state a))
            (or_old (au_country u) (address_country a))
            (match au_postal_code u with
             | Some c => Some c
             | None => address_postal_code a
             end)
            (or_old (au_is_default u) (address_is_default a)).

(** [crud.update_address] *)
Definition crud_update_address (aid : Z) (u : AddressUpdate)
  : MA (option Address) :=
  fun t =>
    match get_address t aid with
    | None => (Ok None, t)
    | Some db_address =>
        let rows :=
          if or_old (au_is_default u) false then
            unset_default_where
              (fun a => (address_user_id a =? address_user_id db_address)
                        && address_is_default a
                        && negb (address_id a =? aid))
              (addresses t)
          else addresses t in
        (Ok (Some (apply_address_update u db_address)),
         mkAddressBook
           (update_first (fun a => address_id a =? aid)
                         (apply_address_update u) rows)
           (addresses_id_seq t))
    end.

(** [crud.delete_address] *)
Definition crud_delete_address (aid : Z) : MA (option Address) :=
  fun t =>
    match get_address t aid with
    | None => (Ok None, t)
    | Some db_address =>
        (Ok (Some db_address),
         mkAddressBook
           (remove_first (fun a => address_id a =? aid) (addresses t))
           (addresses_id_seq t))
    end.

(** The check the handlers of one address share: 404 when there is no such
    address, 403 with the handler's message when it is another user's. *)
Definition own_address (aid : Z) (current_user : User) (detail : string)
  : MA Address :=
  fun t =>
    match get_address t aid with
    | None =>
        (Raise (HTTPException 404
                  ("Address with ID " ++ str_int aid ++ " not found")), t)
    | Some address =>
        if negb (address_user_id address =? user_id current_user)
        then (Raise (HTTPException 403 detail), t)
        else (Ok address, t)
    end.

(** [create_address(address, current_user, db)], POST /addresses/ *)
Definition router_create_address (address : AddressCreate)
           (current_user : User) : MA Address :=
  crud_create_address (user_id current_user) address.

(** [get_address(address_id, current_user, db)], GET /addresses/{id} *)
Definition router_get_address (aid : Z) (current_user : User) : MA Address :=
  own_address aid current_user "You can only view your own addresses".

(** [update_address(address_id, address_update, current_user, db)],
    PUT /addresses/{id} *)
Definition router_update_address (aid : Z) (u : AddressUpdate)
           (current_user : User) : MA (option Address) :=
  _ <~ own_address aid current_user "You can only update your own addresses" ;;
  crud_update_address aid u.

(** [delete_address(address_id, current_user, db)], DELETE /addresses/{id} *)
Definition router_delete_address (aid : Z) (current_user : User)
  : MA (option Address) :=
  _ <~ own_address aid current_user "You can only delete your own addresses" ;;
  crud_delete_address aid.

Inductive AddressRequest :=
| POST_addresses (current_user : User) (b : AddressCreate)
| PUT_addresses (aid : Z) (current_user : User) (b : AddressUpdate)
| DELETE_addresses (aid : Z) (current_user : User).

Definition serve_address (req : AddressRequest) (t : AddressBook)
  : AddressBook :=
  match req with
  | POST_addresses u b => snd (router_create_address b u t)
  | PUT_addresses aid u b => snd (router_update_address aid b u t)
  | DELETE_addresses aid u => snd (router_delete_address aid u t)
  end.

Definition serve_addresses (history : list AddressRequest) (t : AddressBook)
  : AddressBook :=
  fold_left (fun t req => serve_address req t) history t.

(** No user has two default addresses, and the ids are those of a keyed
    table. *)
Definition one_default_per_user (t : AddressBook) : Prop :=
  keyed address_id (addresses t) (addresses_id_seq t)
  /\ forall a b,
       In a (addresses t) -> In b (addresses t) ->
       address_user_id a = address_user_id b ->
       address_is_default a = true -> address_is_default b = true ->
       a = b.

(** The default address of a user: the first one marked so. *)
Definition default_address (t : AddressBook) (uid : Z) : option Address :=
  find (fun a => (address_user_id a =? uid) && address_is_default a)
       (addresses t).

(** User 1 has a default address and another one; user 2 has a default
    address. *)
Definition scenario_addresses : AddressBook :=
  mkAddressBook
    [mkAddress 1 1 "1 Main St" "Town" "ST" "US" None true;
     mkAddress 2 1 "2 Side St" "Town" "ST" "US" (Some "12345") false;
     mkAddress 3 2 "3 High St" "City" "ST" "US" None true]
    3.

(** The addresses of everybody but [u]. *)
Definition addresses_of_others (u : User) (t : AddressBook) : list Address :=
  filter (fun a => negb (address_user_id a =? user_id u)) (addresses t).

Definition address_requester (req : AddressRequest) : User :=
  match req with
  | POST_addresses u _ | PUT_addresses _ u _ | DELETE_addresses _ u => u
  end.

(** * Properties *)

Ltac run_m :=
  unfold bind, query, ret, raise, validated, or_not_found,
         inventory_not_found; simpl.

(** ** Row helpers *)

Lemma find_update_first {A} (p : A -> bool) (f : A -> A) rows r :
  find p rows = Some r -> p (f r) = true ->
  find p (update_first p f rows) = Some (f r).
Proof.
  induction rows as [|x rest IH]; simpl; [discriminate|].
  destruct (p x) eqn:Hx; intros Hfind Hf.
  - injection Hfind as ->. simpl. now rewrite Hf.
  - simpl. rewrite Hx. auto.
Qed.

Lemma Forall_update_first {A} (P : A -> Prop) p f (rows : list A) :
  Forall P rows -> (forall r, P r -> P (f r)) ->
  Forall P (update_first p f rows).
Proof.
  intros H Hf; induction H as [|x rest Hx Hrest IH]; simpl; [constructor|].
  destruct (p x); constructor; auto.
Qed.

Lemma Forall_remove_first {A} (P : A -> Prop) p (rows : list A) :
  Forall P rows -> Forall P (remove_first p rows).
Proof.
  intros H; induction H as [|x rest Hx Hrest IH]; simpl; [constructor|].
  destruct (p x); [assumption | constructor; auto].
Qed.

(** ** The total computed by the loop *)

Lemma accumulate_total_cart_total db items total :
  accumulate_total db items total
  = Decimal.add total (cart_total db items).
Proof.
  revert total; induction items as [|item rest IH]; intros total; simpl.
  - unfold Decimal.add, Decimal.zero. lia.
  - unfold price_at.
    destruct (get_product db (item_product_id item)) as [product|];
      rewrite IH; unfold Decimal.add, Decimal.mul_int, Decimal.zero; lia.
Qed.

Lemma cart_total_known_items db items :
  cart_total db (known_items db items) = cart_total db items.
Proof.
  induction items as [|item rest IH]; simpl; [reflexivity|].
  destruct (get_product db (item_product_id item)) as [product|] eqn:Hp;
    simpl; rewrite IH; [reflexivity|].
  unfold price_at; rewrite Hp.
  unfold Decimal.add, Decimal.mul_int, Decimal.zero. lia.
Qed.

Lemma cart_total_resolved db items lines :
  resolve_lines db items = Some lines ->
  cart_total db items = lines_total lines.
Proof.
  revert lines; induction items as [|item rest IH]; simpl; intros lines H.
  - injection H as <-. reflexivity.
  - unfold price_at.
    destruct (get_product db (item_product_id item)) as [product|];
      [|discriminate].
    destruct (resolve_lines db rest) as [lines'|]; [|discriminate].
    injection H as <-. simpl. now rewrite (IH lines' eq_refl).
Qed.

(** ** The insert of an order *)

(** The three ways a commit of an order ends. *)
Lemma insert_order_cases uid cid address status total db :
  (order_fits uid cid total = false
   /\ insert_order uid cid address status total db = (Raise DataError, db))
  \/ (order_fits uid cid total = true
      /\ order_references db uid cid = false
      /\ insert_order uid cid address status total db
         = (Raise IntegrityError,
            set_orders (orders db) (orders_id_seq db + 1) db))
  \/ (order_fits uid cid total = true
      /\ order_references db uid cid = true
      /\ insert_order uid cid address status total db
         = (let o := mkOrder (orders_id_seq db + 1) uid cid address status
                             total in
            (Ok o, set_orders (orders db ++ [o]) (orders_id_seq db + 1) db))).
Proof.
  unfold insert_order.
  destruct (order_fits uid cid total); [right | left; auto].
  destruct (order_references db uid cid); [right | left]; auto.
Qed.

(** The total the data-layer [create_order] computes for an order. *)
Lemma crud_create_order_insert uid order db :
  crud_create_order uid order db
  = insert_order uid (Some (oc_cart_id order)) (oc_address order) "pending"
      (Some match get_shopping_cart db (oc_cart_id order) with
            | Some cart => cart_total db (cart_items db cart)
            | None => Decimal.zero
            end) db.
Proof.
  unfold crud_create_order. run_m.
  destruct (get_shopping_cart db (oc_cart_id order)) as [cart|]; simpl;
    [|reflexivity].
  rewrite accumulate_total_cart_total. reflexivity.
Qed.

(** When the commit goes through, the data-layer [create_order] inserts
    one order, pending, whose total is what the loop accumulated, and
    writes nothing else. *)
Lemma crud_create_order_returns uid order db :
  let total :=
    match get_shopping_cart db (oc_cart_id order) with
    | Some cart => cart_total db (cart_items db cart)
    | None => Decimal.zero
    end in
  let o := mkOrder (orders_id_seq db + 1) uid (Some (oc_cart_id order))
                   (oc_address order) "pending" (Some total) in
  order_commits db uid order total = true ->
  crud_create_order uid order db
  = (Ok o, set_orders (orders db ++ [o]) (orders_id_seq db + 1) db).
Proof.
  intros total o Hok. unfold order_commits in Hok.
  apply andb_true_iff in Hok as [Hfits Hrefs].
  rewrite crud_create_order_insert. unfold insert_order.
  fold total. now rewrite Hfits, Hrefs.
Qed.

(** The data-layer [create_order] either raises at its commit, with the
    orders as they were and the sequence moved on by one at most, or returns
    the order it has appended; it writes nothing else. *)
Lemma crud_create_order_cases uid order db :
  (exists e seq,
     crud_create_order uid order db
     = (Raise e, set_orders (orders db) seq db)
     /\ orders_id_seq db <= seq <= orders_id_seq db + 1)
  \/ (exists o,
        crud_create_order uid order db
        = (Ok o, set_orders (orders db ++ [o]) (orders_id_seq db + 1) db)
        /\ order_id o = orders_id_seq db + 1
        /\ order_user_id o = uid).
Proof.
  rewrite crud_create_order_insert.
  match goal with |- context [insert_order ?u ?c ?a ?st ?t db] =>
    destruct (insert_order_cases u c a st t db)
      as [[_ ->] | [(_ & _ & ->) | (_ & _ & ->)]]
  end.
  - left. exists DataError, (orders_id_seq db). split; [|lia].
    f_equal. destruct db; reflexivity.
  - left. do 2 eexists. split; [reflexivity | lia].
  - right. eexists. repeat split.
Qed.

(** The order that comes back, when one does. *)
Lemma crud_create_order_ok uid order db o db' :
  crud_create_order uid order db = (Ok o, db') ->
  o = mkOrder (orders_id_seq db + 1) uid (Some (oc_cart_id order))
              (oc_address order) "pending"
              (Some match get_shopping_cart db (oc_cart_id order) with
                    | Some cart => cart_total db (cart_items db cart)
                    | None => Decimal.zero
                    end)
  /\ db' = set_orders (orders db ++ [o]) (orders_id_seq db + 1) db.
Proof.
  rewrite crud_create_order_insert.
  match goal with |- context [insert_order ?u ?c ?a ?st ?t db] =>
    destruct (insert_order_cases u c a st t db)
      as [[_ ->] | [(_ & _ & ->) | (_ & _ & ->)]]
  end; try discriminate.
  intros [= <- <-]. split; reflexivity.
Qed.

Lemma crud_create_order_raises uid order db e db' :
  crud_create_order uid order db = (Raise e, db') ->
  exists seq, db' = set_orders (orders db) seq db.
Proof.
  destruct (crud_create_order_cases uid order db)
    as [(e0 & seq & -> & _) | (o & -> & _)]; [|discriminate].
  intros [= _ <-]. eauto.
Qed.

(** C6: when the cart exists, every line item resolves to a product and the
    data-layer [create_order] returns, the order it returns is pending and
    its [total_amount] is exactly the sum, over the line items, of the
    product's price at the time of the call times the quantity, in exact
    hundredths; that order is the row appended to the table. *)
Theorem create_order_total_is_exact_sum db uid order cart lines o db' :
  get_shopping_cart db (oc_cart_id order) = Some cart ->
  resolve_lines db (cart_items db cart) = Some lines ->
  crud_create_order uid order db = (Ok o, db') ->
  order_status o = "pending"
  /\ total_amount o = Some (lines_total lines)
  /\ orders db' = (orders db ++ [o])%list.
Proof.
  intros Hcart Hlines Hrun.
  rewrite crud_create_order_insert, Hcart in Hrun.
  match type of Hrun with insert_order ?u ?c ?a ?st ?t db = _ =>
    destruct (insert_order_cases u c a st t db)
      as [[_ H] | [(_ & _ & H) | (_ & _ & H)]]
  end; rewrite H in Hrun; try discriminate.
  injection Hrun as <- <-. cbn [order_status total_amount].
  rewrite (cart_total_resolved _ _ Hlines). auto.
Qed.

Lemma create_order_total_is_exact_sum_witness :
  exists o db',
    crud_create_order 1 (mkOrderCreate 1 "123 Test St") scenario_A
    = (Ok o, db')
    /\ order_status o = "pending"
    /\ total_amount o = Some (Decimal.of_cents 2000)
    /\ orders db' = [o].
Proof.
  do 2 eexists. split; [reflexivity|].
  exact (@create_order_total_is_exact_sum
           scenario_A 1 (mkOrderCreate 1 "123 Test St")
           (mkShoppingCart 1 1)
           [(mkProduct 1 "SKU_SINGLE" "Prod" 1000, 2)] _ _
           eq_refl eq_refl eq_refl).
Defined.

(** C10, as the code has it: the data-layer [create_order] makes no check
    of its own.  For an existing user and a cart that exists it returns and
    stores an order with status "pending", whatever the cart holds: the
    total is the sum over the line items whose product exists, the others
    adding nothing, and 0.00 for a cart with no items.  For a [cart_id] that
    refers to no cart the function goes as far as the commit, which the
    foreign key of [orders.cart_id] fails with [IntegrityError]; no order is
    stored. *)
Theorem crud_create_order_checks_nothing db uid order :
  fits_Integer uid = true ->
  fits_Integer (oc_cart_id order) = true ->
  (forall cart,
     get_shopping_cart db (oc_cart_id order) = Some cart ->
     existsb (fun u => user_id u =? uid) (users db) = true ->
     fits_Numeric_10_2 (cart_total db (known_items db (cart_items db cart)))
     = true ->
     exists o db',
       crud_create_order uid order db = (Ok o, db')
       /\ orders db' = (orders db ++ [o])%list
       /\ order_status o = "pending"
       /\ total_amount o
          = Some (cart_total db (known_items db (cart_items db cart)))
       /\ (cart_items db cart = [] -> total_amount o = Some Decimal.zero))
  /\ (get_shopping_cart db (oc_cart_id order) = None ->
      exists db',
        crud_create_order uid order db = (Raise IntegrityError, db')
        /\ orders db' = orders db).
Proof.
  intros Huid Hcid. split.
  - intros cart Hcart Huser Hfits.
    rewrite cart_total_known_items in *.
    pose proof (find_some _ _ Hcart) as [Hin Hid].
    do 2 eexists. split.
    + apply crud_create_order_returns. rewrite Hcart.
      unfold order_commits, order_fits, order_references. cbn [fits_nullable].
      rewrite Huid, Hcid, Hfits, Huser. cbn [andb].
      apply existsb_exists. eauto.
    + rewrite Hcart. cbn [orders set_orders order_status total_amount].
      repeat split. now intros ->.
  - intros Hnone. rewrite crud_create_order_insert, Hnone.
    unfold insert_order, order_fits, order_references. cbn [fits_nullable].
    rewrite Huid, Hcid. cbn [andb negb fits_Numeric_10_2].
    replace (existsb (fun cart => cart_id cart =? oc_cart_id order)
                     (shopping_carts db)) with false.
    + rewrite andb_false_r. cbn [negb]. eexists. split; reflexivity.
    + symmetry. apply not_true_is_false. intros H.
      apply existsb_exists in H as (cart & Hin & Hid).
      unfold get_shopping_cart in Hnone.
      now rewrite (find_none _ _ Hnone cart Hin) in Hid.
Qed.

Lemma crud_create_order_checks_nothing_witness :
  (exists o db',
     crud_create_order 1 (mkOrderCreate 1 "Addr") scenario_C = (Ok o, db')
     /\ orders db' = [o]
     /\ order_status o = "pending"
     /\ total_amount o = Some Decimal.zero)
  /\ (exists db',
        crud_create_order 1 (mkOrderCreate 99 "Addr") scenario_A
        = (Raise IntegrityError, db')
        /\ orders db' = []).
Proof.
  split.
  - destruct (proj1 (@crud_create_order_checks_nothing
                       scenario_C 1 (mkOrderCreate 1 "Addr")
                       eq_refl eq_refl)
                (mkShoppingCart 1 1) eq_refl eq_refl eq_refl)
      as (o & db' & Hrun & Hstored & Hstatus & _ & Hempty).
    exists o, db'. repeat split; try assumption. now apply Hempty.
  - exact (proj2 (@crud_create_order_checks_nothing
                    scenario_A 1 (mkOrderCreate 99 "Addr") eq_refl eq_refl)
             eq_refl).
Defined.

(** The claim as it was worded, on a cart id that no cart has: no order
    comes back and none is stored. *)
Lemma create_order_for_missing_cart_raises :
  get_shopping_cart scenario_A 99 = None
  /\ fst (crud_create_order 1 (mkOrderCreate 99 "Addr") scenario_A)
     = Raise IntegrityError
  /\ orders (snd (crud_create_order 1 (mkOrderCreate 99 "Addr") scenario_A))
     = [].
Proof. repeat split. Qed.

(** ** The order handler never gets past its stock check *)

Lemma check_stock_raises item rest db :
  exists e, check_stock (item :: rest) db = (Raise e, db).
Proof.
  simpl. run_m.
  destruct (get_product db (item_product_id item)); eexists; reflexivity.
Qed.

Lemma router_create_order_raises order user db :
  exists e, router_create_order order user db = (Raise e, db).
Proof.
  unfold router_create_order. run_m.
  destruct (get_shopping_cart db (oc_cart_id order)) as [cart|];
    [|eexists; reflexivity].
  destruct (cart_user_id cart =? user_id user); simpl;
    [|eexists; reflexivity].
  destruct (cart_items db cart) as [|item rest] eqn:Hitems;
    [eexists; reflexivity|].
  destruct (check_stock_raises item rest db) as [e He].
  unfold bind. rewrite He. eexists; reflexivity.
Qed.

(** C4: a call that fails leaves the inventory rows, the cart items and the
    orders as they were before the call.  In the order handler every
    failing step comes before the first write; the data-layer
    [create_order] writes at its commit only, and a commit that fails
    ([DataError] for a total too wide for its column, [IntegrityError] for a
    user or a cart that does not exist) stores nothing. *)
Theorem failed_create_order_has_no_effect order user db :
  (forall e db',
     router_create_order order user db = (Raise e, db') ->
     inventory db' = inventory db
     /\ shopping_cart_items db' = shopping_cart_items db
     /\ List.length (orders db') = List.length (orders db))
  /\ (forall uid e db',
        crud_create_order uid order db = (Raise e, db') ->
        inventory db' = inventory db
        /\ shopping_carts db' = shopping_carts db
        /\ shopping_cart_items db' = shopping_cart_items db
        /\ orders db' = orders db).
Proof.
  split.
  - intros e db' H.
    destruct (router_create_order_raises order user db) as [e0 H0].
    rewrite H0 in H. injection H as _ <-. auto.
  - intros uid e db' H.
    destruct (crud_create_order_raises _ _ _ H) as [seq ->].
    repeat split.
Qed.

Lemma failed_create_order_has_no_effect_witness :
  (router_create_order (mkOrderCreate 1 "123 Test St") (mkUser 1) scenario_A
   = (Raise (AttributeError "Product" "quantity"), scenario_A)
   /\ inventory scenario_A = inventory scenario_A
   /\ shopping_cart_items scenario_A = shopping_cart_items scenario_A
   /\ List.length (orders scenario_A) = List.length (orders scenario_A))
  /\ (exists db',
        crud_create_order 1 (mkOrderCreate 99 "Addr") scenario_A
        = (Raise IntegrityError, db')
        /\ inventory db' = inventory scenario_A
        /\ shopping_carts db' = shopping_carts scenario_A
        /\ shopping_cart_items db' = shopping_cart_items scenario_A
        /\ orders db' = orders scenario_A)
  /\ (exists db',
        crud_create_order 1 (mkOrderCreate 1 "Addr") scenario_bulk
        = (Raise DataError, db')
        /\ inventory db' = inventory scenario_bulk
        /\ shopping_carts db' = shopping_carts scenario_bulk
        /\ shopping_cart_items db' = shopping_cart_items scenario_bulk
        /\ orders db' = orders scenario_bulk).
Proof.
  split; [split; [reflexivity|] | split].
  - exact (proj1 (failed_create_order_has_no_effect
                    (mkOrderCreate 1 "123 Test St") (mkUser 1) scenario_A)
             (AttributeError "Product" "quantity") scenario_A eq_refl).
  - eexists. split; [reflexivity|].
    exact (proj2 (failed_create_order_has_no_effect
                    (mkOrderCreate 99 "Addr") (mkUser 1) scenario_A)
             1 IntegrityError _ eq_refl).
  - eexists. split; [reflexivity|].
    exact (proj2 (failed_create_order_has_no_effect
                    (mkOrderCreate 1 "Addr") (mkUser 1) scenario_bulk)
             1 DataError _ eq_refl).
Defined.

(** C5: the order handler raises 404 (NotFound) when no cart has the given
    id, 403 (Forbidden) when the cart belongs to another user, and 400
    "Cannot create order from empty cart" (EmptyCart) when the caller's cart
    has no items; the database, the inventory with it, is left as it was. *)
Theorem create_order_rejects_bad_cart order user db :
  (get_shopping_cart db (oc_cart_id order) = None ->
   router_create_order order user db
   = (Raise (HTTPException 404
               ("Cart with ID " ++ str_int (oc_cart_id order) ++ " not found")),
      db))
  /\ (forall cart,
        get_shopping_cart db (oc_cart_id order) = Some cart ->
        cart_user_id cart <> user_id user ->
        router_create_order order user db
        = (Raise (HTTPException 403
                    "You can only create orders from your own cart"),
           db))
  /\ (forall cart,
        get_shopping_cart db (oc_cart_id order) = Some cart ->
        cart_user_id cart = user_id user ->
        cart_items db cart = [] ->
        router_create_order order user db
        = (Raise (HTTPException 400 "Cannot create order from empty cart"),
           db)).
Proof.
  unfold router_create_order, bind, query, raise. repeat split.
  - now intros ->.
  - intros cart -> Hother.
    destruct (Z.eqb_spec (cart_user_id cart) (user_id user));
      [contradiction | reflexivity].
  - intros cart -> Hown Hitems.
    rewrite Hown, Z.eqb_refl. cbn [negb]. rewrite Hitems. reflexivity.
Qed.

Lemma create_order_rejects_bad_cart_witness :
  router_create_order (mkOrderCreate 7 "Addr") (mkUser 1) scenario_A
  = (Raise (HTTPException 404 "Cart with ID 7 not found"), scenario_A)
  /\ router_create_order (mkOrderCreate 1 "Addr") (mkUser 2) scenario_A
     = (Raise (HTTPException 403
                 "You can only create orders from your own cart"),
        scenario_A)
  /\ router_create_order (mkOrderCreate 1 "Addr") (mkUser 1) scenario_C
     = (Raise (HTTPException 400 "Cannot create order from empty cart"),
        scenario_C).
Proof.
  split; [|split].
  - exact (proj1 (create_order_rejects_bad_cart
                    (mkOrderCreate 7 "Addr") (mkUser 1) scenario_A) eq_refl).
  - apply (proj1 (proj2 (create_order_rejects_bad_cart
                           (mkOrderCreate 1 "Addr") (mkUser 2) scenario_A))
             (mkShoppingCart 1 1) eq_refl).
    simpl. lia.
  - exact (proj2 (proj2 (create_order_rejects_bad_cart
                           (mkOrderCreate 1 "Addr") (mkUser 1) scenario_C))
             (mkShoppingCart 1 1) eq_refl eq_refl eq_refl).
Defined.

(** X27: the order handler never gets to create an order.  Once the cart
    checks pass (the cart exists, is the caller's and has items), the first
    line item decides the outcome: 404 when its product is gone, and
    otherwise the read of [product.quantity] raises [AttributeError]; in
    both cases nothing is written. *)
Lemma router_create_order_first_item order user db cart item rest :
  get_shopping_cart db (oc_cart_id order) = Some cart ->
  cart_user_id cart = user_id user ->
  cart_items db cart = item :: rest ->
  router_create_order order user db
  = (Raise (match get_product db (item_product_id item) with
            | Some _ => AttributeError "Product" "quantity"
            | None =>
                HTTPException 404
                  ("Product with ID " ++ str_int (item_product_id item)
                   ++ " not found")
            end), db).
Proof.
  intros Hcart Hown Hitems.
  unfold router_create_order, bind, query, raise.
  rewrite Hcart, Hown, Z.eqb_refl. cbn [negb]. rewrite Hitems.
  cbn [check_stock]. unfold bind, query, Product_quantity, raise.
  destruct (get_product db (item_product_id item)); reflexivity.
Qed.

(** X21: the add handler of the cart checks the quantity asked for against
    the inventory row of the product, and reports a shortage with the
    quantity available: 400 "Insufficient stock. Available: n", with nothing
    written. *)
Lemma add_item_reports_insufficient_stock db item user product inv :
  get_product db (sci_product_id item) = Some product ->
  get_inventory_by_product db (sci_product_id item) = Some inv ->
  quantity_in_stock inv < sci_quantity item ->
  router_add_item item user db
  = (Raise (HTTPException 400
              ("Insufficient stock. Available: "
               ++ str_int (quantity_in_stock inv))), db).
Proof.
  intros Hp Hinv Hlt.
  unfold router_add_item, check_inventory, bind, query, raise.
  rewrite Hp, Hinv.
  destruct (Z.ltb_spec (quantity_in_stock inv) (sci_quantity item));
    [reflexivity | lia].
Qed.

(** C2, scenario A on the code: the data-layer [create_order] returns an
    order and leaves the stock at 3 and the item in the cart; the order
    handler raises [AttributeError] before it writes anything. *)
Theorem scenario_A_stock_and_cart_untouched :
  exists o db',
    crud_create_order 1 (mkOrderCreate 1 "123 Test St") scenario_A
    = (Ok o, db')
    /\ stock_of db' 1 = Some 3
    /\ cart_items db' (mkShoppingCart 1 1) = [mkShoppingCartItem 1 1 1 2]
    /\ router_create_order (mkOrderCreate 1 "123 Test St") (mkUser 1)
                           scenario_A
       = (Raise (AttributeError "Product" "quantity"), scenario_A).
Proof.
  do 2 eexists. split; [apply crud_create_order_returns; reflexivity|].
  repeat split.
Qed.

(** C3, on the code: with 5 units requested and 3 in stock, the order
    handler raises [AttributeError], not the insufficient-stock error, and
    the data-layer [create_order] accepts the cart and returns an order. *)
Theorem insufficient_stock_not_reported :
  router_create_order (mkOrderCreate 1 "Addr") (mkUser 1) scenario_short
  = (Raise (AttributeError "Product" "quantity"), scenario_short)
  /\ exists o db',
       crud_create_order 1 (mkOrderCreate 1 "Addr") scenario_short
       = (Ok o, db')
       /\ total_amount o = Some (Decimal.of_cents 5000)
       /\ stock_of db' 1 = Some 3.
Proof.
  split; [reflexivity|].
  do 2 eexists. split; [apply crud_create_order_returns; reflexivity|].
  split; reflexivity.
Qed.

(** ** Order status checks *)

(** X7: the update handler rejects a non-empty status outside the
    enumeration on the caller's own order with 400, the message listing the
    five statuses, and writes nothing. *)
Lemma update_order_rejects_unknown_status db oid user u order s :
  get_order db oid = Some order ->
  order_user_id order = user_id user ->
  ou_order_status u = Some s ->
  s <> "" ->
  str_in s valid_statuses = false ->
  router_update_order oid u user db
  = (Raise (HTTPException 400
              "Invalid order status. Must be one of: pending, confirmed, shipped, delivered, cancelled"),
     db).
Proof.
  intros Horder Hown Hs Hne Hout.
  unfold router_update_order, bind, query, raise.
  rewrite Horder, Hown, Z.eqb_refl, Hs, Hout. cbn [negb].
  unfold truthy. destruct (String.eqb_spec s ""); [contradiction|].
  reflexivity.
Qed.

(** X8: the delete handler refuses every order that is shipped or
    delivered, whoever asks, and leaves the database as it was. *)
Lemma delete_order_protects_shipped_delivered db oid user order :
  get_order db oid = Some order ->
  order_status order = "shipped" \/ order_status order = "delivered" ->
  exists e, router_delete_order oid user db = (Raise e, db).
Proof.
  intros Horder Hstatus.
  unfold router_delete_order, bind, query, raise. rewrite Horder.
  destruct (negb (order_user_id order =? user_id user));
    [eexists; reflexivity|].
  destruct Hstatus as [-> | ->]; eexists; reflexivity.
Qed.

(** C9, on the code: the empty string is outside the enumeration, and the
    update handler accepts it on the caller's own order and stores it as the
    order's status. *)
Theorem update_order_accepts_empty_status :
  str_in "" valid_statuses = false
  /\ router_update_order 1 (mkOrderUpdate None (Some "")) (mkUser 1)
                         scenario_order
     = (Ok (Some (mkOrder 1 1 (Some 1) "Addr" "" (Some 2000))),
        mkDB [mkUser 1] [] [] [] []
             [mkOrder 1 1 (Some 1) "Addr" "" (Some 2000)]
             1 0 0 0).
Proof.
  split; reflexivity.
Qed.

(** ** Schema validation *)

Lemma validated_cases {A} errors (a : A) db :
  (errors = [] /\ validated errors a db = (Ok a, db))
  \/ (errors <> [] /\
      validated errors a db = (Raise (RequestValidationError errors), db)).
Proof.
  destruct errors; [left | right]; split; try reflexivity; discriminate.
Qed.

Lemma check_ge_nil field bound v : check_ge field bound v = [] -> bound <= v.
Proof.
  unfold check_ge. destruct (Z.leb_spec bound v); [auto | discriminate].
Qed.

Lemma check_gt_nil field bound v : check_gt field bound v = [] -> bound < v.
Proof.
  unfold check_gt. destruct (Z.ltb_spec bound v); [auto | discriminate].
Qed.

Lemma check_gt_fails field bound v :
  v <= bound -> check_gt field bound v = [(field, not_gt)].
Proof.
  intros H. unfold check_gt. destruct (Z.ltb_spec bound v); [lia | reflexivity].
Qed.

Lemma check_gt_passes field bound v : bound < v -> check_gt field bound v = [].
Proof.
  intros H. unfold check_gt. destruct (Z.ltb_spec bound v); [reflexivity | lia].
Qed.

(** ** Restocking *)

Lemma find_update_first_other {A} (p q : A -> bool) f rows :
  (forall r, q (f r) = q r) ->
  (forall r, p r = true -> q r = false) ->
  find q (update_first p f rows) = find q rows.
Proof.
  intros Hf Hpq. induction rows as [|x rest IH]; simpl; [reflexivity|].
  destruct (p x) eqn:Hp; simpl.
  - now rewrite Hf, (Hpq x Hp).
  - now rewrite IH.
Qed.

(** What the restock endpoint comes to on a row that exists, for a
    quantity the schema accepts: the commit decides. *)
Lemma api_restock_inventory_found t iid q db r :
  0 < q -> get_inventory db iid = Some r ->
  api_restock_inventory t iid (mkInventoryRestock q) db
  = if fits_Integer (quantity_in_stock r + q)
    then (Ok (restocked t q r),
          set_inventory
            (update_first (fun x => inventory_id x =? iid) (restocked t q)
                          (inventory db))
            (inventory_id_seq db) db)
    else (Raise DataError, db).
Proof.
  intros Hq Hr.
  unfold api_restock_inventory, parse_InventoryRestock, bind.
  cbn [quantity_to_add]. rewrite check_gt_passes by lia.
  unfold validated, ret, router_restock_inventory, crud_restock_inventory,
    bind, or_not_found.
  rewrite Hr. cbn [quantity_to_add].
  destruct (fits_Integer (quantity_in_stock r + q)); reflexivity.
Qed.

Lemma api_restock_inventory_missing t iid q db :
  get_inventory db iid = None ->
  snd (api_restock_inventory t iid (mkInventoryRestock q) db) = db.
Proof.
  intros Hr.
  unfold api_restock_inventory, parse_InventoryRestock, bind.
  destruct (validated_cases
              (check_gt "quantity_to_add" 0
                 (quantity_to_add (mkInventoryRestock q)))
              (mkInventoryRestock q) db) as [[_ ->] | [_ ->]];
    [|reflexivity].
  unfold router_restock_inventory, crud_restock_inventory, bind,
    or_not_found, inventory_not_found, raise.
  cbn [quantity_to_add]. now rewrite Hr.
Qed.

(** C8, as the code has it: for an existing inventory row and a quantity of
    at least 1 whose sum with the stock fits the [Integer] column of
    [quantity_in_stock], the restock endpoint returns that row with
    [quantity_in_stock] increased by exactly the quantity and
    [last_restocked_at] set to the clock reading, and this is the row stored
    afterwards, the other rows being as before; when the sum does not fit,
    the commit fails with [DataError] and nothing is written; a quantity of
    0 or less is rejected by the request schema (validation error on
    [quantity_to_add]) with nothing written; an unknown inventory id yields
    404. *)
Theorem restock_inventory_spec now iid qty db :
  (forall r,
     get_inventory db iid = Some r -> 1 <= qty ->
     fits_Integer (quantity_in_stock r + qty) = true ->
     exists inv' db',
       api_restock_inventory now iid (mkInventoryRestock qty) db
       = (Ok inv', db')
       /\ quantity_in_stock inv' = quantity_in_stock r + qty
       /\ last_restocked_at inv' = Some now
       /\ inventory_id inv' = inventory_id r
       /\ inventory_product_id inv' = inventory_product_id r
       /\ reorder_level inv' = reorder_level r
       /\ get_inventory db' iid = Some inv'
       /\ (forall j, j <> iid -> get_inventory db' j = get_inventory db j))
  /\ (forall r,
        get_inventory db iid = Some r -> 1 <= qty ->
        fits_Integer (quantity_in_stock r + qty) = false ->
        api_restock_inventory now iid (mkInventoryRestock qty) db
        = (Raise DataError, db))
  /\ (qty <= 0 ->
      api_restock_inventory now iid (mkInventoryRestock qty) db
      = (Raise (RequestValidationError [("quantity_to_add", not_gt)]), db))
  /\ (get_inventory db iid = None -> 1 <= qty ->
      api_restock_inventory now iid (mkInventoryRestock qty) db
      = (Raise (HTTPException 404
                  ("Inventory with ID " ++ str_int iid ++ " not found")),
         db)).
Proof.
  split; [|split; [|split]].
  - intros r Hr Hqty Hfits.
    rewrite (@api_restock_inventory_found now iid qty db r ltac:(lia) Hr).
    rewrite Hfits.
    exists (restocked now qty r). eexists. split; [reflexivity|].
    repeat split.
    + unfold get_inventory. cbn [inventory set_inventory].
      apply find_update_first; [exact Hr|].
      apply find_some in Hr. exact (proj2 Hr).
    + intros j Hj. unfold get_inventory. cbn [inventory set_inventory].
      apply find_update_first_other; [reflexivity|].
      intros x Hx. apply Z.eqb_eq in Hx. apply Z.eqb_neq. lia.
  - intros r Hr Hqty Hfits.
    rewrite (@api_restock_inventory_found now iid qty db r ltac:(lia) Hr).
    now rewrite Hfits.
  - intros Hqty.
    unfold api_restock_inventory, parse_InventoryRestock.
    cbn [quantity_to_add]. rewrite check_gt_fails by lia. reflexivity.
  - intros Hnone Hqty.
    unfold api_restock_inventory, parse_InventoryRestock,
      router_restock_inventory, crud_restock_inventory.
    cbn [quantity_to_add]. rewrite check_gt_passes by lia. run_m.
    now rewrite Hnone.
Qed.

Lemma restock_inventory_spec_witness :
  (exists inv' db',
     api_restock_inventory 1700000000 1 (mkInventoryRestock 4) scenario_A
     = (Ok inv', db')
     /\ quantity_in_stock inv' = 3 + 4
     /\ last_restocked_at inv' = Some 1700000000
     /\ get_inventory db' 1 = Some inv')
  /\ api_restock_inventory 1700000000 1 (mkInventoryRestock 2147483645)
                           scenario_A
     = (Raise DataError, scenario_A)
  /\ api_restock_inventory 1700000000 1 (mkInventoryRestock 0) scenario_A
     = (Raise (RequestValidationError [("quantity_to_add", not_gt)]),
        scenario_A)
  /\ api_restock_inventory 1700000000 9 (mkInventoryRestock 4) scenario_A
     = (Raise (HTTPException 404 "Inventory with ID 9 not found"),
        scenario_A).
Proof.
  split; [|split; [|split]].
  - destruct (proj1 (restock_inventory_spec 1700000000 1 4 scenario_A)
                (mkInventory 1 1 3 1 None) eq_refl)
      as (inv' & db' & Hrun & Hqty & Hstamp & _ & _ & _ & Hget & _);
      [lia | reflexivity |].
    exists inv', db'. repeat split; assumption.
  - apply (proj1 (proj2 (restock_inventory_spec 1700000000 1 2147483645
                           scenario_A))
             (mkInventory 1 1 3 1 None) eq_refl); [lia | reflexivity].
  - apply (proj1 (proj2 (proj2 (restock_inventory_spec 1700000000 1 0
                                  scenario_A)))).
    lia.
  - apply (proj2 (proj2 (proj2 (restock_inventory_spec 1700000000 9 4
                                  scenario_A))));
      [reflexivity | lia].
Defined.

(** The claim as it was worded, on a stock of 3: the restock of 2147483647
    units, a quantity of at least 1 on an existing row, does not return the
    row with 3 + 2147483647 units; it raises and the stock stays 3. *)
Lemma restock_past_the_column_raises :
  get_inventory scenario_A 1 = Some (mkInventory 1 1 3 1 None)
  /\ 1 <= 2147483647
  /\ api_restock_inventory 1700000000 1 (mkInventoryRestock 2147483647)
                           scenario_A
     = (Raise DataError, scenario_A)
  /\ stock_of scenario_A 1 = Some 3.
Proof. repeat split. lia. Qed.

(** ** The writes of the inventory table, by how the commit ends *)

Lemma fits_Integer_iff v :
  fits_Integer v = true <-> INT_MIN <= v <= INT_MAX.
Proof.
  unfold fits_Integer. rewrite andb_true_iff, !Z.leb_le. tauto.
Qed.

Lemma set_inventory_same db :
  set_inventory (inventory db) (inventory_id_seq db) db = db.
Proof. destruct db; reflexivity. Qed.

Lemma existsb_find_some {A} (p : A -> bool) rows :
  existsb p rows = true <-> find p rows <> None.
Proof.
  induction rows as [|x rest IH]; simpl; [split; [discriminate | tauto]|].
  destruct (p x); simpl; [split; [discriminate | reflexivity] | exact IH].
Qed.

Lemma existsb_find_none {A} (p : A -> bool) rows :
  existsb p rows = false <-> find p rows = None.
Proof.
  induction rows as [|x rest IH]; simpl; [tauto|].
  destruct (p x); simpl; [split; discriminate | exact IH].
Qed.

(** [crud.create_inventory]: a failed commit stores no row, and a commit
    that goes through appends the row of the request. *)
Lemma crud_create_inventory_cases now inv db :
  (exists e seq,
     crud_create_inventory now inv db
     = (Raise e, set_inventory (inventory db) seq db)
     /\ inventory_id_seq db <= seq)
  \/ (fits_Integer (ic_product_id inv) = true
      /\ fits_Integer (ic_quantity_in_stock inv) = true
      /\ fits_Integer (ic_reorder_level inv) = true
      /\ get_product db (ic_product_id inv) <> None
      /\ get_inventory_by_product db (ic_product_id inv) = None
      /\ crud_create_inventory now inv db
         = (let r := mkInventory (inventory_id_seq db + 1) (ic_product_id inv)
                       (ic_quantity_in_stock inv) (ic_reorder_level inv)
                       (if ic_quantity_in_stock inv >? 0 then Some now
                        else None) in
            (Ok r, set_inventory (inventory db ++ [r])
                                 (inventory_id_seq db + 1) db))).
Proof.
  unfold crud_create_inventory.
  destruct (fits_Integer (ic_product_id inv)) eqn:Hp; cbn [andb negb].
  2:{ left. exists DataError, (inventory_id_seq db).
      rewrite set_inventory_same. split; [reflexivity | lia]. }
  destruct (fits_Integer (ic_quantity_in_stock inv)) eqn:Hq; cbn [andb negb].
  2:{ left. exists DataError, (inventory_id_seq db).
      rewrite set_inventory_same. split; [reflexivity | lia]. }
  destruct (fits_Integer (ic_reorder_level inv)) eqn:Hl; cbn [andb negb].
  2:{ left. exists DataError, (inventory_id_seq db).
      rewrite set_inventory_same. split; [reflexivity | lia]. }
  destruct (existsb (fun p => product_id p =? ic_product_id inv)
                    (products db)) eqn:Hprod; cbn [negb orb].
  2:{ left. do 2 eexists. split; [reflexivity | lia]. }
  destruct (existsb (fun r => inventory_product_id r =? ic_product_id inv)
                    (inventory db)) eqn:Hrow.
  { left. do 2 eexists. split; [reflexivity | lia]. }
  right. repeat split.
  - now apply existsb_find_some.
  - now apply existsb_find_none.
Qed.

(** [crud.update_inventory] and [crud.restock_inventory]: nothing is
    written unless the row exists and the new values fit. *)
Lemma crud_update_inventory_cases iid u db :
  (exists res, crud_update_inventory iid u db = (res, db))
  \/ (exists r,
        get_inventory db iid = Some r
        /\ fits_nullable fits_Integer (iu_quantity_in_stock u) = true
        /\ fits_nullable fits_Integer (iu_reorder_level u) = true
        /\ crud_update_inventory iid u db
           = (Ok (Some (apply_inventory_update u r)),
              set_inventory
                (update_first (fun x => inventory_id x =? iid)
                              (apply_inventory_update u) (inventory db))
                (inventory_id_seq db) db)).
Proof.
  unfold crud_update_inventory.
  destruct (get_inventory db iid) as [r|]; [|left; eauto].
  destruct (fits_nullable fits_Integer (iu_quantity_in_stock u)) eqn:Hq;
    cbn [andb negb]; [|left; eauto].
  destruct (fits_nullable fits_Integer (iu_reorder_level u)) eqn:Hl;
    cbn [andb negb]; [|left; eauto].
  right. exists r. auto.
Qed.

Lemma crud_restock_inventory_cases now iid qty db :
  (exists res, crud_restock_inventory now iid qty db = (res, db))
  \/ (exists r,
        get_inventory db iid = Some r
        /\ fits_Integer (quantity_in_stock r + qty) = true
        /\ crud_restock_inventory now iid qty db
           = (Ok (Some (restocked now qty r)),
              set_inventory
                (update_first (fun x => inventory_id x =? iid)
                              (restocked now qty) (inventory db))
                (inventory_id_seq db) db)).
Proof.
  unfold crud_restock_inventory.
  destruct (get_inventory db iid) as [r|]; [|left; eauto].
  destruct (fits_Integer (quantity_in_stock r + qty)) eqn:Hq;
    cbn [negb]; [|left; eauto].
  right. exists r. auto.
Qed.

(** ** Non-negative stock *)

Lemma create_inventory_nonneg now b db :
  stock_nonneg db -> stock_nonneg (snd (api_create_inventory now b db)).
Proof.
  intros Hdb. unfold api_create_inventory, parse_InventoryCreate, bind.
  match goal with |- context [validated ?errs ?a db] =>
    destruct (validated_cases errs a db) as [[Hnil ->] | [_ ->]];
      [|exact Hdb]
  end.
  apply app_eq_nil in Hnil as [Hqty _].
  unfold router_create_inventory. run_m.
  destruct (get_product db (bic_product_id b)); [|exact Hdb].
  destruct (get_inventory_by_product db (bic_product_id b)); [exact Hdb|].
  match goal with |- context [crud_create_inventory now ?inv db] =>
    destruct (crud_create_inventory_cases now inv db)
      as [(e & seq & -> & _) | (_ & _ & _ & _ & _ & ->)]
  end; [exact Hdb|].
  unfold stock_nonneg; simpl. apply Forall_app. split; [exact Hdb|].
  constructor; [|constructor]. simpl.
  destruct (bic_quantity_in_stock b) as [q|]; simpl in *; [|lia].
  now apply check_ge_nil in Hqty.
Qed.

Lemma update_inventory_nonneg iid b db :
  stock_nonneg db -> stock_nonneg (snd (api_update_inventory iid b db)).
Proof.
  intros Hdb. unfold api_update_inventory, parse_InventoryUpdate, bind.
  match goal with |- context [validated ?errs ?a db] =>
    destruct (validated_cases errs a db) as [[Hnil ->] | [_ ->]];
      [|exact Hdb]
  end.
  apply app_eq_nil in Hnil as [Hqty _].
  unfold router_update_inventory, bind.
  destruct (crud_update_inventory_cases iid b db)
    as [(res & ->) | (r0 & _ & _ & _ & ->)].
  - destruct res as [[inv|]|e]; exact Hdb.
  - unfold stock_nonneg; simpl. apply Forall_update_first; [exact Hdb|].
    intros r Hr. simpl.
    destruct (iu_quantity_in_stock b) as [q|]; simpl in *; [|exact Hr].
    now apply check_ge_nil in Hqty.
Qed.

Lemma restock_inventory_nonneg now iid b db :
  stock_nonneg db -> stock_nonneg (snd (api_restock_inventory now iid b db)).
Proof.
  intros Hdb. unfold api_restock_inventory, parse_InventoryRestock, bind.
  match goal with |- context [validated ?errs ?a db] =>
    destruct (validated_cases errs a db) as [[Hnil ->] | [_ ->]];
      [|exact Hdb]
  end.
  apply check_gt_nil in Hnil.
  unfold router_restock_inventory, bind.
  destruct (crud_restock_inventory_cases now iid (quantity_to_add b) db)
    as [(res & ->) | (r0 & _ & _ & ->)].
  - destruct res as [[inv|]|e]; exact Hdb.
  - unfold stock_nonneg; simpl. apply Forall_update_first; [exact Hdb|].
    intros r Hr. simpl. lia.
Qed.

Lemma delete_inventory_nonneg iid db :
  stock_nonneg db -> stock_nonneg (snd (router_delete_inventory iid db)).
Proof.
  intros Hdb. unfold router_delete_inventory, crud_delete_inventory. run_m.
  destruct (get_inventory db iid); [|exact Hdb].
  unfold stock_nonneg; simpl. now apply Forall_remove_first.
Qed.

(** The bound on a restock is the schema's: the data-layer function adds
    whatever it is given. *)
Example crud_restock_inventory_unchecked :
  stock_of (snd (crud_restock_inventory 0 1 (-5) scenario_A)) 1 = Some (-2).
Proof. reflexivity. Qed.

(** *** Handlers that leave the inventory table alone *)

Lemma keeps_ret {A} (a : A) : keeps_inventory (ret a).
Proof. intros db; reflexivity. Qed.

Lemma keeps_raise {A} e : keeps_inventory (@raise A e).
Proof. intros db; reflexivity. Qed.

Lemma keeps_query {A} (q : DB -> A) : keeps_inventory (query q).
Proof. intros db; reflexivity. Qed.

Lemma keeps_bind {A B} (m : M A) (k : A -> M B) :
  keeps_inventory m -> (forall a, keeps_inventory (k a)) ->
  keeps_inventory (bind m k).
Proof.
  intros Hm Hk db. unfold bind. specialize (Hm db).
  destruct (m db) as [[a|e] db']; simpl in *; [|exact Hm].
  now rewrite Hk.
Qed.

Lemma keeps_validated {A} errors (a : A) : keeps_inventory (validated errors a).
Proof. destruct errors; [apply keeps_ret | apply keeps_raise]. Qed.

Create HintDb keeps.
#[local] Hint Resolve keeps_ret keeps_raise keeps_query keeps_validated
  : keeps.

(** Take a handler apart along its binds and branches. *)
Ltac keeps :=
  repeat first
    [ progress auto with keeps
    | apply keeps_bind; [|intros ?]
    | match goal with
      | |- keeps_inventory (match ?x with _ => _ end) => destruct x
      | |- keeps_inventory (if ?b then _ else _) => destruct b
      end
    | intros ?; reflexivity ].

Lemma keeps_check_stock items : keeps_inventory (check_stock items).
Proof.
  induction items as [|item rest IH]; simpl; [keeps|].
  unfold Product_quantity. keeps.
Qed.

Lemma keeps_update_quantities items :
  keeps_inventory (update_quantities items).
Proof.
  induction items as [|item rest IH]; simpl; [keeps|].
  unfold Product_quantity, Product_set_quantity. keeps.
Qed.

Lemma keeps_crud_create_order uid order :
  keeps_inventory (crud_create_order uid order).
Proof.
  intros db.
  destruct (crud_create_order_cases uid order db)
    as [(e & seq & -> & _) | (o & -> & _)]; reflexivity.
Qed.

#[local] Hint Resolve keeps_check_stock keeps_update_quantities
  keeps_crud_create_order : keeps.

Lemma keeps_router_create_order order user :
  keeps_inventory (router_create_order order user).
Proof.
  unfold router_create_order, call_crud_create_order. keeps.
Qed.

Lemma keeps_router_update_order oid u user :
  keeps_inventory (router_update_order oid u user).
Proof.
  unfold router_update_order. keeps.
  intros db. unfold crud_update_order. destruct (get_order db oid); reflexivity.
Qed.

Lemma keeps_router_delete_order oid user :
  keeps_inventory (router_delete_order oid user).
Proof.
  unfold router_delete_order. keeps.
  intros db. unfold crud_delete_order. destruct (get_order db oid); reflexivity.
Qed.

Lemma keeps_get_or_create_cart user :
  keeps_inventory (get_or_create_cart user).
Proof. unfold get_or_create_cart. keeps. Qed.

Lemma keeps_check_inventory pid quantity :
  keeps_inventory (check_inventory pid quantity).
Proof. unfold check_inventory. keeps. Qed.

Lemma keeps_check_item_owner cart_item user detail :
  keeps_inventory (check_item_owner cart_item user detail).
Proof. unfold check_item_owner. keeps. Qed.

#[local] Hint Resolve keeps_get_or_create_cart keeps_check_inventory
  keeps_check_item_owner : keeps.

Lemma keeps_api_add_item b user : keeps_inventory (api_add_item b user).
Proof.
  unfold api_add_item, parse_ShoppingCartItemCreate, router_add_item. keeps.
  intros db. unfold crud_add_item_to_cart.
  destruct (find _ (shopping_cart_items db)); reflexivity.
Qed.

Lemma keeps_api_update_item iid b user :
  keeps_inventory (api_update_item iid b user).
Proof.
  unfold api_update_item, parse_ShoppingCartItemUpdate, router_update_item,
    cart_item_not_found.
  keeps.
  intros db. unfold crud_update_cart_item.
  destruct (get_cart_item db iid); reflexivity.
Qed.

Lemma keeps_router_remove_item iid user :
  keeps_inventory (router_remove_item iid user).
Proof.
  unfold router_remove_item, cart_item_not_found. keeps.
  intros db. unfold crud_remove_item_from_cart.
  destruct (get_cart_item db iid); reflexivity.
Qed.

Lemma keeps_router_clear_cart user :
  keeps_inventory (router_clear_cart user).
Proof. unfold router_clear_cart. keeps. Qed.

Lemma serve_nonneg now req db :
  stock_nonneg db -> stock_nonneg (serve now req db).
Proof.
  intros Hdb. unfold stock_nonneg.
  destruct req; simpl.
  - now apply create_inventory_nonneg.
  - now apply update_inventory_nonneg.
  - now apply restock_inventory_nonneg.
  - now apply delete_inventory_nonneg.
  - now rewrite keeps_router_create_order.
  - now rewrite keeps_router_update_order.
  - now rewrite keeps_router_delete_order.
  - unfold router_get_cart. now rewrite keeps_get_or_create_cart.
  - now rewrite keeps_api_add_item.
  - now rewrite keeps_api_update_item.
  - now rewrite keeps_router_remove_item.
  - now rewrite keeps_router_clear_cart.
  - now rewrite keeps_crud_create_order.
Qed.

(** C7: from a database in which every [quantity_in_stock] is at least 0,
    no history of requests to the inventory, order and cart endpoints (and
    of direct calls of the data-layer [create_order]) reaches a database
    with a negative [quantity_in_stock]: creation and update are validated
    to be at least 0, a restock adds more than 0, and nothing else writes
    the inventory table. *)
Theorem stock_never_negative history db :
  stock_nonneg db -> stock_nonneg (serve_all history db).
Proof.
  revert db; induction history as [|[now req] rest IH]; intros db Hdb; simpl.
  - exact Hdb.
  - apply IH, serve_nonneg, Hdb.
Qed.

Lemma stock_never_negative_witness :
  stock_nonneg
    (serve_all
       [(10, POST_inventory_restock 1 (mkInventoryRestock 5));
        (11, POST_inventory_restock 1 (mkInventoryRestock (-9)));
        (12, PUT_inventory 1 (mkInventoryUpdate (Some (-1)) None));
        (13, PUT_inventory 1 (mkInventoryUpdate (Some 0) (Some 2)));
        (14, POST_cart_items (mkUser 2) (mkBodyShoppingCartItemCreate 1 None));
        (14, CALL_crud_create_order 1 (mkOrderCreate 1 "123 Test St"));
        (15, POST_orders (mkUser 1) (mkOrderCreate 1 "123 Test St"))]
       scenario_A).
Proof.
  apply (stock_never_negative _ (db := scenario_A)).
  unfold stock_nonneg. simpl.
  constructor; [simpl; lia | constructor].
Defined.

(** ** Concurrent callers *)

Lemma alone_returned n r db : alone n (returned r) db = (returned r, db).
Proof. induction n; simpl; auto. Qed.

Lemma alone_loop uid order items total db n :
  (List.length items < n)%nat ->
  alone n (at_loop uid order items total) db
  = (let (r, db') :=
       insert_order uid (Some (oc_cart_id order)) (oc_address order)
                    "pending" (Some (accumulate_total db items total)) db in
     (returned r, db')).
Proof.
  revert items total; induction n as [|n IH]; intros items total Hn;
    [inversion Hn|].
  destruct items as [|item rest]; simpl.
  - destruct (insert_order uid (Some (oc_cart_id order)) (oc_address order)
                           "pending" (Some total) db) as [r db'].
    apply alone_returned.
  - simpl in Hn.
    destruct (get_product db (item_product_id item)); apply IH; lia.
Qed.

(** Run alone, a caller ends with the result and the database of
    [crud.create_order]: the round trips are those of the function. *)
Lemma alone_is_crud_create_order uid order db n :
  (List.length (shopping_cart_items db) + 2 < n)%nat ->
  alone n (at_get_cart uid order) db
  = (returned (fst (crud_create_order uid order db)),
     snd (crud_create_order uid order db)).
Proof.
  intros Hn. destruct n as [|n]; [inversion Hn|].
  unfold crud_create_order. run_m.
  destruct (get_shopping_cart db (oc_cart_id order)) as [cart|]; simpl.
  - destruct n as [|n]; [simpl in Hn; lia|]. simpl.
    rewrite alone_loop.
    + now destruct (insert_order _ _ _ _ _ db).
    + pose proof (filter_length_le
                    (fun it => item_cart_id it =? cart_id cart)
                    (shopping_cart_items db)).
      unfold cart_items. lia.
  - rewrite alone_loop; [|simpl; lia].
    simpl. now destruct (insert_order _ _ _ _ _ db).
Qed.

(** A caller reads the users, the products, the carts and the cart items;
    its one write is on the orders. *)
Lemma caller_step_writes c db :
  exists rows seq, snd (caller_step c db) = set_orders rows seq db.
Proof.
  assert (Hsame : exists rows seq, db = set_orders rows seq db)
    by (exists (orders db), (orders_id_seq db); destruct db; reflexivity).
  destruct c as [uid order | uid order cart | uid order [|item rest] total | r];
    simpl; auto.
  - destruct (get_shopping_cart db (oc_cart_id order)); simpl; auto.
  - match goal with |- context [insert_order ?u ?c ?a ?st ?t db] =>
      destruct (insert_order_cases u c a st t db)
        as [[_ ->] | [(_ & _ & ->) | (_ & _ & ->)]]
    end; simpl; eauto.
  - destruct (get_product db (item_product_id item)); simpl; auto.
Qed.

Lemma accumulate_total_set_orders rows seq db items total :
  accumulate_total (set_orders rows seq db) items total
  = accumulate_total db items total.
Proof.
  revert total; induction items as [|item rest IH]; intros total; simpl;
    [reflexivity|].
  unfold get_product. cbn [products set_orders].
  destruct (find _ (products db)); apply IH.
Qed.

Lemma wins_set_orders rows seq db c :
  wins (set_orders rows seq db) c = wins db c.
Proof.
  destruct c; simpl; unfold order_commits, order_references,
    get_shopping_cart, cart_items; cbn [users shopping_carts
    shopping_cart_items set_orders]; rewrite ?accumulate_total_set_orders;
    try reflexivity.
  destruct (find _ (shopping_carts db));
    rewrite ?accumulate_total_set_orders; reflexivity.
Qed.

(** A caller whose insert commits stays one, round trip after round trip,
    and returns an order at its last. *)
Lemma caller_step_wins c db :
  wins db c = true -> wins db (fst (caller_step c db)) = true.
Proof.
  destruct c as [uid order | uid order cart | uid order [|item rest] total | r];
    simpl; auto.
  - destruct (get_shopping_cart db (oc_cart_id order)); simpl; auto.
  - unfold order_commits, insert_order. simpl. intros H.
    apply andb_true_iff in H as [-> ->]. reflexivity.
  - destruct (get_product db (item_product_id item)); simpl; auto.
Qed.

Lemma wins_not_failed db c : wins db c = true -> failed c = false.
Proof. destruct c as [| | |[o|e]]; simpl; auto; discriminate. Qed.

Lemma caller_step_safe c db :
  inventory (snd (caller_step c db)) = inventory db.
Proof.
  destruct (caller_step_writes c db) as (rows & seq & ->). reflexivity.
Qed.

Lemma forallb_set_nth {A} (p : A -> bool) i a l :
  p a = true -> forallb p l = true -> forallb p (set_nth i a l) = true.
Proof.
  intros Ha. revert i; induction l as [|x rest IH]; intros i H; simpl in *;
    [destruct i; reflexivity|].
  apply andb_true_iff in H as [Hx Hrest].
  destruct i; simpl; apply andb_true_iff; auto.
Qed.

Lemma forallb_nth_error {A} (p : A -> bool) i a l :
  forallb p l = true -> nth_error l i = Some a -> p a = true.
Proof.
  intros H Hi. apply nth_error_In in Hi.
  rewrite forallb_forall in H. auto.
Qed.

Lemma forallb_ext_in {A} (p q : A -> bool) l :
  (forall a, p a = q a) -> forallb p l = forallb q l.
Proof.
  intros H. induction l as [|x rest IH]; simpl; [reflexivity|].
  now rewrite H, IH.
Qed.

Lemma turn_safe i cfg :
  forallb (wins (snd cfg)) (fst cfg) = true ->
  inventory (snd (turn i cfg)) = inventory (snd cfg)
  /\ forallb (wins (snd (turn i cfg))) (fst (turn i cfg)) = true.
Proof.
  intros Hok. unfold turn.
  destruct (nth_error (fst cfg) i) as [c|] eqn:Hc; [|auto].
  pose proof (caller_step_safe c (snd cfg)) as Hinv.
  pose proof (caller_step_writes c (snd cfg)) as (rows & seq & Hdb).
  pose proof (caller_step_wins c (snd cfg)
                (forallb_nth_error _ _ _ Hok Hc)) as Hwins.
  destruct (caller_step c (snd cfg)) as [c' db']; simpl in *.
  split; [exact Hinv|]. subst db'.
  rewrite (forallb_ext_in _ (wins (snd cfg)))
    by (intros a; apply wins_set_orders).
  now apply forallb_set_nth.
Qed.

(** Whatever the schedule, callers of the data-layer [create_order] whose
    inserts commit never fail, and the inventory table stays as it was. *)
Lemma run_schedule_safe schedule cfg :
  forallb (wins (snd cfg)) (fst cfg) = true ->
  inventory (snd (run_schedule schedule cfg)) = inventory (snd cfg)
  /\ none_failed (fst (run_schedule schedule cfg)) = true.
Proof.
  unfold run_schedule.
  revert cfg; induction schedule as [|i rest IH]; intros cfg Hok; simpl.
  - split; [reflexivity|]. unfold none_failed.
    rewrite forallb_forall in *. intros c Hc.
    apply negb_true_iff, (wins_not_failed (snd cfg)). auto.
  - destruct (turn_safe i cfg Hok) as [Hinv Hok'].
    destruct (IH _ Hok') as [Hinv' Hok''].
    split; [congruence | exact Hok''].
Qed.

(** A caller that has returned and has not raised has returned an order. *)
Lemma returned_not_failed_succeeded callers c :
  none_failed callers = true -> In c callers -> has_returned c = true ->
  succeeded c = true.
Proof.
  intros Hok Hin Hret. unfold none_failed in Hok.
  rewrite forallb_forall in Hok. specialize (Hok c Hin).
  destruct c as [| | |[o|e]]; simpl in *; congruence.
Qed.

(** *** Progress: a caller that gets its turns returns *)

Lemma caller_step_carts c db :
  shopping_carts (snd (caller_step c db)) = shopping_carts db
  /\ shopping_cart_items (snd (caller_step c db)) = shopping_cart_items db.
Proof.
  destruct (caller_step_writes c db) as (rows & seq & ->). split; reflexivity.
Qed.

Lemma steps_left_same_carts db db' c :
  shopping_carts db' = shopping_carts db ->
  shopping_cart_items db' = shopping_cart_items db ->
  steps_left db' c = steps_left db c.
Proof.
  intros Hc Hi. destruct c; simpl; unfold get_shopping_cart, cart_items;
    rewrite ?Hc, ?Hi; reflexivity.
Qed.

Lemma caller_step_progress c db :
  steps_left (snd (caller_step c db)) (fst (caller_step c db))
  = Nat.pred (steps_left db c).
Proof.
  destruct c as [uid order | uid order cart | uid order [|item rest] total | r];
    simpl; auto.
  - destruct (get_shopping_cart db (oc_cart_id order)); reflexivity.
  - now destruct (insert_order _ _ _ _ _ db).
  - destruct (get_product db (item_product_id item)); reflexivity.
Qed.

Lemma steps_left_0 db c : steps_left db c = O -> has_returned c = true.
Proof.
  destruct c; simpl; try discriminate; auto.
  destruct (get_shopping_cart db (oc_cart_id order)); discriminate.
Qed.

Lemma nth_error_set_nth_same {A} i (a x : A) l :
  nth_error l i = Some x -> nth_error (set_nth i a l) i = Some a.
Proof.
  revert i; induction l as [|y rest IH]; intros [|i]; simpl;
    try discriminate; auto.
Qed.

Lemma nth_error_set_nth_other {A} i j (a : A) l :
  i <> j -> nth_error (set_nth j a l) i = nth_error l i.
Proof.
  revert i j; induction l as [|y rest IH]; intros [|i] [|j] H; simpl; auto;
    contradiction.
Qed.

Lemma length_set_nth {A} i (a : A) l :
  List.length (set_nth i a l) = List.length l.
Proof.
  revert i; induction l as [|y rest IH]; intros [|i]; simpl; auto.
Qed.

Lemma length_turn i cfg :
  List.length (fst (turn i cfg)) = List.length (fst cfg).
Proof.
  unfold turn. destruct (nth_error (fst cfg) i) as [c|]; [|reflexivity].
  destruct (caller_step c (snd cfg)). simpl. apply length_set_nth.
Qed.

Lemma length_run_schedule schedule cfg :
  List.length (fst (run_schedule schedule cfg)) = List.length (fst cfg).
Proof.
  unfold run_schedule. revert cfg.
  induction schedule as [|i rest IH]; intros cfg; simpl; [reflexivity|].
  now rewrite IH, length_turn.
Qed.

(** One turn of caller [j] takes one round trip off what caller [j] has left
    and none off the others. *)
Lemma turn_steps_left j cfg i c :
  nth_error (fst cfg) i = Some c ->
  exists c',
    nth_error (fst (turn j cfg)) i = Some c'
    /\ steps_left (snd (turn j cfg)) c'
       = (steps_left (snd cfg) c - (if Nat.eq_dec j i then 1 else 0))%nat.
Proof.
  intros Hi. unfold turn.
  destruct (Nat.eq_dec j i) as [-> | Hne].
  - rewrite Hi.
    pose proof (caller_step_progress c (snd cfg)) as Hp.
    destruct (caller_step c (snd cfg)) as [c' db']; simpl in *.
    exists c'. split; [eapply nth_error_set_nth_same, Hi | lia].
  - destruct (nth_error (fst cfg) j) as [cj|];
      [|exists c; split; [exact Hi | lia]].
    pose proof (caller_step_carts cj (snd cfg)) as [Hc Hitems].
    destruct (caller_step cj (snd cfg)) as [cj' db']; simpl in *.
    exists c. split.
    + rewrite nth_error_set_nth_other by congruence. exact Hi.
    + rewrite (steps_left_same_carts _ _ c Hc Hitems). lia.
Qed.

Lemma run_schedule_steps_left schedule cfg i c :
  nth_error (fst cfg) i = Some c ->
  exists c',
    nth_error (fst (run_schedule schedule cfg)) i = Some c'
    /\ steps_left (snd (run_schedule schedule cfg)) c'
       = (steps_left (snd cfg) c - count_occ Nat.eq_dec schedule i)%nat.
Proof.
  unfold run_schedule. revert cfg c.
  induction schedule as [|j rest IH]; intros cfg c Hi; simpl.
  - exists c. split; [exact Hi | lia].
  - destruct (turn_steps_left j cfg i Hi) as (c1 & Hi1 & Hleft1).
    destruct (IH _ _ Hi1) as (c' & Hi' & Hleft').
    exists c'. split; [exact Hi'|].
    rewrite Hleft', Hleft1. destruct (Nat.eq_dec j i); lia.
Qed.

(** C1, scenario B on the code: under every schedule of the two callers the
    stock of the product stays 1, neither caller fails, and a caller that
    has returned has returned an order; under every schedule that gives
    each caller its four turns both calls return an order; under the
    schedule that alternates them, as under the one that runs them one
    after the other, two orders are stored and the stock is still 1. *)
Theorem concurrent_orders_both_succeed :
  (forall schedule,
     let cfg := run_schedule schedule (scenario_B_callers, scenario_B) in
     stock_of (snd cfg) 1 = Some 1
     /\ none_failed (fst cfg) = true
     /\ (forall c, In c (fst cfg) -> has_returned c = true ->
                   succeeded c = true)
     /\ ((4 <= count_occ Nat.eq_dec schedule 0)%nat ->
         (4 <= count_occ Nat.eq_dec schedule 1)%nat ->
         map succeeded (fst cfg) = [true; true]))
  /\ outcome [0; 1; 0; 1; 0; 1; 0; 1]%nat = ([true; true], 2%nat, Some 1)
  /\ outcome [0; 0; 0; 0; 1; 1; 1; 1]%nat = ([true; true], 2%nat, Some 1).
Proof.
  split; [|split; reflexivity].
  intros schedule cfg.
  destruct (run_schedule_safe schedule (scenario_B_callers, scenario_B)
              eq_refl) as [Hinv Hok].
  fold cfg in Hinv, Hok.
  assert (Hsucc : forall c, In c (fst cfg) -> has_returned c = true ->
                            succeeded c = true)
    by (intros c; apply returned_not_failed_succeeded, Hok).
  split; [|split; [exact Hok | split; [exact Hsucc|]]].
  - unfold stock_of, get_inventory_by_product. rewrite Hinv. reflexivity.
  - intros H0 H1.
    pose proof (length_run_schedule schedule (scenario_B_callers, scenario_B))
      as Hlen.
    destruct (run_schedule_steps_left schedule
                (scenario_B_callers, scenario_B) 0 eq_refl)
      as (c0 & Hc0 & Hleft0).
    destruct (run_schedule_steps_left schedule
                (scenario_B_callers, scenario_B) 1 eq_refl)
      as (c1 & Hc1 & Hleft1).
    fold cfg in Hlen, Hc0, Hc1, Hleft0, Hleft1.
    change (steps_left _ (at_get_cart 1 _)) with 4%nat in Hleft0.
    change (steps_left _ (at_get_cart 2 _)) with 4%nat in Hleft1.
    simpl in Hlen.
    destruct (fst cfg) as [|x [|y [|z rest]]]; try discriminate.
    injection Hc0 as ->. injection Hc1 as ->.
    simpl. rewrite !Hsucc; auto.
    + right; left; reflexivity.
    + apply (steps_left_0 (snd cfg)). lia.
    + left; reflexivity.
    + apply (steps_left_0 (snd cfg)). lia.
Qed.

(** * Further properties of the handlers *)

(** ** Rows, once more *)

Lemma find_app_fresh {A} (p : A -> bool) rows r :
  find p rows = None -> find p (rows ++ [r]) = (if p r then Some r else None).
Proof.
  induction rows as [|x rest IH]; simpl; [reflexivity|].
  destruct (p x); [discriminate | exact IH].
Qed.

Lemma find_app_old {A} (p : A -> bool) rows r :
  p r = false -> find p (rows ++ [r]) = find p rows.
Proof.
  intros Hr. induction rows as [|x rest IH]; simpl; [now rewrite Hr|].
  destruct (p x); [reflexivity | exact IH].
Qed.

Lemma find_none_above {A} (id : A -> Z) rows seq k :
  Forall (fun r => id r <= seq) rows -> seq < k ->
  find (fun r => id r =? k) rows = None.
Proof.
  intros Hall Hk. induction Hall as [|x rest Hx Hrest IH]; simpl;
    [reflexivity|].
  destruct (Z.eqb_spec (id x) k); [lia | exact IH].
Qed.

Lemma find_remove_first_other {A} (p q : A -> bool) rows :
  (forall r, p r = true -> q r = false) ->
  find q (remove_first p rows) = find q rows.
Proof.
  intros Hpq. induction rows as [|x rest IH]; simpl; [reflexivity|].
  destruct (p x) eqn:Hp; simpl.
  - now rewrite (Hpq x Hp).
  - now rewrite IH.
Qed.

Lemma find_id_not_in {A} (id : A -> Z) rows k :
  ~ In k (map id rows) -> find (fun r => id r =? k) rows = None.
Proof.
  induction rows as [|x rest IH]; simpl; [reflexivity|].
  intros Hk. destruct (Z.eqb_spec (id x) k); [tauto | apply IH; tauto].
Qed.

Lemma find_remove_first_gone {A} (id : A -> Z) rows k :
  NoDup (map id rows) ->
  find (fun r => id r =? k) (remove_first (fun r => id r =? k) rows) = None.
Proof.
  induction rows as [|x rest IH]; simpl; [reflexivity|].
  intros Hnd. inversion Hnd as [|? ? Hx Hrest]; subst.
  destruct (Z.eqb_spec (id x) k) as [<- | Hne].
  - now apply find_id_not_in.
  - simpl. destruct (Z.eqb_spec (id x) k); [contradiction | auto].
Qed.

Lemma filter_update_first {A} (q p : A -> bool) f rows :
  (forall r, find p rows = Some r -> q r = false /\ q (f r) = false) ->
  filter q (update_first p f rows) = filter q rows.
Proof.
  induction rows as [|x rest IH]; simpl; [reflexivity|].
  intros H. destruct (p x) eqn:Hp.
  - destruct (H x eq_refl) as [Hx Hfx]. simpl. now rewrite Hx, Hfx.
  - simpl. now rewrite IH.
Qed.

Lemma filter_remove_first {A} (q p : A -> bool) rows :
  (forall r, find p rows = Some r -> q r = false) ->
  filter q (remove_first p rows) = filter q rows.
Proof.
  induction rows as [|x rest IH]; simpl; [reflexivity|].
  intros H. destruct (p x) eqn:Hp.
  - now rewrite (H x eq_refl).
  - simpl. now rewrite IH.
Qed.

Lemma in_update_first {A} (p : A -> bool) f rows x :
  In x (update_first p f rows) ->
  In x rows \/ exists r, In r rows /\ p r = true /\ x = f r.
Proof.
  induction rows as [|y rest IH]; simpl; [tauto|].
  destruct (p y) eqn:Hp; simpl.
  - intros [<- | Hin]; [right; exists y; auto | auto].
  - intros [<- | Hin]; [auto|].
    destruct (IH Hin) as [H | (r & Hr & Hpr & ->)]; [auto|].
    right; exists r; auto.
Qed.

Lemma in_remove_first {A} (p : A -> bool) rows x :
  In x (remove_first p rows) -> In x rows.
Proof.
  induction rows as [|y rest IH]; simpl; [tauto|].
  destruct (p y); simpl; [auto | intros [<- | H]; auto].
Qed.

Lemma map_update_first_same {A B} (g : A -> B) p f (rows : list A) :
  (forall r, g (f r) = g r) -> map g (update_first p f rows) = map g rows.
Proof.
  intros Hg. induction rows as [|x rest IH]; simpl; [reflexivity|].
  destruct (p x); simpl; [now rewrite Hg | now rewrite IH].
Qed.

Lemma NoDup_map_remove_first {A B} (g : A -> B) p (rows : list A) :
  NoDup (map g rows) -> NoDup (map g (remove_first p rows)).
Proof.
  induction rows as [|x rest IH]; simpl; [auto|].
  intros Hnd. inversion Hnd as [|? ? Hx Hrest]; subst.
  destruct (p x); [assumption|]. simpl. constructor; [|auto].
  intros Hin. apply Hx. apply in_map_iff in Hin as (r & <- & Hr).
  apply in_map, (in_remove_first _ _ _ Hr).
Qed.

Lemma NoDup_map_app_fresh {A} (id : A -> Z) rows r seq :
  NoDup (map id rows) -> Forall (fun x => id x <= seq) rows -> seq < id r ->
  NoDup (map id (rows ++ [r])).
Proof.
  intros Hnd Hall Hr. rewrite map_app. simpl.
  apply NoDup_app; [exact Hnd | repeat constructor; auto |].
  intros k Hk [<- | []]. apply in_map_iff in Hk as (x & Hx & Hin).
  rewrite Forall_forall in Hall. specialize (Hall x Hin). lia.
Qed.

(** ** Parts of the database a handler leaves alone *)

Lemma keeps_part_ret {T A} (part : DB -> T) (a : A) : keeps part (ret a).
Proof. intros db; reflexivity. Qed.

Lemma keeps_part_raise {T A} (part : DB -> T) e : keeps part (@raise A e).
Proof. intros db; reflexivity. Qed.

Lemma keeps_part_query {T A} (part : DB -> T) (q : DB -> A) :
  keeps part (query q).
Proof. intros db; reflexivity. Qed.

Lemma keeps_part_bind {T A B} (part : DB -> T) (m : M A) (k : A -> M B) :
  keeps part m -> (forall a, keeps part (k a)) -> keeps part (bind m k).
Proof.
  intros Hm Hk db. unfold bind. specialize (Hm db).
  destruct (m db) as [[a|e] db']; simpl in *; [|exact Hm].
  now rewrite Hk.
Qed.

Lemma keeps_part_validated {T A} (part : DB -> T) errors (a : A) :
  keeps part (validated errors a).
Proof. destruct errors; [apply keeps_part_ret | apply keeps_part_raise]. Qed.

Create HintDb parts.
#[local] Hint Resolve keeps_part_ret keeps_part_raise keeps_part_query
  keeps_part_validated : parts.

(** Take a handler apart along its binds and branches; what is left are the
    data-layer functions it calls. *)
Ltac parts :=
  repeat first
    [ progress auto with parts
    | apply keeps_part_bind; [|intros ?]
    | match goal with
      | |- keeps _ (match ?x with _ => _ end) => destruct x
      | |- keeps _ (if ?b then _ else _) => destruct b
      end ].

Lemma keeps_part_check_stock {T} (part : DB -> T) items :
  keeps part (check_stock items).
Proof.
  induction items as [|item rest IH]; simpl; [parts|].
  unfold Product_quantity. parts.
Qed.

Lemma keeps_part_update_quantities {T} (part : DB -> T) items :
  keeps part (update_quantities items).
Proof.
  induction items as [|item rest IH]; simpl; [parts|].
  unfold Product_quantity, Product_set_quantity. parts.
Qed.

#[local] Hint Resolve keeps_part_check_stock keeps_part_update_quantities
  : parts.

(** The order handlers write the orders table only. *)
Lemma order_handlers_write_orders_only {T} (part : DB -> T) :
  (forall rows seq db, part (set_orders rows seq db) = part db) ->
  (forall uid order, keeps part (crud_create_order uid order))
  /\ (forall order u, keeps part (router_create_order order u))
  /\ (forall oid b u, keeps part (router_update_order oid b u))
  /\ (forall oid u, keeps part (router_delete_order oid u))
  /\ (forall oid u, keeps part (router_get_order oid u)).
Proof.
  intros Hpart.
  assert (Hcreate : forall uid order, keeps part (crud_create_order uid order))
    by (intros uid order db;
        destruct (crud_create_order_cases uid order db)
          as [(e & seq & -> & _) | (o & -> & _)]; apply Hpart).
  split; [exact Hcreate|]. repeat split.
  - intros order u.
    unfold router_create_order, call_crud_create_order. parts.
  - intros oid b u. unfold router_update_order. parts.
    intros db. unfold crud_update_order.
    destruct (get_order db oid); [apply Hpart | reflexivity].
  - intros oid u. unfold router_delete_order. parts.
    intros db. unfold crud_delete_order.
    destruct (get_order db oid); [apply Hpart | reflexivity].
  - intros oid u. unfold router_get_order. parts.
Qed.

(** The inventory handlers write the inventory table only. *)
Lemma inventory_handlers_write_inventory_only {T} (part : DB -> T) :
  (forall rows seq db, part (set_inventory rows seq db) = part db) ->
  (forall now b, keeps part (api_create_inventory now b))
  /\ (forall iid b, keeps part (api_update_inventory iid b))
  /\ (forall now iid b, keeps part (api_restock_inventory now iid b))
  /\ (forall iid, keeps part (router_delete_inventory iid)).
Proof.
  intros Hpart. repeat split.
  - intros now b.
    unfold api_create_inventory, parse_InventoryCreate,
      router_create_inventory.
    parts. intros db.
    match goal with |- context [crud_create_inventory now ?inv db] =>
      destruct (crud_create_inventory_cases now inv db)
        as [(e & seq & -> & _) | (_ & _ & _ & _ & _ & ->)]
    end; apply Hpart.
  - intros iid b.
    unfold api_update_inventory, parse_InventoryUpdate,
      router_update_inventory, or_not_found, inventory_not_found.
    parts. intros db.
    destruct (crud_update_inventory_cases iid a db)
      as [(res & ->) | (r & _ & _ & _ & ->)]; [reflexivity | apply Hpart].
  - intros now iid b.
    unfold api_restock_inventory, parse_InventoryRestock,
      router_restock_inventory, or_not_found, inventory_not_found.
    parts. intros db.
    destruct (crud_restock_inventory_cases now iid (quantity_to_add a) db)
      as [(res & ->) | (r & _ & _ & ->)]; [reflexivity | apply Hpart].
  - intros iid.
    unfold router_delete_inventory, or_not_found, inventory_not_found.
    parts. intros db. unfold crud_delete_inventory.
    destruct (get_inventory db iid); [apply Hpart | reflexivity].
Qed.

Lemma keeps_part_get_or_create_cart {T} (part : DB -> T) u :
  (forall rows seq db, part (set_shopping_carts rows seq db) = part db) ->
  keeps part (get_or_create_cart u).
Proof.
  intros Hpart. unfold get_or_create_cart. parts.
  intros db. apply Hpart.
Qed.

Lemma keeps_part_check_inventory {T} (part : DB -> T) pid quantity :
  keeps part (check_inventory pid quantity).
Proof. unfold check_inventory. parts. Qed.

Lemma keeps_part_check_item_owner {T} (part : DB -> T) cart_item u detail :
  keeps part (check_item_owner cart_item u detail).
Proof. unfold check_item_owner. parts. Qed.

#[local] Hint Resolve keeps_part_check_inventory keeps_part_check_item_owner
  : parts.

(** The cart handlers write the cart tables only. *)
Lemma cart_handlers_write_carts_only {T} (part : DB -> T) :
  (forall rows seq db, part (set_shopping_carts rows seq db) = part db) ->
  (forall rows seq db, part (set_shopping_cart_items rows seq db) = part db) ->
  (forall u, keeps part (router_get_cart u))
  /\ (forall b u, keeps part (api_add_item b u))
  /\ (forall iid b u, keeps part (api_update_item iid b u))
  /\ (forall iid u, keeps part (router_remove_item iid u))
  /\ (forall u, keeps part (router_clear_cart u)).
Proof.
  intros Hcarts Hitems.
  pose proof (fun u => keeps_part_get_or_create_cart part u Hcarts) as Hgoc.
  repeat split.
  - exact Hgoc.
  - intros b u.
    unfold api_add_item, parse_ShoppingCartItemCreate, router_add_item.
    parts; try apply Hgoc.
    intros db. unfold crud_add_item_to_cart.
    destruct (find _ (shopping_cart_items db)); apply Hitems.
  - intros iid b u.
    unfold api_update_item, parse_ShoppingCartItemUpdate, router_update_item,
      cart_item_not_found.
    parts. intros db. unfold crud_update_cart_item.
    destruct (get_cart_item db iid); [apply Hitems | reflexivity].
  - intros iid u. unfold router_remove_item, cart_item_not_found.
    parts. intros db. unfold crud_remove_item_from_cart.
    destruct (get_cart_item db iid); [apply Hitems | reflexivity].
  - intros u. unfold router_clear_cart. parts.
    intros db. apply Hitems.
Qed.

(** X1: a request writes the tables of its own group only: an inventory
    request leaves orders, carts and cart items as they are, an order
    request leaves the inventory, the carts and the cart items as they are,
    a cart request leaves the inventory and the orders as they are, and no
    request writes the products. *)
Theorem requests_write_their_own_tables now req db :
  products (serve now req db) = products db
  /\ match tables_of req with
     | InventoryTables =>
         orders_part (serve now req db) = orders_part db
         /\ carts_part (serve now req db) = carts_part db
     | OrderTables =>
         inventory_part (serve now req db) = inventory_part db
         /\ carts_part (serve now req db) = carts_part db
     | CartTables =>
         inventory_part (serve now req db) = inventory_part db
         /\ orders_part (serve now req db) = orders_part db
     end.
Proof.
  pose proof (order_handlers_write_orders_only products (fun _ _ _ => eq_refl))
    as (Po1 & Po2 & Po3 & Po4 & _).
  pose proof (order_handlers_write_orders_only inventory_part
                (fun _ _ _ => eq_refl)) as (Io1 & Io2 & Io3 & Io4 & _).
  pose proof (order_handlers_write_orders_only carts_part
                (fun _ _ _ => eq_refl)) as (Co1 & Co2 & Co3 & Co4 & _).
  pose proof (inventory_handlers_write_inventory_only products
                (fun _ _ _ => eq_refl)) as (Pi1 & Pi2 & Pi3 & Pi4).
  pose proof (inventory_handlers_write_inventory_only orders_part
                (fun _ _ _ => eq_refl)) as (Oi1 & Oi2 & Oi3 & Oi4).
  pose proof (inventory_handlers_write_inventory_only carts_part
                (fun _ _ _ => eq_refl)) as (Ci1 & Ci2 & Ci3 & Ci4).
  pose proof (cart_handlers_write_carts_only products
                (fun _ _ _ => eq_refl) (fun _ _ _ => eq_refl))
    as (Pc1 & Pc2 & Pc3 & Pc4 & Pc5).
  pose proof (cart_handlers_write_carts_only inventory_part
                (fun _ _ _ => eq_refl) (fun _ _ _ => eq_refl))
    as (Ic1 & Ic2 & Ic3 & Ic4 & Ic5).
  pose proof (cart_handlers_write_carts_only orders_part
                (fun _ _ _ => eq_refl) (fun _ _ _ => eq_refl))
    as (Oc1 & Oc2 & Oc3 & Oc4 & Oc5).
  unfold keeps in *. destruct req; simpl; repeat split; auto.
Qed.

(** ** Orders *)

(** X2: the handler behind GET /orders/{order_id} returns an order exactly
    when an order with that id exists and belongs to the caller, and then it
    returns that order; it writes nothing. *)
Theorem get_order_returns_own_orders_only oid u db o db' :
  router_get_order oid u db = (Ok o, db')
  <-> get_order db oid = Some o /\ order_user_id o = user_id u /\ db' = db.
Proof.
  unfold router_get_order, bind, query, raise, ret.
  destruct (get_order db oid) as [order|]; [|split; [|intros [H _]]; discriminate].
  destruct (Z.eqb_spec (order_user_id order) (user_id u)) as [Hown | Hother];
    simpl.
  - split; [intros [= -> ->]; auto | intros ([= ->] & _ & ->); reflexivity].
  - split; [discriminate | intros ([= ->] & Hown & _); contradiction].
Qed.

(** X3: the handler behind GET /orders/ never returns: it calls
    [crud.get_orders] with the keyword [customer_id], which is not one of
    its parameters, so for every request it raises [TypeError] and writes
    nothing, whatever the body of [crud.get_orders] does. *)
Theorem get_orders_always_raises crud_get_orders skip limit order_status u db :
  router_get_orders crud_get_orders skip limit order_status u db
  = (Raise (TypeError
              "get_orders() got an unexpected keyword argument 'customer_id'"),
     db).
Proof. reflexivity. Qed.

(** X4: whatever an order handler is asked by a user, and whether it returns
    or raises, the orders of the other users are afterwards what they were:
    updating and deleting reach the caller's own orders only, and creating
    adds an order of the caller. *)
Theorem order_handlers_keep_other_users_orders u oid b order db :
  orders_of_others u (snd (router_update_order oid b u db))
  = orders_of_others u db
  /\ orders_of_others u (snd (router_delete_order oid u db))
     = orders_of_others u db
  /\ orders_of_others u (snd (router_create_order order u db))
     = orders_of_others u db
  /\ orders_of_others u (snd (crud_create_order (user_id u) order db))
     = orders_of_others u db.
Proof.
  unfold orders_of_others. repeat split.
  - unfold router_update_order, crud_update_order, bind, query, raise.
    destruct (get_order db oid) as [o|] eqn:Ho; [|reflexivity].
    destruct (Z.eqb_spec (order_user_id o) (user_id u)) as [Hown | Hother];
      [|reflexivity].
    cbn [negb].
    destruct (match ou_order_status b with
              | Some s => truthy s && negb (str_in s valid_statuses)
              | None => false
              end); [reflexivity|].
    rewrite Ho. cbn [snd set_orders orders].
    apply filter_update_first. intros r Hr.
    unfold get_order in Ho. rewrite Ho in Hr. injection Hr as <-.
    simpl. rewrite Hown, Z.eqb_refl. auto.
  - unfold router_delete_order, crud_delete_order, bind, query, raise.
    destruct (get_order db oid) as [o|] eqn:Ho; [|reflexivity].
    destruct (Z.eqb_spec (order_user_id o) (user_id u)) as [Hown | Hother];
      [|reflexivity].
    cbn [negb].
    destruct (str_in (order_status o) ["shipped"; "delivered"]);
      [reflexivity|].
    rewrite Ho. cbn [snd set_orders orders].
    apply filter_remove_first. intros r Hr.
    unfold get_order in Ho. rewrite Ho in Hr. injection Hr as <-.
    now rewrite Hown, Z.eqb_refl.
  - destruct (router_create_order_raises order u db) as [e ->]. reflexivity.
  - destruct (crud_create_order_cases (user_id u) order db)
      as [(e & seq & -> & _) | (o & -> & _ & Hu)];
      cbn [snd orders set_orders]; [reflexivity|].
    rewrite filter_app. simpl. rewrite Hu, Z.eqb_refl. simpl.
    apply app_nil_r.
Qed.

(** X5: on the caller's own order, with no status, the empty status or a
    status of the enumeration, the update handler returns the order with
    the address and the status of the request put in (a field the request
    leaves out stays), whatever the status was before; the id, user, cart
    and total of the order stay, the order is what [get_order] finds
    afterwards, and every other id is answered as before. *)
Theorem update_order_changes_only_that_order oid b u db o :
  get_order db oid = Some o ->
  order_user_id o = user_id u ->
  match ou_order_status b with
  | Some s => s = "" \/ str_in s valid_statuses = true
  | None => True
  end ->
  exists o' db',
    router_update_order oid b u db = (Ok (Some o'), db')
    /\ order_status o'
       = match ou_order_status b with Some s => s | None => order_status o end
    /\ order_address o'
       = match ou_address b with Some a => a | None => order_address o end
    /\ order_core o' = order_core o
    /\ get_order db' oid = Some o'
    /\ (forall j, j <> oid -> get_order db' j = get_order db j).
Proof.
  intros Ho Hown Hstatus.
  exists (apply_order_update b o). eexists.
  unfold router_update_order, crud_update_order, bind, query, raise.
  rewrite Ho, Hown, Z.eqb_refl. cbn [negb].
  replace (match ou_order_status b with
           | Some s => truthy s && negb (str_in s valid_statuses)
           | None => false
           end) with false.
  2:{ destruct (ou_order_status b) as [s|]; [|reflexivity].
      destruct Hstatus as [-> | ->]; [reflexivity|].
      cbn [negb]. now rewrite andb_false_r. }
  rewrite Ho. split; [reflexivity|]. repeat split.
  - unfold get_order. cbn [orders set_orders].
    apply find_update_first; [exact Ho|].
    apply find_some in Ho. exact (proj2 Ho).
  - intros j Hj. unfold get_order. cbn [orders set_orders].
    apply find_update_first_other; [reflexivity|].
    intros x Hx. apply Z.eqb_eq in Hx. apply Z.eqb_neq. lia.
Qed.

Lemma update_order_changes_only_that_order_witness :
  exists o' db',
    router_update_order 3 (mkOrderUpdate None (Some "pending")) (mkUser 1)
                        scenario_orders
    = (Ok (Some o'), db')
    /\ order_status o' = "pending"
    /\ order_address o' = "Addr"
    /\ get_order db' 3 = Some o'
    /\ get_order db' 2 = get_order scenario_orders 2.
Proof.
  destruct (update_order_changes_only_that_order
              3 (mkOrderUpdate None (Some "pending")) (mkUser 1)
              scenario_orders
              (o := mkOrder 3 1 None "Addr" "delivered" (Some 1000))
              eq_refl eq_refl (or_intror eq_refl))
    as (o' & db' & Hrun & Hstatus & Haddress & _ & Hget & Hothers).
  exists o', db'. repeat split; try assumption.
  apply Hothers. lia.
Defined.

(** X6: when the ids of the orders are distinct, deleting one's own order
    that is neither shipped nor delivered returns it and removes it:
    [get_order] no longer finds it, every other id is answered as before,
    and the ids stay distinct. *)
Theorem delete_order_removes_the_order oid u db o :
  orders_keyed db ->
  get_order db oid = Some o ->
  order_user_id o = user_id u ->
  str_in (order_status o) ["shipped"; "delivered"] = false ->
  exists db',
    router_delete_order oid u db = (Ok (Some o), db')
    /\ get_order db' oid = None
    /\ (forall j, j <> oid -> get_order db' j = get_order db j)
    /\ orders_keyed db'.
Proof.
  intros [Hnd Hseq] Ho Hown Hstatus. eexists.
  unfold router_delete_order, crud_delete_order, bind, query, raise.
  rewrite Ho, Hown, Z.eqb_refl, Hstatus. cbn [negb]. rewrite Ho.
  split; [reflexivity|]. repeat split.
  - unfold get_order. cbn [orders set_orders].
    now apply find_remove_first_gone.
  - intros j Hj. unfold get_order. cbn [orders set_orders].
    apply find_remove_first_other.
    intros x Hx. apply Z.eqb_eq in Hx. apply Z.eqb_neq. lia.
  - cbn [orders set_orders]. now apply NoDup_map_remove_first.
  - cbn [orders set_orders orders_id_seq]. now apply Forall_remove_first.
Qed.

Lemma scenario_orders_keyed : orders_keyed scenario_orders.
Proof.
  split; simpl.
  - repeat constructor; simpl; intuition lia.
  - repeat constructor; simpl; lia.
Defined.

Lemma delete_order_removes_the_order_witness :
  exists db',
    router_delete_order 1 (mkUser 1) scenario_orders
    = (Ok (Some (mkOrder 1 1 (Some 1) "Addr" "pending" (Some 2000))), db')
    /\ get_order db' 1 = None
    /\ (forall j, j <> 1 -> get_order db' j = get_order scenario_orders j)
    /\ orders_keyed db'.
Proof.
  exact (delete_order_removes_the_order 1 (mkUser 1)
           scenario_orders_keyed eq_refl eq_refl eq_refl).
Defined.

(** One request keeps the order ids distinct and behind the sequence, the
    sequence never goes back, and an order that is new has its id from
    beyond where the sequence was. *)
Lemma serve_orders_keyed now req db :
  orders_keyed db ->
  orders_keyed (serve now req db)
  /\ orders_id_seq db <= orders_id_seq (serve now req db)
  /\ (forall o, In o (orders (serve now req db)) ->
        In (order_id o) (map order_id (orders db))
        \/ orders_id_seq db < order_id o).
Proof.
  intros Hk.
  pose proof (requests_write_their_own_tables now req db) as [_ Hparts].
  assert (Hsame : orders_part (serve now req db) = orders_part db ->
                  orders_keyed (serve now req db)
                  /\ orders_id_seq db <= orders_id_seq (serve now req db)
                  /\ (forall o, In o (orders (serve now req db)) ->
                        In (order_id o) (map order_id (orders db))
                        \/ orders_id_seq db < order_id o)).
  { unfold orders_part, orders_keyed. intros [= Ho Hs].
    rewrite Ho, Hs. split; [exact Hk | split; [lia|]].
    intros o Hin. left. now apply in_map. }
  assert (Hnone : orders_keyed db
                  /\ orders_id_seq db <= orders_id_seq db
                  /\ (forall o, In o (orders db) ->
                        In (order_id o) (map order_id (orders db))
                        \/ orders_id_seq db < order_id o)).
  { split; [exact Hk | split; [lia|]]. intros o Hin. left. now apply in_map. }
  destruct Hk as [Hnd Hseq].
  destruct req; simpl in Hparts; try (apply Hsame; tauto); simpl.
  - destruct (router_create_order_raises b current_user db) as [e ->].
    exact Hnone.
  - unfold router_update_order, crud_update_order, bind, query, raise.
    destruct (get_order db oid) as [o|] eqn:Ho; [|exact Hnone].
    destruct (negb (order_user_id o =? user_id current_user));
      [exact Hnone|].
    destruct (match ou_order_status b with
              | Some s => truthy s && negb (str_in s valid_statuses)
              | None => false
              end); [exact Hnone|].
    rewrite Ho. unfold orders_keyed, keyed. cbn [snd orders set_orders
                                                  orders_id_seq].
    split; [split | split; [lia|]].
    + now rewrite map_update_first_same.
    + now apply Forall_update_first.
    + intros x Hx. left. apply in_update_first in Hx.
      destruct Hx as [Hx | (r & Hr & _ & ->)]; [now apply in_map|].
      change (order_id (apply_order_update b r)) with (order_id r).
      now apply in_map.
  - unfold router_delete_order, crud_delete_order, bind, query, raise.
    destruct (get_order db oid) as [o|] eqn:Ho; [|exact Hnone].
    destruct (negb (order_user_id o =? user_id current_user));
      [exact Hnone|].
    destruct (str_in (order_status o) ["shipped"; "delivered"]);
      [exact Hnone|].
    rewrite Ho. unfold orders_keyed, keyed. cbn [snd orders set_orders
                                                  orders_id_seq].
    split; [split | split; [lia|]].
    + now apply NoDup_map_remove_first.
    + now apply Forall_remove_first.
    + intros x Hx. left. apply in_map. now apply in_remove_first in Hx.
  - destruct (crud_create_order_cases uid order db)
      as [(e & seq & -> & Hle) | (o & -> & Hid & _)];
      unfold orders_keyed, keyed; cbn [snd orders set_orders orders_id_seq].
    + split; [split; [exact Hnd|] | split; [lia|]].
      * eapply Forall_impl; [|exact Hseq]. simpl. intros; lia.
      * intros x Hx. left. now apply in_map.
    + split; [split | split; [lia|]].
      * apply NoDup_map_app_fresh with (seq := orders_id_seq db); auto. lia.
      * apply Forall_app. split.
        -- eapply Forall_impl; [|exact Hseq]. simpl. intros; lia.
        -- repeat constructor. lia.
      * intros x Hx. apply in_app_or in Hx.
        destruct Hx as [Hx | [<- | []]]; [left; now apply in_map | right; lia].
Qed.

Lemma serve_all_app h1 h2 db :
  serve_all (h1 ++ h2) db = serve_all h2 (serve_all h1 db).
Proof.
  revert db; induction h1 as [|[now req] rest IH]; intros db; simpl; auto.
Qed.

Lemma serve_all_orders_keyed history db :
  orders_keyed db ->
  orders_keyed (serve_all history db)
  /\ orders_id_seq db <= orders_id_seq (serve_all history db)
  /\ (forall o, In o (orders (serve_all history db)) ->
        In (order_id o) (map order_id (orders db))
        \/ orders_id_seq db < order_id o).
Proof.
  revert db; induction history as [|[now req] rest IH]; intros db Hk; simpl.
  - split; [exact Hk | split; [lia|]]. intros o Hin. left. now apply in_map.
  - destruct (serve_orders_keyed now req Hk) as (Hk1 & Hseq1 & Hnew1).
    destruct (IH _ Hk1) as (Hk' & Hseq' & Hnew').
    split; [exact Hk' | split; [lia|]].
    intros o Hin. destruct (Hnew' o Hin) as [Hold | Hbeyond]; [|right; lia].
    apply in_map_iff in Hold as (o1 & Hid & Hin1). rewrite <- Hid.
    now apply Hnew1.
Qed.

(** X9: starting from orders with distinct ids, none ahead of the id
    sequence, every history of requests leaves the orders with distinct ids,
    none ahead of the sequence, and the sequence never goes back.  An id is
    handed out once, also after the order that had it is deleted: an order
    that is in the table at the end under an id the sequence had reached at
    some point of the history was in the table, under that id, at that
    point. *)
Theorem orders_stay_keyed history db :
  orders_keyed db ->
  orders_keyed (serve_all history db)
  /\ orders_id_seq db <= orders_id_seq (serve_all history db)
  /\ (forall h1 h2 o,
        history = (h1 ++ h2)%list ->
        In o (orders (serve_all history db)) ->
        order_id o <= orders_id_seq (serve_all h1 db) ->
        In (order_id o) (map order_id (orders (serve_all h1 db)))).
Proof.
  intros Hk.
  destruct (serve_all_orders_keyed history Hk) as (Hk' & Hseq' & _).
  split; [exact Hk' | split; [exact Hseq'|]].
  intros h1 h2 o -> Hin Hid. rewrite serve_all_app in Hin.
  destruct (serve_all_orders_keyed h1 Hk) as (Hk1 & _ & _).
  destruct (serve_all_orders_keyed h2 Hk1) as (_ & _ & Hnew).
  destruct (Hnew o Hin) as [Hold | Hbeyond]; [exact Hold | lia].
Qed.

Lemma orders_stay_keyed_witness :
  let h1 :=
    [(1, CALL_crud_create_order 1 (mkOrderCreate 1 "Addr"));
     (2, DELETE_orders 4 (mkUser 1))] in
  let h2 :=
    [(3, CALL_crud_create_order 2 (mkOrderCreate 9 "Addr"));
     (4, CALL_crud_create_order 2 (mkOrderCreate 2 "Addr"));
     (5, PUT_orders 2 (mkUser 2) (mkOrderUpdate None (Some "cancelled")))] in
  let db' := serve_all (h1 ++ h2) scenario_orders in
  orders_keyed db'
  /\ orders_id_seq scenario_orders <= orders_id_seq db'
  /\ (forall o, In o (orders db') ->
        order_id o <= orders_id_seq (serve_all h1 scenario_orders) ->
        In (order_id o)
           (map order_id (orders (serve_all h1 scenario_orders))))
  /\ orders_id_seq (serve_all h1 scenario_orders) = 4
  /\ map order_id (orders (serve_all h1 scenario_orders)) = [1; 2; 3]
  /\ map order_id (orders db') = [1; 2; 3; 6].
Proof.
  intros h1 h2 db'.
  pose proof (@orders_stay_keyed (h1 ++ h2) scenario_orders
                scenario_orders_keyed) as (Hk & Hseq & Honce).
  split; [exact Hk | split; [exact Hseq | split]].
  - intros o. exact (Honce h1 h2 o eq_refl).
  - repeat split.
Defined.

(** X10: when no order id is ahead of the id sequence, the order that the
    data-layer [create_order] returns has an id no order had, it is what
    [get_order] finds under that id afterwards, and every other id is
    answered as before. *)
Theorem created_order_can_be_fetched uid order db o db' :
  orders_keyed db ->
  crud_create_order uid order db = (Ok o, db') ->
  get_order db (order_id o) = None
  /\ get_order db' (order_id o) = Some o
  /\ (forall j, j <> order_id o -> get_order db' j = get_order db j).
Proof.
  intros [_ Hseq] Hrun.
  destruct (crud_create_order_cases uid order db)
    as [(e & seq & H & _) | (o0 & H & Hid & _)];
    rewrite H in Hrun; [discriminate|].
  injection Hrun as <- <-. rewrite Hid.
  assert (Hfresh : get_order db (orders_id_seq db + 1) = None)
    by (apply find_none_above with (seq := orders_id_seq db); [auto | lia]).
  split; [exact Hfresh|]. split.
  - unfold get_order. cbn [orders set_orders].
    rewrite find_app_fresh by exact Hfresh. now rewrite Hid, Z.eqb_refl.
  - intros j Hj. unfold get_order. cbn [orders set_orders].
    apply find_app_old. apply Z.eqb_neq. lia.
Qed.

Lemma created_order_can_be_fetched_witness :
  crud_create_order 2 (mkOrderCreate 2 "Addr") scenario_orders
  = (Ok (mkOrder 4 2 (Some 2) "Addr" "pending" (Some Decimal.zero)),
     snd (crud_create_order 2 (mkOrderCreate 2 "Addr") scenario_orders))
  /\ get_order scenario_orders 4 = None
  /\ get_order (snd (crud_create_order 2 (mkOrderCreate 2 "Addr")
                                       scenario_orders)) 4
     = Some (mkOrder 4 2 (Some 2) "Addr" "pending" (Some Decimal.zero))
  /\ (forall j, j <> 4 ->
        get_order (snd (crud_create_order 2 (mkOrderCreate 2 "Addr")
                                          scenario_orders)) j
        = get_order scenario_orders j).
Proof.
  split; [reflexivity|].
  exact (created_order_can_be_fetched 2 (mkOrderCreate 2 "Addr")
           scenario_orders_keyed eq_refl).
Defined.

Lemma NoDup_map_same {A B} (g : A -> B) rows :
  NoDup (map g rows) ->
  forall a b, In a rows -> In b rows -> g a = g b -> a = b.
Proof.
  induction rows as [|x rest IH]; simpl; [tauto|].
  intros Hnd. inversion Hnd as [|? ? Hx Hrest]; subst.
  intros a b [-> | Ha] [-> | Hb] Hid; auto.
  - exfalso. apply Hx. rewrite Hid. now apply in_map.
  - exfalso. apply Hx. rewrite <- Hid. now apply in_map.
Qed.

Lemma keyed_same_id {A} (id : A -> Z) rows seq a b :
  keyed id rows seq -> In a rows -> In b rows -> id a = id b -> a = b.
Proof. intros [Hnd _]. now apply NoDup_map_same. Qed.

(** An order found after a request under an id the sequence had already
    passed is an order that was there, with the user, cart and total it
    had. *)
Lemma serve_keeps_order_core now req db o' :
  In o' (orders (serve now req db)) ->
  order_id o' <= orders_id_seq db ->
  exists o, In o (orders db) /\ order_core o = order_core o'.
Proof.
  pose proof (requests_write_their_own_tables now req db) as [_ Hparts].
  assert (Hsame : orders_part (serve now req db) = orders_part db ->
                  In o' (orders (serve now req db)) ->
                  exists o, In o (orders db) /\ order_core o = order_core o').
  { unfold orders_part. intros [= Ho _] Hin. rewrite Ho in Hin. eauto. }
  destruct req; simpl in Hparts; try (intros Hin _; apply Hsame; tauto);
    simpl.
  - destruct (router_create_order_raises b current_user db) as [e ->].
    simpl. eauto.
  - unfold router_update_order, crud_update_order, bind, query, raise.
    destruct (get_order db oid) as [o|] eqn:Ho; [|simpl; eauto].
    destruct (negb (order_user_id o =? user_id current_user));
      [simpl; eauto|].
    destruct (match ou_order_status b with
              | Some s => truthy s && negb (str_in s valid_statuses)
              | None => false
              end); [simpl; eauto|].
    rewrite Ho. cbn [snd orders set_orders]. intros Hin _.
    apply in_update_first in Hin as [Hin | (r & Hr & _ & ->)]; eauto.
  - unfold router_delete_order, crud_delete_order, bind, query, raise.
    destruct (get_order db oid) as [o|] eqn:Ho; [|simpl; eauto].
    destruct (negb (order_user_id o =? user_id current_user));
      [simpl; eauto|].
    destruct (str_in (order_status o) ["shipped"; "delivered"]);
      [simpl; eauto|].
    rewrite Ho. cbn [snd orders set_orders]. intros Hin _.
    apply in_remove_first in Hin. eauto.
  - destruct (crud_create_order_cases uid order db)
      as [(e & seq & -> & _) | (o & -> & Hnew & _)];
      cbn [snd orders set_orders]; [eauto|].
    intros Hin Hid. apply in_app_or in Hin as [Hin | [<- | []]]; [eauto|].
    lia.
Qed.

Lemma serve_all_keeps_order_core history db o' :
  orders_keyed db ->
  In o' (orders (serve_all history db)) ->
  order_id o' <= orders_id_seq db ->
  exists o, In o (orders db) /\ order_core o = order_core o'.
Proof.
  revert db; induction history as [|[now req] rest IH]; intros db Hk Hin Hid;
    simpl in Hin; [eauto|].
  destruct (serve_orders_keyed now req Hk) as (Hk1 & Hmono & _).
  destruct (IH _ Hk1 Hin ltac:(lia)) as (o1 & Hin1 & Hcore1).
  destruct (serve_keeps_order_core now req db o1 Hin1) as (o & Ho & Hcore).
  - assert (order_id o1 = order_id o') by (unfold order_core in Hcore1; congruence).
    lia.
  - exists o. split; [exact Ho | congruence].
Qed.

(** X11: an order keeps its user, its cart and its total for as long as it
    exists: after any history of requests, an order found under the id of
    an order of the starting database has that order's user, cart and
    total.  Only the address and the status of an order are ever
    rewritten. *)
Theorem orders_keep_their_total history db o o' :
  orders_keyed db ->
  In o (orders db) ->
  In o' (orders (serve_all history db)) ->
  order_id o' = order_id o ->
  order_user_id o' = order_user_id o
  /\ order_cart_id o' = order_cart_id o
  /\ total_amount o' = total_amount o.
Proof.
  intros Hk Ho Ho' Hid.
  assert (Hle : order_id o' <= orders_id_seq db).
  { destruct Hk as [_ Hseq]. rewrite Forall_forall in Hseq.
    rewrite Hid. now apply Hseq. }
  destruct (@serve_all_keeps_order_core history db o' Hk Ho' Hle)
    as (o2 & Ho2 & Hcore).
  assert (o2 = o).
  { apply (@keyed_same_id _ order_id (orders db) (orders_id_seq db) o2 o Hk
             Ho2 Ho).
    unfold order_core in Hcore. congruence. }
  subst o2. unfold order_core in Hcore.
  injection Hcore as _ Huser Hcart Htotal. auto.
Qed.

Lemma orders_keep_their_total_witness :
  In (mkOrder 1 1 (Some 1) "New St" "cancelled" (Some 2000))
     (orders
        (serve_all
           [(1, PUT_orders 1 (mkUser 1)
                  (mkOrderUpdate (Some "New St") (Some "cancelled")));
            (2, CALL_crud_create_order 1 (mkOrderCreate 1 "Addr"))]
           scenario_orders))
  /\ order_user_id (mkOrder 1 1 (Some 1) "New St" "cancelled" (Some 2000)) = 1
  /\ order_cart_id (mkOrder 1 1 (Some 1) "New St" "cancelled" (Some 2000))
     = Some 1
  /\ total_amount (mkOrder 1 1 (Some 1) "New St" "cancelled" (Some 2000))
     = Some 2000.
Proof.
  split; [left; reflexivity|].
  exact (@orders_keep_their_total
           [(1, PUT_orders 1 (mkUser 1)
                  (mkOrderUpdate (Some "New St") (Some "cancelled")));
            (2, CALL_crud_create_order 1 (mkOrderCreate 1 "Addr"))]
           scenario_orders
           (mkOrder 1 1 (Some 1) "Addr" "pending" (Some 2000))
           (mkOrder 1 1 (Some 1) "New St" "cancelled" (Some 2000))
           scenario_orders_keyed
           (or_introl eq_refl) (or_introl eq_refl) eq_refl).
Defined.

(** ** Inventory *)

Lemma find_none_not_in {A} (id : A -> Z) rows k :
  find (fun r => id r =? k) rows = None -> ~ In k (map id rows).
Proof.
  induction rows as [|x rest IH]; simpl; [tauto|].
  destruct (Z.eqb_spec (id x) k); [discriminate|].
  intros H [Hx | Hin]; [contradiction | now apply IH].
Qed.

Lemma NoDup_map_app_new {A} (id : A -> Z) rows r :
  NoDup (map id rows) -> ~ In (id r) (map id rows) ->
  NoDup (map id (rows ++ [r])).
Proof.
  intros Hnd Hr. rewrite map_app. simpl.
  apply NoDup_app; [exact Hnd | repeat constructor; auto |].
  intros k Hk [<- | []]. contradiction.
Qed.

Lemma update_first_twice {A} (p : A -> bool) f g rows :
  (forall r, p (g r) = p r) ->
  update_first p f (update_first p g rows)
  = update_first p (fun r => f (g r)) rows.
Proof.
  intros Hg. induction rows as [|x rest IH]; simpl; [reflexivity|].
  destruct (p x) eqn:Hp; simpl.
  - now rewrite Hg, Hp.
  - now rewrite Hp, IH.
Qed.

Lemma update_first_ext {A} (p : A -> bool) f g rows :
  (forall r, f r = g r) -> update_first p f rows = update_first p g rows.
Proof.
  intros Hfg. induction rows as [|x rest IH]; simpl; [reflexivity|].
  destruct (p x); [now rewrite Hfg | now rewrite IH].
Qed.

(** The inventory handlers on a table that is keyed. *)
Lemma serve_inventory_keyed now req db :
  inventory_keyed db -> inventory_keyed (serve now req db).
Proof.
  intros Hk.
  pose proof (requests_write_their_own_tables now req db) as [_ Hparts].
  assert (Hsame : inventory_part (serve now req db) = inventory_part db ->
                  inventory_keyed (serve now req db)).
  { unfold inventory_part, inventory_keyed. intros [= Hi Hs].
    now rewrite Hi, Hs. }
  destruct req; simpl in Hparts; try (apply Hsame; tauto); simpl;
    destruct Hk as [[Hnd Hseq] Hprod].
  - unfold api_create_inventory, parse_InventoryCreate, bind.
    match goal with |- context [validated ?errs ?a db] =>
      destruct (validated_cases errs a db) as [[_ ->] | [_ ->]];
        [|repeat split; assumption]
    end.
    unfold router_create_inventory, bind, query, raise.
    cbn [ic_product_id].
    destruct (get_product db (bic_product_id b));
      [|repeat split; assumption].
    destruct (get_inventory_by_product db (bic_product_id b)) eqn:Hnone;
      [repeat split; assumption|].
    match goal with |- context [crud_create_inventory now ?inv db] =>
      destruct (crud_create_inventory_cases now inv db)
        as [(e & seq & -> & Hle) | (_ & _ & _ & _ & _ & ->)]
    end; unfold inventory_keyed, keyed;
      cbn [snd inventory set_inventory inventory_id_seq].
    + repeat split; [exact Hnd | | exact Hprod].
      eapply Forall_impl; [|exact Hseq]. simpl. intros; lia.
    + repeat split.
      * apply NoDup_map_app_fresh with (seq := inventory_id_seq db); auto.
        simpl. lia.
      * apply Forall_app. split.
        -- eapply Forall_impl; [|exact Hseq]. simpl. intros; lia.
        -- repeat constructor. simpl. lia.
      * apply NoDup_map_app_new; [exact Hprod|]. simpl.
        now apply find_none_not_in.
  - unfold api_update_inventory, parse_InventoryUpdate, bind.
    match goal with |- context [validated ?errs ?a db] =>
      destruct (validated_cases errs a db) as [[_ ->] | [_ ->]];
        [|repeat split; assumption]
    end.
    unfold router_update_inventory, bind.
    destruct (crud_update_inventory_cases iid b db)
      as [(res & ->) | (r & _ & _ & _ & ->)].
    { destruct res as [[inv|]|e]; repeat split; assumption. }
    unfold inventory_keyed, keyed.
    cbn [snd or_not_found ret inventory set_inventory inventory_id_seq].
    repeat split.
    + now rewrite map_update_first_same.
    + now apply Forall_update_first.
    + now rewrite map_update_first_same.
  - unfold api_restock_inventory, parse_InventoryRestock, bind.
    match goal with |- context [validated ?errs ?a db] =>
      destruct (validated_cases errs a db) as [[_ ->] | [_ ->]];
        [|repeat split; assumption]
    end.
    unfold router_restock_inventory, bind.
    destruct (crud_restock_inventory_cases now iid (quantity_to_add b) db)
      as [(res & ->) | (r & _ & _ & ->)].
    { destruct res as [[inv|]|e]; repeat split; assumption. }
    unfold inventory_keyed, keyed.
    cbn [snd or_not_found ret inventory set_inventory inventory_id_seq].
    repeat split.
    + now rewrite map_update_first_same.
    + now apply Forall_update_first.
    + now rewrite map_update_first_same.
  - unfold router_delete_inventory, crud_delete_inventory, bind,
      or_not_found, inventory_not_found, ret, raise.
    destruct (get_inventory db iid); [|repeat split; assumption].
    unfold inventory_keyed, keyed.
    cbn [snd inventory set_inventory inventory_id_seq].
    repeat split.
    + now apply NoDup_map_remove_first.
    + now apply Forall_remove_first.
    + now apply NoDup_map_remove_first.
Qed.

(** X12: starting from an inventory table with distinct ids, none ahead of
    the sequence, and at most one row per product, every history of requests
    leaves it so: the create handler refuses a second row for a product, and
    no handler moves a row to another product. *)
Theorem inventory_stays_keyed history db :
  inventory_keyed db -> inventory_keyed (serve_all history db).
Proof.
  revert db; induction history as [|[now req] rest IH]; intros db Hk; simpl.
  - exact Hk.
  - apply IH. now apply serve_inventory_keyed.
Qed.

Lemma scenario_stock_keyed : inventory_keyed scenario_stock.
Proof.
  repeat split; simpl; repeat constructor; simpl; intuition lia.
Defined.

Lemma inventory_stays_keyed_witness :
  inventory_keyed
    (serve_all
       [(1, POST_inventory (mkBodyInventoryCreate 2 (Some 4) None));
        (2, POST_inventory (mkBodyInventoryCreate 2 (Some 7) None));
        (3, DELETE_inventory 1);
        (4, POST_inventory (mkBodyInventoryCreate 1 None None))]
       scenario_stock).
Proof.
  exact (inventory_stays_keyed _ scenario_stock_keyed).
Defined.

(** X13: when the create endpoint of the inventory returns a row, the body
    named a product that exists and had no inventory row; the row carries
    the product, the quantity and the reorder level of the body (0 and 10
    when left out), both at least 0, and a restock time exactly when the
    quantity is above 0; on a keyed table the row has a new id and is what
    both lookups, by id and by product, find afterwards. *)
Theorem created_inventory_can_be_fetched now b db inv db' :
  inventory_keyed db ->
  api_create_inventory now b db = (Ok inv, db') ->
  get_product db (bic_product_id b) <> None
  /\ get_inventory_by_product db (bic_product_id b) = None
  /\ inventory_product_id inv = bic_product_id b
  /\ quantity_in_stock inv
     = match bic_quantity_in_stock b with Some q => q | None => 0 end
  /\ reorder_level inv
     = match bic_reorder_level b with Some l => l | None => 10 end
  /\ 0 <= quantity_in_stock inv
  /\ 0 <= reorder_level inv
  /\ last_restocked_at inv
     = (if 0 <? quantity_in_stock inv then Some now else None)
  /\ get_inventory db (inventory_id inv) = None
  /\ get_inventory db' (inventory_id inv) = Some inv
  /\ get_inventory_by_product db' (bic_product_id b) = Some inv.
Proof.
  intros [[_ Hseq] _].
  unfold api_create_inventory, parse_InventoryCreate, bind.
  match goal with |- context [validated ?errs ?a db] =>
    destruct (validated_cases errs a db) as [[Hnil ->] | [_ ->]];
      [|discriminate]
  end.
  apply app_eq_nil in Hnil as [Hqty Hlevel].
  unfold router_create_inventory, bind, query, raise.
  cbn [ic_product_id].
  destruct (get_product db (bic_product_id b)) as [product|]; [|discriminate].
  destruct (get_inventory_by_product db (bic_product_id b)) eqn:Hnone;
    [discriminate|].
  match goal with |- context [crud_create_inventory now ?i db] =>
    destruct (crud_create_inventory_cases now i db)
      as [(e & seq & -> & _) | (_ & _ & _ & _ & _ & ->)]
  end; [discriminate|].
  cbn [ic_product_id ic_quantity_in_stock ic_reorder_level].
  intros [= <- <-]. cbn [inventory_product_id quantity_in_stock reorder_level
                          last_restocked_at inventory_id].
  assert (Hfresh : get_inventory db (inventory_id_seq db + 1) = None)
    by (apply find_none_above with (seq := inventory_id_seq db); [auto | lia]).
  split; [discriminate|]. split; [reflexivity|]. split; [reflexivity|].
  split; [reflexivity|]. split; [reflexivity|].
  split; [destruct (bic_quantity_in_stock b); simpl in *;
          [now apply check_ge_nil in Hqty | lia]|].
  split; [destruct (bic_reorder_level b); simpl in *;
          [now apply check_ge_nil in Hlevel | lia]|].
  split; [now rewrite Z.gtb_ltb|].
  split; [exact Hfresh|]. split.
  - unfold get_inventory. cbn [inventory set_inventory].
    rewrite find_app_fresh by exact Hfresh. simpl. now rewrite Z.eqb_refl.
  - unfold get_inventory_by_product in *. cbn [inventory set_inventory].
    rewrite find_app_fresh by exact Hnone. simpl. now rewrite Z.eqb_refl.
Qed.

Lemma created_inventory_can_be_fetched_witness :
  get_product scenario_stock 2 <> None
  /\ get_inventory_by_product scenario_stock 2 = None
  /\ get_inventory
       (snd (api_create_inventory
               50 (mkBodyInventoryCreate 2 (Some 4) None) scenario_stock)) 2
     = Some (mkInventory 2 2 4 10 (Some 50))
  /\ get_inventory_by_product
       (snd (api_create_inventory
               50 (mkBodyInventoryCreate 2 (Some 4) None) scenario_stock)) 2
     = Some (mkInventory 2 2 4 10 (Some 50)).
Proof.
  destruct (@created_inventory_can_be_fetched
              50 (mkBodyInventoryCreate 2 (Some 4) None) scenario_stock
              (mkInventory 2 2 4 10 (Some 50)) _
              scenario_stock_keyed eq_refl)
    as (Hp & Hnone & _ & _ & _ & _ & _ & _ & _ & Hid & Hprod).
  repeat split; assumption.
Defined.

(** X14: the create endpoint of the inventory returns a row exactly when
    the quantity and the reorder level of the body are at least 0 and fit
    their [Integer] columns (or are left out), the product id fits its
    column, the product exists and the product has no inventory row yet; in
    every other case it raises and writes nothing. *)
Theorem create_inventory_succeeds_exactly_when now b db :
  let accepted :=
    match bic_quantity_in_stock b with
    | Some q => 0 <= q <= INT_MAX | None => True end
    /\ match bic_reorder_level b with
       | Some l => 0 <= l <= INT_MAX | None => True end
    /\ fits_Integer (bic_product_id b) = true
    /\ get_product db (bic_product_id b) <> None
    /\ get_inventory_by_product db (bic_product_id b) = None in
  (accepted -> exists inv db', api_create_inventory now b db = (Ok inv, db'))
  /\ (~ accepted -> exists e, api_create_inventory now b db = (Raise e, db)).
Proof.
  intros accepted. subst accepted.
  unfold api_create_inventory, parse_InventoryCreate, bind.
  match goal with |- context [validated ?errs ?a db] =>
    destruct (validated_cases errs a db) as [[Hnil ->] | [Herr ->]]
  end.
  - apply app_eq_nil in Hnil as [Hqty Hlevel].
    assert (Hq : match bic_quantity_in_stock b with
                 | Some q => 0 <= q | None => True end)
      by (destruct (bic_quantity_in_stock b); simpl in *;
          [now apply check_ge_nil in Hqty | exact I]).
    assert (Hl : match bic_reorder_level b with
                 | Some l => 0 <= l | None => True end)
      by (destruct (bic_reorder_level b); simpl in *;
          [now apply check_ge_nil in Hlevel | exact I]).
    unfold router_create_inventory, bind, query, raise.
    cbn [ic_product_id].
    destruct (get_product db (bic_product_id b)) as [product|] eqn:Hp.
    2:{ split; [intros (_ & _ & _ & H & _); congruence|].
        intros _. eexists; reflexivity. }
    destruct (get_inventory_by_product db (bic_product_id b)) as [inv|]
      eqn:Hrow.
    1:{ split; [intros (_ & _ & _ & _ & H); discriminate|].
        intros _. eexists; reflexivity. }
    unfold crud_create_inventory.
    cbn [ic_product_id ic_quantity_in_stock ic_reorder_level].
    assert (Hprod : existsb (fun p => product_id p =? bic_product_id b)
                            (products db) = true)
      by (apply existsb_find_some; unfold get_product in Hp; congruence).
    assert (Hnone : existsb (fun r => inventory_product_id r
                                      =? bic_product_id b)
                            (inventory db) = false)
      by now apply existsb_find_none.
    rewrite Hprod, Hnone. cbn [negb orb].
    destruct (fits_Integer (bic_product_id b)) eqn:Hfp; cbn [andb negb].
    2:{ split; [intros (_ & _ & H & _); discriminate|].
        intros _. eexists; reflexivity. }
    destruct (fits_Integer match bic_quantity_in_stock b with
                           | Some q => q | None => 0 end) eqn:Hfq;
      cbn [andb negb].
    2:{ split; [|intros _; eexists; reflexivity].
        intros (H & _). exfalso.
        apply not_true_iff_false in Hfq. apply Hfq, fits_Integer_iff.
        unfold INT_MIN, INT_MAX in *.
        destruct (bic_quantity_in_stock b); lia. }
    destruct (fits_Integer match bic_reorder_level b with
                           | Some l => l | None => 10 end) eqn:Hfl;
      cbn [andb negb].
    2:{ split; [|intros _; eexists; reflexivity].
        intros (_ & H & _). exfalso.
        apply not_true_iff_false in Hfl. apply Hfl, fits_Integer_iff.
        unfold INT_MIN, INT_MAX in *.
        destruct (bic_reorder_level b); lia. }
    split; [intros _; do 2 eexists; reflexivity|].
    intros H. exfalso. apply H.
    apply fits_Integer_iff in Hfq, Hfl.
    split; [destruct (bic_quantity_in_stock b); [lia | exact I]|].
    split; [destruct (bic_reorder_level b); [lia | exact I]|].
    repeat split; auto. discriminate.
  - split; [|intros _; eexists; reflexivity].
    intros (Hq & Hl & _). exfalso. apply Herr.
    destruct (bic_quantity_in_stock b) as [q|],
             (bic_reorder_level b) as [l|]; simpl; unfold check_ge;
      repeat match goal with
             | |- context [0 <=? ?x] => destruct (Z.leb_spec 0 x); [|lia]
             end; reflexivity.
Qed.

(** X15: on an existing row, with the values of the body at least 0 and
    within their [Integer] columns, the update endpoint of the inventory
    returns the row with the quantity and the reorder level of the body put
    in (a field left out stays); the id, the product and the restock time
    stay, so that setting the stock this way does not count as a restock;
    the row is what [get_inventory] finds afterwards and every other id is
    answered as before.  A value past the column makes the commit fail with
    [DataError], and nothing is written. *)
Theorem update_inventory_changes_only_that_row iid b db r :
  get_inventory db iid = Some r ->
  match iu_quantity_in_stock b with Some q => 0 <= q | None => True end ->
  match iu_reorder_level b with Some l => 0 <= l | None => True end ->
  (fits_nullable fits_Integer (iu_quantity_in_stock b)
   && fits_nullable fits_Integer (iu_reorder_level b) = true ->
   exists r' db',
     api_update_inventory iid b db = (Ok r', db')
     /\ quantity_in_stock r'
        = match iu_quantity_in_stock b with
          | Some q => q | None => quantity_in_stock r end
     /\ reorder_level r'
        = match iu_reorder_level b with
          | Some l => l | None => reorder_level r end
     /\ inventory_id r' = inventory_id r
     /\ inventory_product_id r' = inventory_product_id r
     /\ last_restocked_at r' = last_restocked_at r
     /\ get_inventory db' iid = Some r'
     /\ (forall j, j <> iid -> get_inventory db' j = get_inventory db j))
  /\ (fits_nullable fits_Integer (iu_quantity_in_stock b)
      && fits_nullable fits_Integer (iu_reorder_level b) = false ->
      api_update_inventory iid b db = (Raise DataError, db)).
Proof.
  intros Hr Hq Hl.
  unfold api_update_inventory, parse_InventoryUpdate, bind.
  replace (check_opt (check_ge "quantity_in_stock" 0) (iu_quantity_in_stock b)
           ++ check_opt (check_ge "reorder_level" 0) (iu_reorder_level b))%list
    with (@nil (string * string)).
  2:{ destruct (iu_quantity_in_stock b) as [q|],
               (iu_reorder_level b) as [l|]; simpl; unfold check_ge;
        repeat match goal with
               | |- context [0 <=? ?x] => destruct (Z.leb_spec 0 x); [|lia]
               end; reflexivity. }
  unfold router_update_inventory, crud_update_inventory, validated, bind,
    or_not_found, ret.
  rewrite Hr. split; intros ->; cbn [negb]; [|reflexivity].
  exists (apply_inventory_update b r). eexists.
  split; [reflexivity|]. repeat split.
  - unfold get_inventory. cbn [inventory set_inventory].
    apply find_update_first; [exact Hr|].
    apply find_some in Hr. exact (proj2 Hr).
  - intros j Hj. unfold get_inventory. cbn [inventory set_inventory].
    apply find_update_first_other; [reflexivity|].
    intros x Hx. apply Z.eqb_eq in Hx. apply Z.eqb_neq. lia.
Qed.

Lemma update_inventory_changes_only_that_row_witness :
  (exists r' db',
     api_update_inventory 1 (mkInventoryUpdate (Some 0) None) scenario_stock
     = (Ok r', db')
     /\ quantity_in_stock r' = 0
     /\ reorder_level r' = 1
     /\ last_restocked_at r' = None
     /\ get_inventory db' 1 = Some r')
  /\ api_update_inventory 1 (mkInventoryUpdate (Some 2147483648) None)
                          scenario_stock
     = (Raise DataError, scenario_stock).
Proof.
  split.
  - destruct (proj1 (@update_inventory_changes_only_that_row
                       1 (mkInventoryUpdate (Some 0) None) scenario_stock
                       (mkInventory 1 1 3 1 None) eq_refl (Z.le_refl 0) I)
                eq_refl)
      as (r' & db' & Hrun & Hq & Hl & _ & _ & Ht & Hget & _).
    exists r', db'. repeat split; assumption.
  - apply (proj2 (@update_inventory_changes_only_that_row
                    1 (mkInventoryUpdate (Some 2147483648) None)
                    scenario_stock (mkInventory 1 1 3 1 None) eq_refl
                    ltac:(simpl; lia) I)).
    reflexivity.
Defined.

(** X16: on a keyed inventory table, deleting an existing row returns it and
    removes it: neither lookup, by its id or by its product, finds a row
    afterwards, every other id is answered as before, and the product can be
    given an inventory row again. *)
Theorem delete_inventory_removes_the_row iid db r :
  inventory_keyed db ->
  get_inventory db iid = Some r ->
  exists db',
    router_delete_inventory iid db = (Ok r, db')
    /\ get_inventory db' iid = None
    /\ get_inventory_by_product db' (inventory_product_id r) = None
    /\ (forall j, j <> iid -> get_inventory db' j = get_inventory db j).
Proof.
  intros [[Hnd _] Hprod] Hr. eexists.
  unfold router_delete_inventory, crud_delete_inventory, bind, or_not_found,
    ret.
  rewrite Hr. split; [reflexivity|]. repeat split.
  - unfold get_inventory. cbn [snd inventory set_inventory].
    now apply find_remove_first_gone.
  - unfold get_inventory_by_product. cbn [snd inventory set_inventory].
    apply find_id_not_in. intros Hin.
    apply in_map_iff in Hin as (x & Hx & Hin).
    pose proof (in_remove_first _ _ _ Hin) as Hin0.
    pose proof (find_some _ _ Hr) as [Hr0 Hid]. apply Z.eqb_eq in Hid.
    assert (x = r) by (apply (NoDup_map_same _ _ Hprod); auto).
    subst x.
    assert (Hgone : find (fun y => inventory_id y =? iid)
                         (remove_first (fun y => inventory_id y =? iid)
                                       (inventory db)) = None)
      by now apply find_remove_first_gone.
    apply find_none with (x := r) in Hgone; [|exact Hin].
    simpl in Hgone. apply Z.eqb_neq in Hgone. contradiction.
  - intros j Hj. unfold get_inventory. cbn [snd inventory set_inventory].
    apply find_remove_first_other.
    intros x Hx. apply Z.eqb_eq in Hx. apply Z.eqb_neq. lia.
Qed.

Lemma delete_inventory_removes_the_row_witness :
  exists db',
    router_delete_inventory 1 scenario_stock
    = (Ok (mkInventory 1 1 3 1 None), db')
    /\ get_inventory db' 1 = None
    /\ get_inventory_by_product db' 1 = None
    /\ (forall j, j <> 1 -> get_inventory db' j = get_inventory scenario_stock j).
Proof.
  exact (@delete_inventory_removes_the_row 1 scenario_stock
           (mkInventory 1 1 3 1 None) scenario_stock_keyed eq_refl).
Defined.

(** X17: two restocks of a row, of [q1] and then of [q2] units, leave the
    database that one restock of [q1 + q2] units made at the time of the
    second leaves, as long as the stock with both quantities added fits the
    [Integer] column: the quantities add up and the restock time is that of
    the last restock. *)
Theorem restocks_add_up t1 t2 iid q1 q2 db :
  0 < q1 -> 0 < q2 ->
  (forall r, get_inventory db iid = Some r ->
     INT_MIN <= quantity_in_stock r
     /\ quantity_in_stock r + q1 + q2 <= INT_MAX) ->
  snd (api_restock_inventory t2 iid (mkInventoryRestock q2)
         (snd (api_restock_inventory t1 iid (mkInventoryRestock q1) db)))
  = snd (api_restock_inventory t2 iid (mkInventoryRestock (q1 + q2)) db).
Proof.
  intros H1 H2 Hfits.
  destruct (get_inventory db iid) as [r|] eqn:Hr.
  - destruct (Hfits r eq_refl) as [Hlo Hhi].
    assert (F1 : fits_Integer (quantity_in_stock r + q1) = true)
      by (apply fits_Integer_iff; lia).
    assert (F2 : fits_Integer (quantity_in_stock r + (q1 + q2)) = true)
      by (apply fits_Integer_iff; lia).
    assert (F3 : fits_Integer (quantity_in_stock (restocked t1 q1 r) + q2)
                 = true)
      by (apply fits_Integer_iff; simpl; lia).
    rewrite (@api_restock_inventory_found t1 iid q1 db r H1 Hr), F1.
    cbn [snd].
    rewrite (@api_restock_inventory_found t2 iid (q1 + q2) db r
               ltac:(lia) Hr), F2.
    erewrite api_restock_inventory_found; [|exact H2|].
    2:{ unfold get_inventory. cbn [inventory set_inventory].
        apply find_update_first; [exact Hr|].
        apply find_some in Hr. exact (proj2 Hr). }
    rewrite F3.
    cbn [snd]. unfold set_inventory. simpl. f_equal.
    rewrite update_first_twice by reflexivity.
    apply update_first_ext. intros x. unfold restocked. simpl.
    f_equal. lia.
  - rewrite !api_restock_inventory_missing; auto.
    now rewrite api_restock_inventory_missing.
Qed.

Lemma restocks_add_up_witness :
  snd (api_restock_inventory 20 1 (mkInventoryRestock 5)
         (snd (api_restock_inventory 10 1 (mkInventoryRestock 2)
                 scenario_stock)))
  = snd (api_restock_inventory 20 1 (mkInventoryRestock (2 + 5))
           scenario_stock)
  /\ stock_of (snd (api_restock_inventory 20 1 (mkInventoryRestock (2 + 5))
                      scenario_stock)) 1
     = Some 10.
Proof.
  split; [|reflexivity].
  apply restocks_add_up; [lia | lia |].
  intros r [= <-]. unfold INT_MIN, INT_MAX. simpl. lia.
Defined.

(** ** Carts *)

(** The checks of the cart handlers write nothing; what they establish
    when they pass. *)
Lemma check_inventory_cases pid quantity db :
  (exists inv,
     get_inventory_by_product db pid = Some inv
     /\ quantity <= quantity_in_stock inv
     /\ check_inventory pid quantity db = (Ok tt, db))
  \/ (exists e, check_inventory pid quantity db = (Raise e, db)).
Proof.
  unfold check_inventory, bind, query, raise, ret.
  destruct (get_inventory_by_product db pid) as [inv|];
    [|right; eexists; reflexivity].
  destruct (Z.ltb_spec (quantity_in_stock inv) quantity);
    [right; eexists; reflexivity|].
  left. exists inv. auto.
Qed.

Lemma check_item_owner_cases it u detail db :
  (exists cart,
     get_shopping_cart db (item_cart_id it) = Some cart
     /\ cart_user_id cart = user_id u
     /\ check_item_owner it u detail db = (Ok tt, db))
  \/ check_item_owner it u detail db = (Raise (HTTPException 403 detail), db).
Proof.
  unfold check_item_owner, bind, query, raise, ret.
  destruct (get_shopping_cart db (item_cart_id it)) as [cart|];
    [|right; reflexivity].
  destruct (Z.eqb_spec (cart_user_id cart) (user_id u));
    [|right; reflexivity].
  left. exists cart. auto.
Qed.

Lemma get_or_create_cart_cases u db :
  (exists cart,
     get_user_cart db (user_id u) = Some cart
     /\ get_or_create_cart u db = (Ok cart, db))
  \/ (get_user_cart db (user_id u) = None
      /\ get_or_create_cart u db
         = (Ok (mkShoppingCart (shopping_carts_id_seq db + 1) (user_id u)),
            set_shopping_carts
              (shopping_carts db
               ++ [mkShoppingCart (shopping_carts_id_seq db + 1) (user_id u)])
              (shopping_carts_id_seq db + 1) db)).
Proof.
  unfold get_or_create_cart, crud_create_shopping_cart, bind, query, ret.
  destruct (get_user_cart db (user_id u)) as [cart|]; [left | right]; eauto.
Qed.

(** The add handler, when it does not raise: the quantity is at least 1 and
    within the stock of the product, and the item goes to the caller's
    cart. *)
Lemma api_add_item_cases b u db :
  let q := match bsci_quantity b with Some q => q | None => 1 end in
  (exists e, api_add_item b u db = (Raise e, db))
  \/ (1 <= q
      /\ get_product db (bsci_product_id b) <> None
      /\ (exists inv,
            get_inventory_by_product db (bsci_product_id b) = Some inv
            /\ q <= quantity_in_stock inv)
      /\ exists cart db1,
           get_or_create_cart u db = (Ok cart, db1)
           /\ api_add_item b u db
              = crud_add_item_to_cart
                  (cart_id cart)
                  (mkShoppingCartItemCreate (bsci_product_id b) q) db1).
Proof.
  intros q. unfold api_add_item, parse_ShoppingCartItemCreate, bind.
  match goal with |- context [validated ?errs ?a db] =>
    destruct (validated_cases errs a db) as [[Hnil ->] | [_ ->]];
      [|left; eexists; reflexivity]
  end.
  assert (Hq : 1 <= q)
    by (subst q; destruct (bsci_quantity b); simpl in Hnil;
        [now apply check_ge_nil in Hnil | lia]).
  unfold router_add_item, bind, query, raise. cbn [sci_product_id sci_quantity].
  destruct (get_product db (bsci_product_id b)) as [product|] eqn:Hp;
    [|left; eexists; reflexivity].
  fold q.
  destruct (check_inventory_cases (bsci_product_id b) q db)
    as [(inv & Hinv & Hle & ->) | [e ->]]; [|left; eexists; reflexivity].
  destruct (get_or_create_cart_cases u db)
    as [(cart & Hcart & Hgoc) | [Hnone Hgoc]]; rewrite Hgoc;
    right; (split; [exact Hq|]); (split; [congruence|]);
    (split; [exists inv; auto|]); do 2 eexists; split; reflexivity.
Qed.

(** The update handler, when it does not raise. *)
Lemma api_update_item_cases iid b u db :
  (exists e, api_update_item iid b u db = (Raise e, db))
  \/ (1 <= scu_quantity b
      /\ exists it cart inv,
           get_cart_item db iid = Some it
           /\ get_shopping_cart db (item_cart_id it) = Some cart
           /\ cart_user_id cart = user_id u
           /\ get_inventory_by_product db (item_product_id it) = Some inv
           /\ scu_quantity b <= quantity_in_stock inv
           /\ api_update_item iid b u db = crud_update_cart_item iid b db).
Proof.
  unfold api_update_item, parse_ShoppingCartItemUpdate, bind.
  match goal with |- context [validated ?errs ?a db] =>
    destruct (validated_cases errs a db) as [[Hnil ->] | [_ ->]];
      [|left; eexists; reflexivity]
  end.
  apply check_ge_nil in Hnil.
  unfold router_update_item, cart_item_not_found, bind, query, raise.
  destruct (get_cart_item db iid) as [it|] eqn:Hit;
    [|left; eexists; reflexivity].
  destruct (check_item_owner_cases it u
              "You can only update items in your own cart" db)
    as [(cart & Hcart & Hown & ->) | ->]; [|left; eexists; reflexivity].
  destruct (check_inventory_cases (item_product_id it) (scu_quantity b) db)
    as [(inv & Hinv & Hle & ->) | [e ->]]; [|left; eexists; reflexivity].
  right. split; [exact Hnil|]. exists it, cart, inv. auto 10.
Qed.

(** The remove handler, when it does not raise. *)
Lemma router_remove_item_cases iid u db :
  (exists e, router_remove_item iid u db = (Raise e, db))
  \/ (exists it cart,
        get_cart_item db iid = Some it
        /\ get_shopping_cart db (item_cart_id it) = Some cart
        /\ cart_user_id cart = user_id u
        /\ router_remove_item iid u db = crud_remove_item_from_cart iid db).
Proof.
  unfold router_remove_item, cart_item_not_found, bind, query, raise.
  destruct (get_cart_item db iid) as [it|] eqn:Hit;
    [|left; eexists; reflexivity].
  destruct (check_item_owner_cases it u
              "You can only remove items from your own cart" db)
    as [(cart & Hcart & Hown & ->) | ->]; [|left; eexists; reflexivity].
  right. exists it, cart. auto.
Qed.

Lemma get_or_create_cart_items u db :
  shopping_cart_items (snd (get_or_create_cart u db)) = shopping_cart_items db
  /\ shopping_cart_items_id_seq (snd (get_or_create_cart u db))
     = shopping_cart_items_id_seq db.
Proof.
  destruct (get_or_create_cart_cases u db) as [(c & _ & ->) | [_ ->]]; auto.
Qed.

Lemma NoDup_map_filter {A B} (g : A -> B) p (rows : list A) :
  NoDup (map g rows) -> NoDup (map g (filter p rows)).
Proof.
  induction rows as [|x rest IH]; simpl; [auto|].
  intros Hnd. inversion Hnd as [|? ? Hx Hrest]; subst.
  destruct (p x); [|auto]. simpl. constructor; [|auto].
  intros Hin. apply Hx. apply in_map_iff in Hin as (r & <- & Hr).
  apply filter_In in Hr as [Hr _]. now apply in_map.
Qed.

Lemma serve_cart_invariants now req db :
  (one_item_per_product db -> one_item_per_product (serve now req db))
  /\ (quantities_positive db -> quantities_positive (serve now req db)).
Proof.
  pose proof (requests_write_their_own_tables now req db) as [_ Hparts].
  assert (Hsame : forall db',
             shopping_cart_items db' = shopping_cart_items db ->
             (one_item_per_product db -> one_item_per_product db')
             /\ (quantities_positive db -> quantities_positive db')).
  { unfold one_item_per_product, quantities_positive.
    intros db' ->. auto. }
  unfold carts_part in Hparts.
  destruct req; simpl in Hparts;
    try (apply Hsame; simpl; destruct Hparts as [_ Hc]; congruence).
  all: simpl; unfold one_item_per_product, quantities_positive.
  - (* GET /cart/ *)
    unfold router_get_cart.
    destruct (get_or_create_cart_items current_user db) as [-> _]. auto.
  - (* POST /cart/items *)
    destruct (api_add_item_cases b current_user db)
      as [[e ->] | (Hq & _ & _ & cart & db1 & Hgoc & ->)]; [auto|].
    pose proof (get_or_create_cart_items current_user db) as [Hitems _].
    rewrite Hgoc in Hitems. simpl in Hitems.
    unfold crud_add_item_to_cart. cbn [sci_product_id sci_quantity].
    rewrite Hitems.
    destruct (find _ (shopping_cart_items db)) as [existing|] eqn:Hfind;
      cbn [snd shopping_cart_items set_shopping_cart_items]; split.
    + intros Hnd. now rewrite map_update_first_same.
    + intros Hpos. apply Forall_update_first; [exact Hpos|].
      intros r Hr. simpl. lia.
    + intros Hnd. rewrite map_app. simpl.
      apply NoDup_app; [exact Hnd | repeat constructor; auto |].
      intros k Hk [<- | []].
      apply in_map_iff in Hk as (x & Hx & Hin).
      apply find_none with (x := x) in Hfind; [|exact Hin].
      unfold item_key in Hx. injection Hx as Hc Hp.
      simpl in Hfind. rewrite Hc, Hp, !Z.eqb_refl in Hfind. discriminate.
    + intros Hpos. apply Forall_app. split; [exact Hpos|].
      repeat constructor. simpl. exact Hq.
  - (* PUT /cart/items/{item_id} *)
    destruct (api_update_item_cases iid b current_user db)
      as [[e ->] | (Hq & it & _ & _ & Hit & _ & _ & _ & _ & ->)]; [auto|].
    unfold crud_update_cart_item. rewrite Hit.
    cbn [snd shopping_cart_items set_shopping_cart_items]. split.
    + intros Hnd. now rewrite map_update_first_same.
    + intros Hpos. apply Forall_update_first; [exact Hpos|].
      intros r _. exact Hq.
  - (* DELETE /cart/items/{item_id} *)
    destruct (router_remove_item_cases iid current_user db)
      as [[e ->] | (it & _ & Hit & _ & _ & ->)]; [auto|].
    unfold crud_remove_item_from_cart. rewrite Hit.
    cbn [snd shopping_cart_items set_shopping_cart_items]. split.
    + intros Hnd. now apply NoDup_map_remove_first.
    + intros Hpos. now apply Forall_remove_first.
  - (* DELETE /cart/clear *)
    unfold router_clear_cart, crud_clear_cart, bind, query, raise, ret.
    destruct (get_user_cart db (user_id current_user)); [|auto].
    cbn [snd shopping_cart_items set_shopping_cart_items]. split.
    + intros Hnd. now apply NoDup_map_filter.
    + intros Hpos. rewrite Forall_forall in *.
      intros x Hx. apply filter_In in Hx as [Hx _]. auto.
Qed.

(** X18: starting from cart items of which no two share cart and product,
    every history of requests leaves them so: adding a product that the cart
    already holds raises the quantity of its item, and no handler moves an
    item to another cart or product. *)
Theorem carts_keep_one_item_per_product history db :
  one_item_per_product db -> one_item_per_product (serve_all history db).
Proof.
  revert db; induction history as [|[now req] rest IH]; intros db H; simpl;
    [exact H|].
  apply IH. now apply serve_cart_invariants.
Qed.

Lemma scenario_carts_one_item_per_product :
  one_item_per_product scenario_carts.
Proof.
  unfold one_item_per_product. simpl.
  constructor; [simpl; intros [H | []]; discriminate|].
  constructor; [simpl; tauto | constructor].
Defined.

Lemma carts_keep_one_item_per_product_witness :
  one_item_per_product
    (serve_all
       [(1, POST_cart_items (mkUser 1) (mkBodyShoppingCartItemCreate 1 None));
        (2, POST_cart_items (mkUser 1) (mkBodyShoppingCartItemCreate 2 (Some 3)));
        (3, POST_cart_items (mkUser 3) (mkBodyShoppingCartItemCreate 2 (Some 3)));
        (4, DELETE_cart_clear (mkUser 2))]
       scenario_carts).
Proof.
  exact (carts_keep_one_item_per_product _
           scenario_carts_one_item_per_product).
Defined.

(** X19: starting from cart items with quantities of at least 1, every
    history of requests leaves every cart item with a quantity of at least
    1: the request schemas refuse a quantity below 1, adding only raises a
    quantity, and an item is removed, never counted down to 0. *)
Theorem cart_quantities_stay_positive history db :
  quantities_positive db -> quantities_positive (serve_all history db).
Proof.
  revert db; induction history as [|[now req] rest IH]; intros db H; simpl;
    [exact H|].
  apply IH. now apply serve_cart_invariants.
Qed.

Lemma scenario_carts_quantities_positive : quantities_positive scenario_carts.
Proof.
  unfold quantities_positive. simpl. repeat constructor; simpl; lia.
Defined.

Lemma cart_quantities_stay_positive_witness :
  quantities_positive
    (serve_all
       [(1, POST_cart_items (mkUser 1) (mkBodyShoppingCartItemCreate 1 (Some 0)));
        (2, PUT_cart_items 1 (mkUser 1) (mkShoppingCartItemUpdate 0));
        (3, PUT_cart_items 1 (mkUser 1) (mkShoppingCartItemUpdate 3));
        (4, POST_cart_items (mkUser 1) (mkBodyShoppingCartItemCreate 1 None))]
       scenario_carts).
Proof.
  exact (cart_quantities_stay_positive _ scenario_carts_quantities_positive).
Defined.

(** X20: when the add handler returns an item, the request asked for a
    quantity of at least 1 (1 when left out) that the stock of the product
    covered; the item is the one of the caller's cart for the product, and
    its quantity is what the cart held of the product before plus the
    quantity asked for.  The stock bounds the quantity of the request, not
    the quantity the cart ends up with. *)
Theorem added_item_quantity b u db it db' :
  api_add_item b u db = (Ok it, db') ->
  let q := match bsci_quantity b with Some q => q | None => 1 end in
  1 <= q
  /\ (exists inv,
        get_inventory_by_product db (bsci_product_id b) = Some inv
        /\ q <= quantity_in_stock inv)
  /\ item_product_id it = bsci_product_id b
  /\ (exists cart,
        get_user_cart db' (user_id u) = Some cart
        /\ item_cart_id it = cart_id cart)
  /\ item_quantity it
     = quantity_in_cart db (item_cart_id it) (bsci_product_id b) + q
  /\ quantity_in_cart db' (item_cart_id it) (bsci_product_id b)
     = item_quantity it.
Proof.
  intros Hrun q.
  destruct (api_add_item_cases b u db)
    as [[e He] | (Hq & _ & Hinv & cart & db1 & Hgoc & Hadd)];
    [congruence|].
  fold q in Hq, Hinv, Hadd. rewrite Hadd in Hrun. clear Hadd.
  split; [exact Hq|]. split; [exact Hinv|].
  assert (Hcart : get_user_cart db1 (user_id u) = Some cart
                  /\ shopping_cart_items db1 = shopping_cart_items db).
  { destruct (get_or_create_cart_cases u db)
      as [(c & Hc & Hgoc') | [Hnone Hgoc']]; rewrite Hgoc' in Hgoc;
      injection Hgoc as <- <-; [auto|].
    split; [|reflexivity].
    unfold get_user_cart in *. cbn [shopping_carts set_shopping_carts].
    rewrite find_app_fresh by exact Hnone. simpl. now rewrite Z.eqb_refl. }
  destruct Hcart as [Hcart Hitems].
  unfold crud_add_item_to_cart in Hrun. cbn [sci_product_id sci_quantity] in Hrun.
  unfold quantity_in_cart. rewrite Hitems in Hrun.
  destruct (find _ (shopping_cart_items db)) as [existing|] eqn:Hfind;
    injection Hrun as <- <-;
    cbn [item_product_id item_cart_id item_quantity with_quantity
         shopping_cart_items set_shopping_cart_items].
  - pose proof (find_some _ _ Hfind) as [_ Hkey].
    apply andb_true_iff in Hkey as [Hc Hp].
    apply Z.eqb_eq in Hc, Hp. rewrite Hc, Hp.
    split; [reflexivity|]. split; [exists cart; auto|].
    rewrite Hfind. split; [reflexivity|].
    erewrite find_update_first; [reflexivity | exact Hfind |].
    simpl. now rewrite Hc, Hp, !Z.eqb_refl.
  - split; [reflexivity|]. split; [exists cart; auto|].
    rewrite Hfind. split; [lia|].
    rewrite find_app_fresh by exact Hfind. simpl.
    now rewrite !Z.eqb_refl.
Qed.

Lemma added_item_quantity_witness :
  api_add_item (mkBodyShoppingCartItemCreate 1 (Some 3)) (mkUser 1)
               scenario_carts
  = (Ok (mkShoppingCartItem 1 1 1 5),
     set_shopping_cart_items
       [mkShoppingCartItem 1 1 1 5; mkShoppingCartItem 2 2 1 1] 2
       scenario_carts)
  /\ stock_of scenario_carts 1 = Some 3
  /\ item_quantity (mkShoppingCartItem 1 1 1 5)
     = quantity_in_cart scenario_carts 1 1 + 3.
Proof.
  split; [reflexivity|]. split; [reflexivity|].
  exact (proj1 (proj2 (proj2 (proj2 (proj2
           (@added_item_quantity
              (mkBodyShoppingCartItemCreate 1 (Some 3)) (mkUser 1)
              scenario_carts (mkShoppingCartItem 1 1 1 5) _ eq_refl)))))).
Defined.

Lemma find_by_id_of_member {A} (id : A -> Z) rows seq r :
  keyed id rows seq -> In r rows ->
  find (fun x => id x =? id r) rows = Some r.
Proof.
  intros Hk Hin.
  destruct (find (fun x => id x =? id r) rows) as [x|] eqn:Hfind.
  - pose proof (find_some _ _ Hfind) as [Hx Hid]. apply Z.eqb_eq in Hid.
    f_equal. eapply keyed_same_id; eauto.
  - apply find_none with (x := r) in Hfind; [|exact Hin].
    simpl in Hfind. now rewrite Z.eqb_refl in Hfind.
Qed.

Lemma get_user_cart_is_that_cart db uid cart :
  carts_keyed db -> get_user_cart db uid = Some cart ->
  get_shopping_cart db (cart_id cart) = Some cart /\ cart_user_id cart = uid.
Proof.
  intros Hk Hcart. apply find_some in Hcart as [Hin Hu].
  apply Z.eqb_eq in Hu. split; [|exact Hu].
  eapply find_by_id_of_member; eauto.
Qed.

Lemma filter_filter_same {A} (q p : A -> bool) rows :
  (forall x, p x = false -> q x = false) ->
  filter q (filter p rows) = filter q rows.
Proof.
  intros H. induction rows as [|x rest IH]; simpl; [reflexivity|].
  destruct (p x) eqn:Hp; simpl.
  - now rewrite IH.
  - now rewrite (H x Hp), IH.
Qed.

(** X22: on carts with distinct ids, none ahead of the sequence, a cart
    request of a user, whether it returns or raises, leaves the items of
    the carts of the other users as they were: adding, updating, removing
    and clearing reach the caller's own cart only. *)
Theorem cart_handlers_keep_other_users_items now req u db :
  carts_keyed db ->
  cart_requester req = Some u ->
  items_of_others u db (shopping_cart_items (serve now req db))
  = items_of_others u db (shopping_cart_items db).
Proof.
  intros Hk Hreq. unfold items_of_others.
  destruct req; try discriminate; injection Hreq as ->; simpl.
  - (* GET /cart/ *)
    unfold router_get_cart.
    now destruct (get_or_create_cart_items u db) as [-> _].
  - (* POST /cart/items *)
    destruct (api_add_item_cases b u db)
      as [[e ->] | (_ & _ & _ & cart & db1 & Hgoc & ->)]; [reflexivity|].
    assert (Hmine : shopping_cart_items db1 = shopping_cart_items db
                    /\ match get_shopping_cart db (cart_id cart) with
                       | Some c => negb (cart_user_id c =? user_id u)
                       | None => false
                       end = false).
    { destruct (get_or_create_cart_cases u db)
        as [(c & Hc & Hgoc') | [Hnone Hgoc']]; rewrite Hgoc' in Hgoc;
        injection Hgoc as <- <-; (split; [reflexivity|]).
      - destruct (@get_user_cart_is_that_cart db (user_id u) c Hk Hc)
          as [-> ->].
        now rewrite Z.eqb_refl.
      - simpl. unfold get_shopping_cart.
        rewrite find_none_above with (seq := shopping_carts_id_seq db);
          [reflexivity | apply Hk | lia]. }
    destruct Hmine as [Hitems Hmine].
    unfold crud_add_item_to_cart. cbn [sci_product_id sci_quantity].
    rewrite Hitems.
    destruct (find _ (shopping_cart_items db)) as [existing|] eqn:Hfind;
      cbn [snd shopping_cart_items set_shopping_cart_items].
    + apply filter_update_first. intros r Hr.
      rewrite Hfind in Hr. injection Hr as <-.
      apply find_some in Hfind as [_ Hkey].
      apply andb_true_iff in Hkey as [Hc _]. apply Z.eqb_eq in Hc.
      cbn [item_cart_id with_quantity]. rewrite Hc. auto.
    + rewrite filter_app. simpl. rewrite Hmine. apply app_nil_r.
  - (* PUT /cart/items/{item_id} *)
    destruct (api_update_item_cases iid b u db)
      as [[e ->] | (_ & it & cart & _ & Hit & Hcart & Hown & _ & _ & ->)];
      [reflexivity|].
    unfold crud_update_cart_item. rewrite Hit.
    cbn [snd shopping_cart_items set_shopping_cart_items].
    apply filter_update_first. intros r Hr.
    unfold get_cart_item in Hit. rewrite Hit in Hr. injection Hr as <-.
    cbn [item_cart_id with_quantity]. rewrite Hcart, Hown, Z.eqb_refl. auto.
  - (* DELETE /cart/items/{item_id} *)
    destruct (router_remove_item_cases iid u db)
      as [[e ->] | (it & cart & Hit & Hcart & Hown & ->)]; [reflexivity|].
    unfold crud_remove_item_from_cart. rewrite Hit.
    cbn [snd shopping_cart_items set_shopping_cart_items].
    apply filter_remove_first. intros r Hr.
    unfold get_cart_item in Hit. rewrite Hit in Hr. injection Hr as <-.
    now rewrite Hcart, Hown, Z.eqb_refl.
  - (* DELETE /cart/clear *)
    unfold router_clear_cart, crud_clear_cart, bind, query, raise, ret.
    destruct (get_user_cart db (user_id u)) as [cart|] eqn:Hcart;
      [|reflexivity].
    cbn [snd shopping_cart_items set_shopping_cart_items].
    apply filter_filter_same. intros x Hx.
    apply negb_false_iff, Z.eqb_eq in Hx. rewrite Hx.
    destruct (@get_user_cart_is_that_cart db (user_id u) cart Hk Hcart)
      as [-> ->].
    now rewrite Z.eqb_refl.
Qed.

Lemma scenario_carts_keyed : carts_keyed scenario_carts.
Proof.
  split; simpl.
  - constructor; [simpl; intros [H | []]; discriminate|].
    constructor; [simpl; tauto | constructor].
  - repeat constructor; simpl; lia.
Defined.

Lemma cart_handlers_keep_other_users_items_witness :
  items_of_others (mkUser 1) scenario_carts
    (shopping_cart_items (serve 5 (DELETE_cart_items 2 (mkUser 1))
                                scenario_carts))
  = items_of_others (mkUser 1) scenario_carts
      (shopping_cart_items scenario_carts).
Proof.
  exact (@cart_handlers_keep_other_users_items
           5 (DELETE_cart_items 2 (mkUser 1)) (mkUser 1) scenario_carts
           scenario_carts_keyed eq_refl).
Defined.

(** X23: clearing empties the caller's cart and no other: when the caller
    has a cart, the clear handler returns its message, that cart has no
    items afterwards, the items of every cart with another id are what they
    were, and the cart itself stays. *)
Theorem clear_cart_empties_the_callers_cart u db cart :
  get_user_cart db (user_id u) = Some cart ->
  exists db',
    router_clear_cart u db = (Ok "Cart cleared successfully", db')
    /\ cart_items db' cart = []
    /\ (forall c, cart_id c <> cart_id cart ->
          cart_items db' c = cart_items db c)
    /\ shopping_carts db' = shopping_carts db.
Proof.
  intros Hcart. eexists.
  unfold router_clear_cart, crud_clear_cart, bind, query, raise, ret.
  rewrite Hcart. split; [reflexivity|].
  unfold cart_items. cbn [shopping_cart_items set_shopping_cart_items
                          shopping_carts].
  repeat split.
  - induction (shopping_cart_items db) as [|x rest IH]; simpl; [reflexivity|].
    destruct (item_cart_id x =? cart_id cart) eqn:Hx; simpl;
      [exact IH | now rewrite Hx].
  - intros c Hc.
    induction (shopping_cart_items db) as [|x rest IH]; simpl; [reflexivity|].
    destruct (Z.eqb_spec (item_cart_id x) (cart_id cart)) as [Heq | Hne];
      simpl.
    + rewrite IH. destruct (Z.eqb_spec (item_cart_id x) (cart_id c));
        [congruence | reflexivity].
    + now rewrite IH.
Qed.

Lemma clear_cart_empties_the_callers_cart_witness :
  exists db',
    router_clear_cart (mkUser 1) scenario_carts
    = (Ok "Cart cleared successfully", db')
    /\ cart_items db' (mkShoppingCart 1 1) = []
    /\ cart_items db' (mkShoppingCart 2 2)
       = cart_items scenario_carts (mkShoppingCart 2 2).
Proof.
  destruct (@clear_cart_empties_the_callers_cart
              (mkUser 1) scenario_carts (mkShoppingCart 1 1) eq_refl)
    as (db' & Hrun & Hmine & Hothers & _).
  exists db'. repeat split; try assumption.
  apply Hothers. simpl. lia.
Defined.

(** X24: the handler behind GET /cart/ always returns a cart of the caller,
    and creates one only when the caller has none: asked again on the
    database it leaves, it returns the same cart and writes nothing. *)
Theorem get_cart_creates_at_most_once u db :
  exists cart db',
    router_get_cart u db = (Ok cart, db')
    /\ cart_user_id cart = user_id u
    /\ (get_user_cart db (user_id u) = Some cart /\ db' = db
        \/ get_user_cart db (user_id u) = None
           /\ shopping_carts db' = (shopping_carts db ++ [cart])%list)
    /\ router_get_cart u db' = (Ok cart, db').
Proof.
  unfold router_get_cart.
  destruct (get_or_create_cart_cases u db)
    as [(cart & Hcart & Hgoc) | [Hnone Hgoc]]; rewrite Hgoc.
  - exists cart, db. split; [reflexivity|].
    pose proof (find_some _ _ Hcart) as [_ Hu]. apply Z.eqb_eq in Hu.
    auto.
  - do 2 eexists. split; [reflexivity|]. split; [reflexivity|].
    split; [right; auto|].
    unfold get_or_create_cart, bind, query, ret, get_user_cart in *.
    cbn [shopping_carts set_shopping_carts].
    rewrite find_app_fresh by exact Hnone. simpl.
    now rewrite Z.eqb_refl.
Qed.

(** X25: when the update handler of the cart returns, the item existed and
    belongs to a cart of the caller, the new quantity is at least 1 and
    within the stock that the product has at that moment, and the item is
    returned with that quantity and nothing else changed; it is what the
    lookup by id finds afterwards, and every other id is answered as
    before. *)
Theorem updated_item_is_within_stock iid b u db r db' :
  api_update_item iid b u db = (Ok r, db') ->
  exists it cart inv,
    get_cart_item db iid = Some it
    /\ get_shopping_cart db (item_cart_id it) = Some cart
    /\ cart_user_id cart = user_id u
    /\ get_inventory_by_product db (item_product_id it) = Some inv
    /\ 1 <= scu_quantity b <= quantity_in_stock inv
    /\ r = Some (with_quantity (scu_quantity b) it)
    /\ get_cart_item db' iid = r
    /\ (forall j, j <> iid -> get_cart_item db' j = get_cart_item db j).
Proof.
  intros Hrun.
  destruct (api_update_item_cases iid b u db)
    as [[e He] | (Hq & it & cart & inv & Hit & Hcart & Hown & Hinv & Hle
                  & Hupd)]; [congruence|].
  rewrite Hupd in Hrun. unfold crud_update_cart_item in Hrun.
  rewrite Hit in Hrun. injection Hrun as <- <-.
  exists it, cart, inv. repeat split; auto; try lia.
  - unfold get_cart_item. cbn [shopping_cart_items set_shopping_cart_items].
    apply find_update_first; [exact Hit|].
    apply find_some in Hit. exact (proj2 Hit).
  - intros j Hj. unfold get_cart_item.
    cbn [shopping_cart_items set_shopping_cart_items].
    apply find_update_first_other; [reflexivity|].
    intros x Hx. apply Z.eqb_eq in Hx. apply Z.eqb_neq. lia.
Qed.

Lemma updated_item_is_within_stock_witness :
  exists it cart inv,
    get_cart_item scenario_carts 1 = Some it
    /\ get_shopping_cart scenario_carts (item_cart_id it) = Some cart
    /\ cart_user_id cart = 1
    /\ get_inventory_by_product scenario_carts (item_product_id it) = Some inv
    /\ 1 <= 3 <= quantity_in_stock inv.
Proof.
  destruct (@updated_item_is_within_stock
              1 (mkShoppingCartItemUpdate 3) (mkUser 1) scenario_carts
              _ _ eq_refl)
    as (it & cart & inv & H1 & H2 & H3 & H4 & H5 & _).
  exists it, cart, inv. auto.
Defined.

Lemma router_create_order_first_item_witness :
  router_create_order (mkOrderCreate 1 "Addr") (mkUser 1) scenario_carts
  = (Raise (AttributeError "Product" "quantity"), scenario_carts).
Proof.
  exact (@router_create_order_first_item
           (mkOrderCreate 1 "Addr") (mkUser 1) scenario_carts
           (mkShoppingCart 1 1) (mkShoppingCartItem 1 1 1 2) []
           eq_refl eq_refl eq_refl).
Defined.

Lemma add_item_reports_insufficient_stock_witness :
  router_add_item (mkShoppingCartItemCreate 1 4) (mkUser 1) scenario_carts
  = (Raise (HTTPException 400 "Insufficient stock. Available: 3"),
     scenario_carts).
Proof.
  apply (@add_item_reports_insufficient_stock
           scenario_carts (mkShoppingCartItemCreate 1 4) (mkUser 1)
           (mkProduct 1 "SKU1" "Prod" 1000) (mkInventory 1 1 3 1 None)
           eq_refl eq_refl).
  simpl. lia.
Defined.

Lemma update_order_rejects_unknown_status_witness :
  router_update_order 1 (mkOrderUpdate None (Some "refunded")) (mkUser 1)
                      scenario_orders
  = (Raise (HTTPException 400
              "Invalid order status. Must be one of: pending, confirmed, shipped, delivered, cancelled"),
     scenario_orders).
Proof.
  apply (@update_order_rejects_unknown_status
           scenario_orders 1 (mkUser 1)
           (mkOrderUpdate None (Some "refunded"))
           (mkOrder 1 1 (Some 1) "Addr" "pending" (Some 2000)) "refunded"
           eq_refl eq_refl eq_refl); [discriminate | reflexivity].
Defined.

Lemma delete_order_protects_shipped_delivered_witness :
  exists e,
    router_delete_order 3 (mkUser 1) scenario_orders = (Raise e, scenario_orders).
Proof.
  exact (@delete_order_protects_shipped_delivered
           scenario_orders 3 (mkUser 1)
           (mkOrder 3 1 None "Addr" "delivered" (Some 1000))
           eq_refl (or_intror eq_refl)).
Defined.

(** ** The total of an order of positive prices and quantities *)

Lemma lines_total_positive db items lines :
  resolve_lines db items = Some lines ->
  Forall (fun it => 1 <= item_quantity it) items ->
  Forall (fun p => 0 < product_price p) (products db) ->
  0 <= lines_total lines /\ (items <> [] -> 0 < lines_total lines).
Proof.
  intros Hres Hq Hprice. revert lines Hres.
  induction Hq as [|item rest Hitem Hrest IH]; simpl; intros lines Hres.
  - injection Hres as <-. simpl. unfold Decimal.zero. split; [lia | tauto].
  - destruct (get_product db (item_product_id item)) as [product|] eqn:Hp;
      [|discriminate].
    destruct (resolve_lines db rest) as [lines'|]; [|discriminate].
    injection Hres as <-.
    destruct (IH lines' eq_refl) as [Hge _].
    apply find_some in Hp as [Hin _].
    rewrite Forall_forall in Hprice. specialize (Hprice product Hin).
    simpl. unfold Decimal.add, Decimal.mul_int.
    assert (0 < product_price product * item_quantity item) by nia.
    split; [lia | intros _; lia].
Qed.

(** X26: for a cart that exists, has items and whose line items all resolve
    to a product, when every product has a price above 0 and every cart item
    a quantity of at least 1, an order that the data-layer [create_order]
    returns has a total above 0. *)
Theorem order_total_is_positive db uid order cart lines o db' :
  get_shopping_cart db (oc_cart_id order) = Some cart ->
  resolve_lines db (cart_items db cart) = Some lines ->
  cart_items db cart <> [] ->
  quantities_positive db ->
  Forall (fun p => 0 < product_price p) (products db) ->
  crud_create_order uid order db = (Ok o, db') ->
  exists total, total_amount o = Some total /\ 0 < total.
Proof.
  intros Hcart Hres Hne Hq Hprice Hrun.
  apply crud_create_order_ok in Hrun as [-> _].
  rewrite Hcart, (cart_total_resolved _ _ Hres). cbn [total_amount].
  eexists. split; [reflexivity|].
  apply (@lines_total_positive db (cart_items db cart) lines Hres);
    [|exact Hprice | exact Hne].
  unfold quantities_positive in Hq. rewrite Forall_forall in *.
  intros it Hit. apply Hq. unfold cart_items in Hit.
  now apply filter_In in Hit.
Qed.

Lemma order_total_is_positive_witness :
  exists o db' total,
    crud_create_order 1 (mkOrderCreate 1 "Addr") scenario_carts = (Ok o, db')
    /\ total_amount o = Some total
    /\ 0 < total.
Proof.
  do 2 eexists.
  assert (Hrun : crud_create_order 1 (mkOrderCreate 1 "Addr") scenario_carts
                 = (Ok (mkOrder 1 1 (Some 1) "Addr" "pending" (Some 2000)),
                    snd (crud_create_order 1 (mkOrderCreate 1 "Addr")
                           scenario_carts)))
    by reflexivity.
  destruct (@order_total_is_positive
              scenario_carts 1 (mkOrderCreate 1 "Addr") (mkShoppingCart 1 1)
              [(mkProduct 1 "SKU1" "Prod" 1000, 2)] _ _ eq_refl eq_refl
              ltac:(discriminate) scenario_carts_quantities_positive
              ltac:(simpl; repeat constructor) Hrun)
    as (total & Htotal & Hpos).
  exists total. split; [exact Hrun | split; assumption].
Defined.

(** ** Addresses *)

Lemma in_unset_default_where p rows x :
  In x (unset_default_where p rows) ->
  exists r, In r rows /\ x = (if p r then with_is_default false r else r).
Proof.
  unfold unset_default_where. intros H. apply in_map_iff in H.
  destruct H as (r & <- & Hr). now exists r.
Qed.

Lemma in_unset_default_where_default p rows x :
  In x (unset_default_where p rows) -> address_is_default x = true ->
  In x rows /\ p x = false.
Proof.
  intros H Hd. apply in_unset_default_where in H. destruct H as (r & Hr & ->).
  destruct (p r) eqn:Hp; [discriminate | now split].
Qed.

Lemma map_id_unset_default_where p rows :
  map address_id (unset_default_where p rows) = map address_id rows.
Proof.
  unfold unset_default_where. rewrite map_map. apply map_ext.
  intros a. now destruct (p a).
Qed.

Lemma map_user_unset_default_where p rows :
  map address_user_id (unset_default_where p rows) = map address_user_id rows.
Proof.
  unfold unset_default_where. rewrite map_map. apply map_ext.
  intros a. now destruct (p a).
Qed.

Lemma keyed_unset_default_where p rows seq :
  keyed address_id rows seq ->
  keyed address_id (unset_default_where p rows) seq.
Proof.
  intros [Hnd Hle]. split.
  - now rewrite map_id_unset_default_where.
  - rewrite Forall_forall in *. intros x Hx.
    apply in_unset_default_where in Hx. destruct Hx as (r & Hr & ->).
    specialize (Hle r Hr). now destruct (p r).
Qed.

Lemma find_id_unset_default_where p rows k :
  find (fun a => address_id a =? k) (unset_default_where p rows)
  = option_map (fun r => if p r then with_is_default false r else r)
               (find (fun a => address_id a =? k) rows).
Proof.
  induction rows as [|r rest IH]; simpl; [reflexivity|].
  replace (address_id (if p r then with_is_default false r else r))
    with (address_id r) by now destruct (p r).
  destruct (address_id r =? k); [reflexivity | exact IH].
Qed.

Lemma filter_unset_default_where q p rows :
  (forall r, p r = true -> q r = false /\ q (with_is_default false r) = false) ->
  filter q (unset_default_where p rows) = filter q rows.
Proof.
  intros H. induction rows as [|r rest IH]; simpl; [reflexivity|].
  rewrite IH. destruct (p r) eqn:Hp; [|reflexivity].
  destruct (H r Hp) as [-> ->]. reflexivity.
Qed.

(** With distinct ids, the rows after [update_first] on an id are the rows
    of other ids and the updated row. *)
Lemma in_update_first_by_id {A} (id : A -> Z) f rows k x :
  NoDup (map id rows) ->
  In x (update_first (fun r => id r =? k) f rows) ->
  (In x rows /\ id x <> k) \/ (exists r, In r rows /\ id r = k /\ x = f r).
Proof.
  induction rows as [|r rest IH]; simpl; [tauto|].
  intros Hnd Hx. inversion Hnd as [|? ? Hnotin Hnd']; subst.
  destruct (id r =? k) eqn:Hk.
  - apply Z.eqb_eq in Hk. destruct Hx as [<- | Hx].
    + right. exists r. auto.
    + left. split; [now right|]. intros Heq. apply Hnotin.
      rewrite Hk, <- Heq. now apply in_map.
  - apply Z.eqb_neq in Hk. destruct Hx as [<- | Hx].
    + left. split; [now left | exact Hk].
    + destruct (IH Hnd' Hx) as [[Hin Hne] | (r' & Hin & Hid & ->)].
      * left. split; [now right | exact Hne].
      * right. exists r'. split; [now right | now split].
Qed.

Lemma in_update_first_updated {A} (p : A -> bool) f rows r :
  find p rows = Some r -> In (f r) (update_first p f rows).
Proof.
  induction rows as [|x rest IH]; simpl; [discriminate|].
  destruct (p x); intros H.
  - injection H as ->. now left.
  - right. now apply IH.
Qed.

Lemma find_unique {A} (p : A -> bool) rows a :
  In a rows -> p a = true ->
  (forall x, In x rows -> p x = true -> x = a) ->
  find p rows = Some a.
Proof.
  intros Hin Hp Hall. destruct (find p rows) as [x|] eqn:Hf.
  - apply find_some in Hf. f_equal. now apply Hall.
  - now rewrite (find_none _ _ Hf a Hin) in Hp.
Qed.

Lemma own_address_cases aid u detail t :
  (exists e, own_address aid u detail t = (Raise e, t))
  \/ (exists a, own_address aid u detail t = (Ok a, t)
               /\ get_address t aid = Some a
               /\ address_user_id a = user_id u).
Proof.
  unfold own_address. destruct (get_address t aid) as [a|]; [|left; eauto].
  destruct (address_user_id a =? user_id u) eqn:Hu; simpl.
  - right. exists a. apply Z.eqb_eq in Hu. auto.
  - left. eauto.
Qed.

Lemma crud_create_address_one_default uid b t :
  one_default_per_user t ->
  one_default_per_user (snd (crud_create_address uid b t)).
Proof.
  intros [Hkey Hone]. unfold crud_create_address. simpl.
  set (q := fun a => (address_user_id a =? uid) && address_is_default a).
  set (rows := if ac_is_default b then unset_default_where q (addresses t)
               else addresses t).
  assert (Hkey' : keyed address_id rows (addresses_id_seq t)).
  { subst rows. destruct (ac_is_default b);
      [now apply keyed_unset_default_where | exact Hkey]. }
  assert (Hold : forall x, In x rows -> address_is_default x = true ->
                 In x (addresses t)
                 /\ (ac_is_default b = true -> address_user_id x <> uid)).
  { subst rows. intros x Hx Hd. destruct (ac_is_default b).
    - destruct (@in_unset_default_where_default _ _ _ Hx Hd) as [Hin Hq].
      split; [exact Hin|]. intros _ Hu. subst q. simpl in Hq.
      rewrite Hd, Hu, Z.eqb_refl in Hq. discriminate.
    - split; [exact Hx | discriminate]. }
  split.
  - destruct Hkey' as [Hnd Hle]. split.
    + eapply NoDup_map_app_fresh; [exact Hnd | exact Hle | simpl; lia].
    + apply Forall_app. split.
      * eapply Forall_impl; [|exact Hle]. simpl. intros; lia.
      * constructor; [simpl; lia | constructor].
  - intros x y Hx Hy Hu Hdx Hdy.
    apply in_app_or in Hx. apply in_app_or in Hy.
    destruct Hx as [Hx | [<- | []]], Hy as [Hy | [<- | []]].
    + destruct (Hold x Hx Hdx) as [Hxin _], (Hold y Hy Hdy) as [Hyin _].
      now apply Hone.
    + simpl in *. destruct (Hold x Hx Hdx) as [_ Hne]. now elim (Hne Hdy).
    + simpl in *. destruct (Hold y Hy Hdy) as [_ Hne].
      elim (Hne Hdx). now symmetry.
    + reflexivity.
Qed.

Lemma crud_update_address_one_default aid u t :
  one_default_per_user t ->
  one_default_per_user (snd (crud_update_address aid u t)).
Proof.
  intros [Hkey Hone]. unfold crud_update_address.
  destruct (get_address t aid) as [dba|] eqn:Hget; [|now split].
  simpl.
  set (q := fun a => (address_user_id a =? address_user_id dba)
                     && address_is_default a && negb (address_id a =? aid)).
  set (flag := or_old (au_is_default u) false).
  set (rows := if flag then unset_default_where q (addresses t)
               else addresses t).
  assert (Hkey' : keyed address_id rows (addresses_id_seq t)).
  { subst rows. destruct flag;
      [now apply keyed_unset_default_where | exact Hkey]. }
  unfold get_address in Hget.
  pose proof (find_some _ _ Hget) as [Hdba Hdbaid]. apply Z.eqb_eq in Hdbaid.
  assert (Hold : forall x, In x rows -> address_is_default x = true ->
                 address_id x <> aid ->
                 In x (addresses t)
                 /\ (flag = true ->
                     address_user_id x <> address_user_id dba)).
  { subst rows. intros x Hx Hd Hid. destruct flag.
    - destruct (@in_unset_default_where_default _ _ _ Hx Hd) as [Hin Hq].
      split; [exact Hin|]. intros _ Hu. subst q. simpl in Hq.
      apply Z.eqb_neq in Hid. rewrite Hd, Hu, Z.eqb_refl, Hid in Hq.
      discriminate.
    - split; [exact Hx | discriminate]. }
  assert (Hrow : forall r, In r rows -> address_id r = aid -> r = dba).
  { subst rows. intros r Hr Hid. destruct flag.
    - apply in_unset_default_where in Hr. destruct Hr as (r0 & Hr0 & ->).
      assert (address_id r0 = aid) by (now destruct (q r0)).
      assert (r0 = dba)
        by (eapply keyed_same_id; [exact Hkey | exact Hr0 | exact Hdba |
            congruence]).
      subst r0. subst q. simpl. rewrite Hdbaid, !Z.eqb_refl. simpl.
      now rewrite andb_false_r.
    - eapply keyed_same_id; [exact Hkey | exact Hr | exact Hdba |
        congruence]. }
  split.
  - destruct Hkey' as [Hnd Hle]. split; cbn [addresses addresses_id_seq].
    + now rewrite map_update_first_same.
    + apply Forall_update_first; [exact Hle | auto].
  - intros x y Hx Hy Hu Hdx Hdy.
    apply in_update_first_by_id in Hx; [|exact (proj1 Hkey')].
    apply in_update_first_by_id in Hy; [|exact (proj1 Hkey')].
    destruct Hx as [[Hx Hxid] | (rx & Hrx & Hrxid & ->)],
             Hy as [[Hy Hyid] | (ry & Hry & Hryid & ->)].
    + destruct (Hold x Hx Hdx Hxid) as [Hxin _].
      destruct (Hold y Hy Hdy Hyid) as [Hyin _]. now apply Hone.
    + rewrite (Hrow ry Hry Hryid) in *. simpl in Hu, Hdy.
      destruct (Hold x Hx Hdx Hxid) as [Hxin Hne].
      destruct flag eqn:Hflag; [now elim (Hne eq_refl)|].
      subst flag. destruct (au_is_default u) as [[|]|];
        simpl in Hflag, Hdy; try discriminate.
      elim Hxid. rewrite (Hone x dba Hxin Hdba Hu Hdx Hdy). exact Hdbaid.
    + rewrite (Hrow rx Hrx Hrxid) in *. simpl in Hu, Hdx.
      destruct (Hold y Hy Hdy Hyid) as [Hyin Hne].
      destruct flag eqn:Hflag; [elim (Hne eq_refl); now symmetry|].
      subst flag. destruct (au_is_default u) as [[|]|];
        simpl in Hflag, Hdx; try discriminate.
      elim Hyid. symmetry in Hu.
      rewrite (Hone y dba Hyin Hdba Hu Hdy Hdx). exact Hdbaid.
    + now rewrite (Hrow rx Hrx Hrxid), (Hrow ry Hry Hryid).
Qed.

Lemma crud_delete_address_one_default aid t :
  one_default_per_user t ->
  one_default_per_user (snd (crud_delete_address aid t)).
Proof.
  intros [[Hnd Hle] Hone]. unfold crud_delete_address.
  destruct (get_address t aid) as [dba|]; [|now repeat split].
  simpl. repeat split.
  - now apply NoDup_map_remove_first.
  - now apply Forall_remove_first.
  - intros x y Hx Hy. apply in_remove_first in Hx, Hy. now apply Hone.
Qed.

Lemma serve_address_one_default req t :
  one_default_per_user t -> one_default_per_user (serve_address req t).
Proof.
  intros H. destruct req as [u b | aid u b | aid u]; simpl.
  - now apply crud_create_address_one_default.
  - unfold router_update_address, bindA.
    destruct (own_address_cases aid u
                "You can only update your own addresses" t)
      as [(e & ->) | (a & -> & _)]; [exact H|].
    now apply crud_update_address_one_default.
  - unfold router_delete_address, bindA.
    destruct (own_address_cases aid u
                "You can only delete your own addresses" t)
      as [(e & ->) | (a & -> & _)]; [exact H|].
    now apply crud_delete_address_one_default.
Qed.

Lemma scenario_addresses_one_default : one_default_per_user scenario_addresses.
Proof.
  split.
  - split.
    + simpl. repeat (constructor; [simpl; intuition discriminate|]).
      constructor.
    + simpl. repeat constructor; simpl; lia.
  - simpl. intros a b Ha Hb Hu Hda Hdb.
    destruct Ha as [<- | [<- | [<- | []]]], Hb as [<- | [<- | [<- | []]]];
      simpl in *; try reflexivity; discriminate.
Defined.

(** X28. Over any history of requests to the address endpoints (create,
    update, delete, each by any user) the addresses table keeps distinct
    ids within the sequence and no user ever has two default addresses. *)
Theorem addresses_keep_one_default_per_user history t :
  one_default_per_user t ->
  one_default_per_user (serve_addresses history t).
Proof.
  unfold serve_addresses. revert t.
  induction history as [|req rest IH]; intros t H; simpl; [exact H|].
  apply IH. now apply serve_address_one_default.
Qed.

Lemma addresses_keep_one_default_per_user_witness :
  one_default_per_user
    (serve_addresses
       [POST_addresses (mkUser 1)
          (mkAddressCreate "4 New St" "Town" "ST" "US" None true);
        PUT_addresses 2 (mkUser 1)
          (mkAddressUpdate None None None None None (Some true));
        DELETE_addresses 3 (mkUser 2)]
       scenario_addresses).
Proof.
  apply (@addresses_keep_one_default_per_user _ scenario_addresses).
  exact scenario_addresses_one_default.
Defined.

(** X29. An address made the default becomes its user's only default
    address: after a create with [is_default] set, and after an update of
    one's own address with [is_default = true], the returned address is in
    the table, it is what a lookup of the user's default finds, and no
    other address of that user is marked default. *)
Theorem address_made_default_is_the_only_default t u :
  keyed address_id (addresses t) (addresses_id_seq t) ->
  (forall b, ac_is_default b = true ->
     exists a t',
       router_create_address b u t = (Ok a, t')
       /\ address_is_default a = true
       /\ default_address t' (user_id u) = Some a
       /\ forall x, In x (addresses t') ->
                    address_user_id x = user_id u ->
                    address_is_default x = true -> x = a)
  /\ (forall aid upd dba,
        get_address t aid = Some dba ->
        address_user_id dba = user_id u ->
        au_is_default upd = Some true ->
        exists t',
          router_update_address aid upd u t
          = (Ok (Some (apply_address_update upd dba)), t')
          /\ default_address t' (user_id u)
             = Some (apply_address_update upd dba)
          /\ forall x, In x (addresses t') ->
                       address_user_id x = user_id u ->
                       address_is_default x = true ->
                       x = apply_address_update upd dba).
Proof.
  intros Hkey. split.
  - intros b Hb. do 2 eexists. split; [reflexivity|]. simpl. rewrite Hb.
    set (new := mkAddress _ _ _ _ _ _ _ _).
    set (q := fun a => (address_user_id a =? user_id u)
                       && address_is_default a).
    assert (Honly : forall x,
               In x (unset_default_where q (addresses t) ++ [new]) ->
               q x = true -> x = new).
    { intros x Hx Hq. apply in_app_or in Hx.
      destruct Hx as [Hx | [<- | []]]; [|reflexivity].
      pose proof Hq as Hq'. subst q. simpl in Hq'.
      apply andb_true_iff in Hq'. destruct Hq' as [_ Hd].
      destruct (@in_unset_default_where_default _ _ _ Hx Hd) as [_ Hq''].
      simpl in Hq''. congruence. }
    assert (Hnew : q new = true)
      by (subst q new; simpl; now rewrite Z.eqb_refl).
    split; [reflexivity|]. split.
    + unfold default_address. simpl.
      apply find_unique; [apply in_or_app; right; now left | exact Hnew |].
      exact Honly.
    + intros x Hx Hu Hd. apply Honly; [exact Hx|].
      subst q. simpl. now rewrite Hu, Z.eqb_refl, Hd.
  - intros aid upd dba Hget Hu Hupd.
    unfold router_update_address, bindA, own_address, crud_update_address.
    rewrite Hget, Hu, Z.eqb_refl. simpl. rewrite Hget, Hupd. simpl.
    eexists. split; [reflexivity|]. simpl.
    set (q := fun a => (address_user_id a =? address_user_id dba)
                       && address_is_default a && negb (address_id a =? aid)).
    set (new := apply_address_update upd dba).
    unfold get_address in Hget.
    pose proof (find_some _ _ Hget) as [Hdba Hdbaid].
    apply Z.eqb_eq in Hdbaid.
    pose proof (keyed_unset_default_where q Hkey) as [Hnd' _].
    assert (Hfind : find (fun a => address_id a =? aid)
                         (unset_default_where q (addresses t)) = Some dba).
    { rewrite find_id_unset_default_where, Hget. simpl.
      subst q. simpl. rewrite Hdbaid, !Z.eqb_refl. simpl.
      now rewrite andb_false_r. }
    assert (Honly : forall x,
               In x (update_first (fun a => address_id a =? aid)
                       (apply_address_update upd)
                       (unset_default_where q (addresses t))) ->
               address_user_id x = user_id u ->
               address_is_default x = true -> x = new).
    { intros x Hx Hxu Hd.
      apply in_update_first_by_id in Hx; [|exact Hnd'].
      destruct Hx as [[Hx Hxid] | (r & Hr & Hrid & ->)].
      - destruct (@in_unset_default_where_default _ _ _ Hx Hd) as [_ Hq].
        subst q. simpl in Hq. apply Z.eqb_neq in Hxid.
        rewrite Hxu, Hu, Z.eqb_refl, Hd, Hxid in Hq. discriminate.
      - pose proof (find_some _ _ Hfind) as [Hdba' _].
        assert (r = dba); [|now subst r].
        eapply NoDup_map_same; [exact Hnd' | exact Hr | exact Hdba' | congruence]. }
    assert (Hnewd : address_is_default new = true)
      by (subst new; simpl; now rewrite Hupd).
    assert (Hnewu : address_user_id new = user_id u) by exact Hu.
    split.
    + unfold default_address. simpl. apply find_unique.
      * now apply in_update_first_updated.
      * now rewrite Hnewu, Z.eqb_refl, Hnewd.
      * intros x Hx Hq. apply andb_true_iff in Hq. destruct Hq as [Hxu Hd].
        apply Z.eqb_eq in Hxu. now apply Honly.
    + exact Honly.
Qed.

Lemma address_made_default_is_the_only_default_witness :
  (forall b, ac_is_default b = true ->
     exists a t',
       router_create_address b (mkUser 1) scenario_addresses = (Ok a, t')
       /\ address_is_default a = true
       /\ default_address t' 1 = Some a
       /\ forall x, In x (addresses t') ->
                    address_user_id x = 1 ->
                    address_is_default x = true -> x = a)
  /\ (forall aid upd dba,
        get_address scenario_addresses aid = Some dba ->
        address_user_id dba = 1 ->
        au_is_default upd = Some true ->
        exists t',
          router_update_address aid upd (mkUser 1) scenario_addresses
          = (Ok (Some (apply_address_update upd dba)), t')
          /\ default_address t' 1 = Some (apply_address_update upd dba)
          /\ forall x, In x (addresses t') ->
                       address_user_id x = 1 ->
                       address_is_default x = true ->
                       x = apply_address_update upd dba).
Proof.
  apply (@address_made_default_is_the_only_default
           scenario_addresses (mkUser 1)).
  exact (proj1 scenario_addresses_one_default).
Defined.

(** X30. A request to the address endpoints never changes another user's
    addresses: whatever [current_user] creates, updates or deletes, and
    whether the request succeeds or is refused, the addresses of everybody
    else are the same rows in the same order. *)
Theorem address_handlers_keep_other_users_addresses req t :
  addresses_of_others (address_requester req) (serve_address req t)
  = addresses_of_others (address_requester req) t.
Proof.
  unfold addresses_of_others.
  destruct req as [u b | aid u b | aid u]; simpl.
  - rewrite filter_app. simpl. rewrite Z.eqb_refl. simpl.
    rewrite app_nil_r. destruct (ac_is_default b); [|reflexivity].
    apply filter_unset_default_where. intros r Hr. simpl.
    apply andb_true_iff in Hr. destruct Hr as [-> _]. now split.
  - unfold router_update_address, bindA.
    destruct (own_address_cases aid u
                "You can only update your own addresses" t)
      as [(e & ->) | (a & -> & Hget & Hu)]; [reflexivity|].
    unfold crud_update_address. rewrite Hget. simpl.
    set (q := fun a0 => (address_user_id a0 =? address_user_id a)
                        && address_is_default a0
                        && negb (address_id a0 =? aid)).
    assert (Hq : filter (fun a0 => negb (address_user_id a0 =? user_id u))
                        (unset_default_where q (addresses t))
                 = filter (fun a0 => negb (address_user_id a0 =? user_id u))
                          (addresses t)).
    { apply filter_unset_default_where. intros r Hr. subst q. simpl in *.
      apply andb_true_iff in Hr. destruct Hr as [Hr _].
      apply andb_true_iff in Hr. destruct Hr as [Hr _].
      rewrite Hu in Hr. rewrite Hr. now split. }
    destruct (or_old (au_is_default b) false).
    + rewrite filter_update_first; [exact Hq|].
      intros r Hr. rewrite find_id_unset_default_where in Hr.
      unfold get_address in Hget. rewrite Hget in Hr. simpl in Hr.
      injection Hr as <-.
      replace (address_user_id (apply_address_update b
                 (if q a then with_is_default false a else a)))
        with (address_user_id a) by now destruct (q a).
      replace (address_user_id (if q a then with_is_default false a else a))
        with (address_user_id a) by now destruct (q a).
      rewrite Hu, Z.eqb_refl. now split.
    + apply filter_update_first. intros r Hr.
      unfold get_address in Hget. rewrite Hget in Hr. injection Hr as <-.
      simpl. rewrite Hu, Z.eqb_refl. now split.
  - unfold router_delete_address, bindA.
    destruct (own_address_cases aid u
                "You can only delete your own addresses" t)
      as [(e & ->) | (a & -> & Hget & Hu)]; [reflexivity|].
    unfold crud_delete_address. rewrite Hget. simpl.
    apply filter_remove_first. intros r Hr.
    unfold get_address in Hget. rewrite Hget in Hr. injection Hr as <-.
    now rewrite Hu, Z.eqb_refl.
Qed.
